(** * The DQS (Digitization Quality Score) calculator of hack-nacc

    A shallow embedding of [src/validators/dqs_calculator.py] and the
    properties of its field, table and section scoring, followed by the
    parts of the extraction pipeline around it: the enum loader, the
    batching of the pages of a document, the rows that the pipeline builds
    for the assets of a document, and the page ranges of the PDF reader.

    Modelling conventions.
    - A pandas cell is a [value]: [None], a [bool], an [int], a [float] or a
      [str].  Python strings are byte strings here; whitespace and letter
      case are the ASCII ones (other Unicode whitespace, case mappings and
      digits are not modelled).
    - A Python float is a [pyfloat]: NaN, an infinity, or a finite number
      carried by its exact rational value.  The special values follow
      IEEE 754, and numbers read from text or converted from integers
      respect the range of a double; finite arithmetic is exact (rounding to
      53 bits is not modelled), which is the reading of a score as a real
      number in [0,1].  Where a property turns on the rounding itself (the
      weighted rollup and its threshold) the arithmetic is that of binary64,
      on the kernel's floats ([Binary64]).
    - Builtins that can raise ([int], [float]) return a [result]; the
      [try]/[except] blocks of the source catch exactly the exception
      classes they name.  The limit of [int] on the number of digits of its
      argument (a ValueError in recent Python versions) is not modelled.
    - A DataFrame is its list of column labels and its rows in order, each
      row a map from label to cell; the conversions pandas applies when it
      hands out a row as a Series are not modelled, nor the type that a
      column takes from all of its cells.  A table is therefore compared
      with tables cut out of it only, which keep its columns and their
      types.
    - A dict is a list of pairs in insertion order.
    - What the extractor returns is JSON: an object maps names to scalars
      or to objects of scalars.  Calls that leave the program (the model,
      the PDF renderer) are parameters of the sections that need them.

    The definitions come first: the embedding of the source, then the rules
    in the words of the specification, then what the proofs need.  The
    properties follow. *)

From Stdlib Require Import PrimFloat.
From Stdlib Require Import ZArith QArith Qabs Lia Lqa List Bool Ascii String.
From Stdlib Require Import DecimalString.
From stdpp Require Import base option gmap strings.
Import ListNotations.

(** Decimal constants such as 0.30 stand for the nearest binary64 float,
    as in Python. *)
Set Warnings "-inexact-float".

Local Open Scope string_scope.
Local Open Scope Z_scope.

(** ** Python exceptions and results *)

Inductive exn := ValueError | TypeError | OverflowError.

Inductive result (A : Type) :=
| Ok (a : A)
| Raise (e : exn).
Arguments Ok {A} a.
Arguments Raise {A} e.

#[export] Instance result_ret : MRet result := fun _ a => Ok a.
#[export] Instance result_bind : MBind result := fun _ _ f m =>
  match m with
  | Ok a => f a
  | Raise e => Raise e
  end.

(** [except (ValueError, TypeError):] of the source. *)
Definition caught (e : exn) : bool :=
  match e with
  | ValueError | TypeError => true
  | OverflowError => false
  end.

(** ** Strings *)

Module Str.

(** [str.isspace] on one ASCII character: TAB..CR, FS..US and the space. *)
Definition is_space (c : ascii) : bool :=
  let n := nat_of_ascii c in
  ((9 <=? n)%nat && (n <=? 13)%nat) || ((28 <=? n)%nat && (n <=? 32)%nat).

Definition is_digit (c : ascii) : bool :=
  let n := nat_of_ascii c in (48 <=? n)%nat && (n <=? 57)%nat.

Definition to_upper (c : ascii) : ascii :=
  let n := nat_of_ascii c in
  if (97 <=? n)%nat && (n <=? 122)%nat then ascii_of_nat (n - 32) else c.

Definition to_lower (c : ascii) : ascii :=
  let n := nat_of_ascii c in
  if (65 <=? n)%nat && (n <=? 90)%nat then ascii_of_nat (n + 32) else c.

Fixpoint map (f : ascii -> ascii) (s : string) : string :=
  match s with
  | EmptyString => EmptyString
  | String c s' => String (f c) (map f s')
  end.

Definition upper : string -> string := map to_upper.
Definition lower : string -> string := map to_lower.

Fixpoint lstrip (space : ascii -> bool) (s : string) : string :=
  match s with
  | EmptyString => EmptyString
  | String c s' => if space c then lstrip space s' else s
  end.

Fixpoint rstrip (space : ascii -> bool) (s : string) : string :=
  match s with
  | EmptyString => EmptyString
  | String c s' =>
      match rstrip space s' with
      | EmptyString => if space c then EmptyString else String c EmptyString
      | r => String c r
      end
  end.

(** [s.strip()] *)
Definition strip (s : string) : string := rstrip is_space (lstrip is_space s).

(** The blanks that [int] and [float] skip around a number: of the ASCII
    characters, TAB..CR and the space only. *)
Definition is_blank (c : ascii) : bool :=
  let n := nat_of_ascii c in
  ((9 <=? n)%nat && (n <=? 13)%nat) || (n =? 32)%nat.

Definition strip_blanks (s : string) : string :=
  rstrip is_blank (lstrip is_blank s).

(** [not s] *)
Definition is_empty (s : string) : bool :=
  match s with EmptyString => true | _ => false end.

(** [s.split(sep, 1)] on a set of separators: the part before the first
    separator and, when there is one, the part after it. *)
Fixpoint cut (sep : ascii -> bool) (s : string) : string * option string :=
  match s with
  | EmptyString => (EmptyString, None)
  | String c s' =>
      if sep c then (EmptyString, Some s')
      else let '(a, b) := cut sep s' in (String c a, b)
  end.

End Str.

(** ** Python floats *)

Inductive pyfloat :=
| NaN
| Inf (neg : bool)
| Fin (q : Q).

Module F.

Local Open Scope Q_scope.

Definition zero : pyfloat := Fin 0.
Definition one : pyfloat := Fin 1.

Definition of_Z (z : Z) : pyfloat := Fin (inject_Z z).
Definition of_nat (n : nat) : pyfloat := of_Z (Z.of_nat n).

Definition is_neg (q : Q) : bool := negb (Qle_bool 0 q).
Definition is_zero (q : Q) : bool := Qeq_bool q 0.

(** [x == 0] *)
Definition eq_zero (x : pyfloat) : bool :=
  match x with
  | Fin q => is_zero q
  | _ => false
  end.

(** [x > y] *)
Definition gt (x y : pyfloat) : bool :=
  match x, y with
  | NaN, _ | _, NaN => false
  | Inf nx, Inf ny => negb nx && ny
  | Inf nx, Fin _ => negb nx
  | Fin _, Inf ny => ny
  | Fin p, Fin q => negb (Qle_bool p q)
  end.

(** [x >= y] *)
Definition ge (x y : pyfloat) : bool :=
  match x, y with
  | NaN, _ | _, NaN => false
  | Inf nx, Inf ny => negb nx || ny
  | Inf nx, Fin _ => negb nx
  | Fin _, Inf ny => ny
  | Fin p, Fin q => Qle_bool q p
  end.

Definition neg (x : pyfloat) : pyfloat :=
  match x with
  | NaN => NaN
  | Inf n => Inf (negb n)
  | Fin q => Fin (- q)
  end.

(** [abs(x)] *)
Definition abs (x : pyfloat) : pyfloat :=
  match x with
  | NaN => NaN
  | Inf _ => Inf false
  | Fin q => Fin (Qabs q)
  end.

(** [x + y] *)
Definition add (x y : pyfloat) : pyfloat :=
  match x, y with
  | NaN, _ | _, NaN => NaN
  | Inf nx, Inf ny => if Bool.eqb nx ny then Inf nx else NaN
  | Inf nx, Fin _ => Inf nx
  | Fin _, Inf ny => Inf ny
  | Fin p, Fin q => Fin (p + q)
  end.

(** [x - y] *)
Definition sub (x y : pyfloat) : pyfloat := add x (neg y).

(** [x * y] *)
Definition mul (x y : pyfloat) : pyfloat :=
  match x, y with
  | NaN, _ | _, NaN => NaN
  | Inf nx, Inf ny => Inf (xorb nx ny)
  | Inf nx, Fin q => if is_zero q then NaN else Inf (xorb nx (is_neg q))
  | Fin p, Inf ny => if is_zero p then NaN else Inf (xorb (is_neg p) ny)
  | Fin p, Fin q => Fin (p * q)
  end.

(** [x / y].  Python raises [ZeroDivisionError] on a zero divisor; every
    division of the source is guarded against it ([max(len(truth_str), 1)],
    the test [truth_val == 0], the test [len(ground_truth_df) > 0] and the
    tests [if scores]), so a zero divisor is never reached and is given NaN,
    the value of [numpy.mean] on an empty list. *)
Definition div (x y : pyfloat) : pyfloat :=
  match x, y with
  | NaN, _ | _, NaN => NaN
  | Inf _, Inf _ => NaN
  | Inf nx, Fin q => Inf (xorb nx (is_neg q))
  | Fin _, Inf _ => Fin 0
  | Fin p, Fin q => if is_zero q then NaN else Fin (p / q)
  end.

(** [max(0, x)]: Python's [max] keeps its first argument unless a later one
    is strictly greater, so a NaN never replaces the [0]. *)
Definition max0 (x : pyfloat) : pyfloat :=
  if gt x zero then x else zero.

(** The first magnitude that no longer rounds to a finite double, and the
    last one that rounds to zero. *)
Definition overflow_bound : Z := 2 ^ 1024 - 2 ^ 970.
Definition underflow_bound : Q := 1 # (2 ^ 1075).

(** Range of a double for a number read from text: too large becomes an
    infinity, too small becomes zero. *)
Definition of_Q_in_range (q : Q) : pyfloat :=
  if Qle_bool (inject_Z overflow_bound) (Qabs q) then Inf (is_neg q)
  else if Qle_bool (Qabs q) underflow_bound then Fin 0
  else Fin q.

(** [x] is the finite float whose value is [q]. *)
Definition has_value (x : pyfloat) (q : Q) : Prop :=
  match x with
  | Fin p => p == q
  | _ => False
  end.

(** The rational carried by a finite float. *)
Definition value (x : pyfloat) : Q :=
  match x with
  | Fin q => q
  | _ => 0
  end.

(** A float that is NaN or not negative. *)
Definition nan_or_nonneg (x : pyfloat) : Prop :=
  match x with
  | NaN => True
  | Inf n => n = false
  | Fin q => 0 <= q
  end.

(** A score: a finite float between 0 and 1. *)
Definition is_score (x : pyfloat) : Prop :=
  match x with
  | Fin p => 0 <= p <= 1
  | _ => False
  end.

End F.

(** [r] is a returned float of value [q]. *)
Definition returns_value (r : result pyfloat) (q : Q) : Prop :=
  match r with
  | Ok x => F.has_value x q
  | Raise _ => False
  end.

(** ** Cell values *)

(** A scalar held by a DataFrame cell.  [VFloat x shown] is the float [x];
    [shown] is what [str] prints for it when it is finite (the shortest
    decimal that reads back as the same double, [45.0] for the float 45),
    kept as data because the model carries finite floats by their exact
    value. *)
Inductive value :=
| VNone
| VBool (b : bool)
| VInt (z : Z)
| VFloat (x : pyfloat) (shown : string)
| VStr (s : string).

(** The missing-value marker of pandas, [float('nan')]. *)
Definition VNaN : value := VFloat NaN "nan".

Module Py.

(** [pd.isna(v)] on a scalar: [None] and NaN. *)
Definition isna (v : value) : bool :=
  match v with
  | VNone | VFloat NaN _ => true
  | _ => false
  end.

Definition str_of_Z (z : Z) : string := NilZero.string_of_int (Z.to_int z).

(** [str(v)] *)
Definition str (v : value) : string :=
  match v with
  | VNone => "None"
  | VBool true => "True"
  | VBool false => "False"
  | VInt z => str_of_Z z
  | VFloat NaN _ => "nan"
  | VFloat (Inf false) _ => "inf"
  | VFloat (Inf true) _ => "-inf"
  | VFloat (Fin _) shown => shown
  | VStr s => s
  end.

(** Truth value of [v], as in [v and ...]. *)
Definition truthy (v : value) : bool :=
  match v with
  | VNone => false
  | VBool b => b
  | VInt z => negb (z =? 0)
  | VFloat (Fin q) _ => negb (F.is_zero q)
  | VFloat _ _ => true
  | VStr s => negb (Str.is_empty s)
  end.

Definition digit_of (c : ascii) : option Z :=
  if Str.is_digit c then Some (Z.of_nat (nat_of_ascii c) - 48) else None.

(** A run of digits in which single underscores may separate digits
    ([digit (["_"] digit)*]): its value and its number of digits. *)
Fixpoint digitpart (s : string) (acc : Z) (n : nat) (after_digit : bool)
  : option (Z * nat) :=
  match s with
  | EmptyString => if after_digit then Some (acc, n) else None
  | String c s' =>
      if Ascii.eqb c "_" then
        if after_digit then digitpart s' acc n false else None
      else
        match digit_of c with
        | Some d => digitpart s' (10 * acc + d) (S n) true
        | None => None
        end
  end.

Definition split_sign (s : string) : bool * string :=
  match s with
  | String "-" s' => (true, s')
  | String "+" s' => (false, s')
  | _ => (false, s)
  end.

(** The text accepted by [int(s)] in base 10. *)
Definition int_of_string (s : string) : option Z :=
  let '(neg, body) := split_sign (Str.strip_blanks s) in
  match digitpart body 0 0 false with
  | Some (z, _) => Some (if neg then - z else z)
  | None => None
  end.

Definition pow10 (e : Z) : Q :=
  if 0 <=? e then inject_Z (10 ^ e) else (1 # Z.to_pos (10 ^ (- e)))%Q.

Definition is_e (c : ascii) : bool := Ascii.eqb c "e" || Ascii.eqb c "E".
Definition is_point (c : ascii) : bool := Ascii.eqb c ".".

(** [digitpart ["." [digitpart]] | "." digitpart]: the digits read as one
    integer, and how many of them follow the point. *)
Definition decimal_of_string (s : string) : option (Z * nat) :=
  let '(ip, fp) := Str.cut is_point s in
  match Str.is_empty ip, fp with
  | true, None => None
  | true, Some f =>
      match digitpart f 0 0 false with
      | Some (z, n) => Some (z, n)
      | None => None
      end
  | false, None =>
      match digitpart ip 0 0 false with
      | Some (z, _) => Some (z, 0%nat)
      | None => None
      end
  | false, Some f =>
      match digitpart ip 0 0 false with
      | Some (z, _) =>
          if Str.is_empty f then Some (z, 0%nat)
          else match digitpart f z 0 false with
               | Some (z', n) => Some (z', n)
               | None => None
               end
      | None => None
      end
  end.

Definition exponent_of_string (e : option string) : option Z :=
  match e with
  | None => Some 0
  | Some s =>
      let '(neg, body) := split_sign s in
      match digitpart body 0 0 false with
      | Some (z, _) => Some (if neg then - z else z)
      | None => None
      end
  end.

(** The text accepted by [float(s)]: an optional sign, then [inf],
    [infinity], [nan] in any letter case or a decimal number with an
    optional exponent. *)
Definition float_of_string (s : string) : option pyfloat :=
  let '(neg, body) := split_sign (Str.strip_blanks s) in
  let low := Str.lower body in
  if String.eqb low "inf" || String.eqb low "infinity" then Some (Inf neg)
  else if String.eqb low "nan" then Some NaN
  else
    let '(mant, e) := Str.cut is_e body in
    match decimal_of_string mant, exponent_of_string e with
    | Some (m, n), Some x =>
        let q := (inject_Z (if neg then - m else m) * pow10 (x - Z.of_nat n))%Q in
        Some (F.of_Q_in_range q)
    | _, _ => None
    end.

(** [float(v)] *)
Definition float (v : value) : result pyfloat :=
  match v with
  | VNone => Raise TypeError
  | VBool b => Ok (if b then F.one else F.zero)
  | VInt z =>
      if F.overflow_bound <=? Z.abs z then Raise OverflowError
      else Ok (F.of_Z z)
  | VFloat x _ => Ok x
  | VStr s =>
      match float_of_string s with
      | Some x => Ok x
      | None => Raise ValueError
      end
  end.

(** [int(v)]: a float is truncated towards zero. *)
Definition int (v : value) : result Z :=
  match v with
  | VNone => Raise TypeError
  | VBool b => Ok (if b then 1 else 0)
  | VInt z => Ok z
  | VFloat NaN _ => Raise ValueError
  | VFloat (Inf _) _ => Raise OverflowError
  | VFloat (Fin q) _ => Ok (Z.quot (Qnum q) (Z.pos (Qden q)))
  | VStr s =>
      match int_of_string s with
      | Some z => Ok z
      | None => Raise ValueError
      end
  end.

(** The number a cell stands for in a comparison, if it is one. *)
Definition number (v : value) : option pyfloat :=
  match v with
  | VBool b => Some (if b then F.one else F.zero)
  | VInt z => Some (F.of_Z z)
  | VFloat x _ => Some x
  | _ => None
  end.

Definition float_eq (x y : pyfloat) : bool :=
  match x, y with
  | Inf a, Inf b => Bool.eqb a b
  | Fin p, Fin q => Qeq_bool p q
  | _, _ => false
  end.

(** [a == b] on scalars: numbers compare by value across [bool], [int] and
    [float]; strings compare with strings; [None] equals itself only. *)
Definition eq (a b : value) : bool :=
  match a, b with
  | VNone, VNone => true
  | VStr s, VStr t => String.eqb s t
  | _, _ =>
      match number a, number b with
      | Some x, Some y => float_eq x y
      | _, _ => false
      end
  end.

End Py.

(** ** [Levenshtein.distance] *)

Module Levenshtein.

(** One row of the edit-distance table from the row above it: [up] runs
    over the row above, [diag] is its entry one column to the left, [left]
    the entry just computed. *)
Fixpoint next_row (c : ascii) (t : string) (above : list nat) (diag left : nat)
  : list nat :=
  match t, above with
  | String d t', up :: above' =>
      let cost := if Ascii.eqb c d then 0%nat else 1%nat in
      let v := Nat.min (Nat.min (S up) (S left)) (diag + cost) in
      v :: next_row c t' above' up v
  | _, _ => []
  end.

Fixpoint rows (s t : string) (row : list nat) : list nat :=
  match s with
  | EmptyString => row
  | String c s' =>
      let first := S (List.hd 0%nat row) in
      rows s' t (first :: next_row c t (List.tl row) (List.hd 0%nat row) first)
  end.

(** Insertions, deletions and substitutions of single characters. *)
Definition distance (s t : string) : nat :=
  List.last (rows s t (List.seq 0 (S (String.length t)))) 0%nat.

End Levenshtein.

(** ** Field scores ([DQSCalculator.calculate_*_score]) *)

Local Open Scope Q_scope.

(** [str(x).upper() == "NONE"] *)
Definition says_none (x : value) : bool :=
  String.eqb (Str.upper (Py.str x)) "NONE".

(** [pd.isna(x) or str(x).upper() == "NONE"] *)
Definition null_or_none (x : value) : bool := Py.isna x || says_none x.

(** [int(x) if x and str(x).upper() != "NONE" else None] *)
Definition int_or_none (x : value) : result (option Z) :=
  if Py.truthy x && negb (says_none x) then z ← Py.int x; Ok (Some z)
  else Ok None.

(** The three [try] blocks of [calculate_date_score]:
    [try: p = ...; t = ... except (ValueError, TypeError): p = t = None]. *)
Definition try_int_pair (pred truth : value) : result (option Z * option Z) :=
  match (p ← int_or_none pred; t ← int_or_none truth; Ok (p, t)) with
  | Ok pt => Ok pt
  | Raise e => if caught e then Ok (None, None) else Raise e
  end.

(** [p != t] on [Optional[int]] *)
Definition opt_neq (p t : option Z) : bool :=
  match p, t with
  | Some a, Some b => negb (a =? b)%Z
  | None, None => false
  | _, _ => true
  end.

Definition is_None (p : option Z) : bool :=
  match p with None => true | Some _ => false end.

Definition calculate_date_score
  (pred_date pred_month pred_year truth_date truth_month truth_year : value)
  : result pyfloat :=
  let all_pred_null := forallb null_or_none [pred_date; pred_month; pred_year] in
  let all_truth_null := forallb null_or_none [truth_date; truth_month; truth_year] in
  if all_pred_null && all_truth_null then Ok (Fin 1)
  else if all_pred_null || all_truth_null then Ok (Fin 0)
  else
    '(p_year, t_year) ← try_int_pair pred_year truth_year;
    if opt_neq p_year t_year then
      Ok (if is_None p_year || is_None t_year then Fin 0 else Fin 0)
    else
      '(p_month, t_month) ← try_int_pair pred_month truth_month;
      if opt_neq p_month t_month then Ok (Fin 0.3)
      else
        '(p_date, t_date) ← try_int_pair pred_date truth_date;
        if negb (opt_neq p_date t_date) then Ok (Fin 1)
        else
          match p_date, t_date with
          | Some p, Some t =>
              let date_diff := Z.abs (p - t) in
              if (date_diff <=? 3)%Z then Ok (Fin 0.8) else Ok (Fin 0.5)
          | _, _ => Ok (Fin 0.5)
          end.

Definition calculate_numeric_score (predicted ground_truth : value)
  : result pyfloat :=
  if Py.isna predicted && Py.isna ground_truth then Ok (Fin 1)
  else if Py.isna predicted || Py.isna ground_truth then Ok (Fin 0)
  else
    match (pred_val ← Py.float predicted;
           truth_val ← Py.float ground_truth;
           Ok (pred_val, truth_val)) with
    | Raise e => if caught e then Ok (Fin 0) else Raise e
    | Ok (pred_val, truth_val) =>
        if F.eq_zero truth_val then
          Ok (if F.eq_zero pred_val then Fin 1 else Fin 0)
        else
          let relative_error :=
            F.div (F.abs (F.sub pred_val truth_val)) (F.abs truth_val) in
          Ok (F.max0 (F.sub F.one relative_error))
    end.

Definition calculate_enum_score (predicted ground_truth : value) : pyfloat :=
  if Py.isna predicted && Py.isna ground_truth then Fin 1
  else if Py.isna predicted || Py.isna ground_truth then Fin 0
  else
    let pred_str := Str.lower (Str.strip (Py.str predicted)) in
    let truth_str := Str.lower (Str.strip (Py.str ground_truth)) in
    if String.eqb pred_str "none" && String.eqb truth_str "none" then Fin 1
    else if String.eqb pred_str truth_str then Fin 1 else Fin 0.

(** [val_str in (a, b, c)] *)
Definition one_of (s : string) (l : list string) : bool :=
  existsb (String.eqb s) l.

Definition to_bool (val : value) : option bool :=
  if Py.isna val then None
  else
    match val with
    | VBool b => Some b
    | _ =>
        let val_str := Str.lower (Str.strip (Py.str val)) in
        if one_of val_str ["true"; "1"; "yes"] then Some true
        else if one_of val_str ["false"; "0"; "no"] then Some false
        else None
    end.

Definition calculate_boolean_score (predicted ground_truth : value) : pyfloat :=
  match to_bool predicted, to_bool ground_truth with
  | None, None => Fin 1
  | None, _ | _, None => Fin 0.5
  | Some p, Some t => if Bool.eqb p t then Fin 1 else Fin 0
  end.

Section WithLevenshtein.

(** Whether [import Levenshtein] succeeded when the module was loaded. *)
Variable HAS_LEVENSHTEIN : bool.

Definition calculate_text_score (predicted ground_truth : value) : pyfloat :=
  if Py.isna predicted && Py.isna ground_truth then Fin 1
  else if Py.isna predicted || Py.isna ground_truth then Fin 0
  else
    let pred_str := Str.strip (Py.str predicted) in
    let truth_str := Str.strip (Py.str ground_truth) in
    let pred_str :=
      if String.eqb (Str.upper pred_str) "NONE" then "" else pred_str in
    let truth_str :=
      if String.eqb (Str.upper truth_str) "NONE" then "" else truth_str in
    if Str.is_empty truth_str && Str.is_empty pred_str then Fin 1
    else if Str.is_empty truth_str then
      (if negb (Str.is_empty pred_str) then Fin 0 else Fin 1)
    else
      let distance :=
        if HAS_LEVENSHTEIN then Levenshtein.distance pred_str truth_str
        else if String.eqb pred_str truth_str then 0%nat
             else String.length truth_str in
      let cer :=
        F.div (F.of_nat distance)
              (F.of_nat (Nat.max (String.length truth_str) 1)) in
      let score := F.max0 (F.sub F.one cer) in
      score.

End WithLevenshtein.


(** ** DataFrames *)

(** A table: its column labels and its rows in order.  A row maps a column
    label to its cell; a label the row does not hold reads as NaN, as in a
    DataFrame built from records with different keys.  Rows are numbered
    0, 1, ... (the default index). *)
Record DataFrame := {
  columns : list string;
  rows : list (gmap string value)
}.

Module DF.

(** [pd.DataFrame()] *)
Definition new : DataFrame := {| columns := []; rows := [] |}.

(** [df.empty]: no rows or no columns. *)
Definition empty (df : DataFrame) : bool :=
  match columns df, rows df with
  | [], _ | _, [] => true
  | _, _ => false
  end.

(** [len(df)] *)
Definition len (df : DataFrame) : nat := List.length (rows df).

(** [col in df.columns], and [col in row.index] for a row of [df]. *)
Definition has_column (df : DataFrame) (col : string) : bool :=
  existsb (String.eqb col) (columns df).

(** [row[col]] *)
Definition cell (row : gmap string value) (col : string) : value :=
  default VNaN (row !! col).

(** One entry of [series == scalar]: a missing value equals nothing. *)
Definition cell_eq (a b : value) : bool :=
  if Py.isna a || Py.isna b then false else Py.eq a b.

(** [df[col].dropna()], as the list of its values. *)
Definition column_dropna (df : DataFrame) (col : string) : list value :=
  List.filter (fun v => negb (Py.isna v)) (List.map (fun r => cell r col) (rows df)).

(** [df[df[col].isin(ids)]] *)
Definition where_isin (df : DataFrame) (col : string) (ids : list value)
  : DataFrame :=
  {| columns := columns df;
     rows := List.filter (fun r => existsb (Py.eq (cell r col)) ids) (rows df) |}.

End DF.

(** A dict in insertion order.  The keys of a dict are distinct. *)
Definition dict (V : Type) : Type := list (string * V).

Module Dict.

Fixpoint get {V} (d : dict V) (k : string) : option V :=
  match d with
  | [] => None
  | (k', v) :: d' => if String.eqb k' k then Some v else get d' k
  end.

Definition keys {V} (d : dict V) : list string := List.map fst d.
Definition values {V} (d : dict V) : list V := List.map snd d.

(** [d[k] = v] *)
Fixpoint set {V} (d : dict V) (k : string) (v : V) : dict V :=
  match d with
  | [] => [(k, v)]
  | (k', v') :: d' =>
      if String.eqb k' k then (k', v) :: d' else (k', v') :: set d' k v
  end.

(** [d[k].append(x)] for a dict of lists. *)
Definition append {V} (d : dict (list V)) (k : string) (x : V) : dict (list V) :=
  List.map (fun '(k', l) => if String.eqb k' k then (k', (l ++ [x])%list) else (k', l)) d.

End Dict.

(** A [for] loop whose body may raise. *)
Fixpoint for_each {A S} (body : S -> A -> result S) (l : list A) (s : S)
  : result S :=
  match l with
  | [] => Ok s
  | a :: l' => s' ← body s a; for_each body l' s'
  end.

(** [np.mean(scores)]: the sum divided by the count (NaN on an empty
    list). *)
Definition np_mean (scores : list pyfloat) : pyfloat :=
  F.div (fold_left F.add scores F.zero) (F.of_nat (List.length scores)).

(** ** Table scores ([DQSCalculator.calculate_table_dqs]) *)

Section WithLevenshteinTables.

Variable HAS_LEVENSHTEIN : bool.

(** The [if]/[elif] chain on [field_type], written twice in the source. *)
Definition score_field (field_type : string) (pred truth : value)
  : result pyfloat :=
  if String.eqb field_type "text" then
    Ok (calculate_text_score HAS_LEVENSHTEIN pred truth)
  else if String.eqb field_type "numeric" then
    calculate_numeric_score pred truth
  else if String.eqb field_type "enum" then
    Ok (calculate_enum_score pred truth)
  else if String.eqb field_type "boolean" then
    Ok (calculate_boolean_score pred truth)
  else
    Ok (calculate_text_score HAS_LEVENSHTEIN pred truth).

(** The mask of one truth row on one predicted row: every key column that
    both tables have must be equal. *)
Definition mask (predicted_df ground_truth_df : DataFrame)
  (key_columns : list string) (truth_row pred_row : gmap string value) : bool :=
  forallb (fun key =>
             if DF.has_column predicted_df key && DF.has_column ground_truth_df key
             then DF.cell_eq (DF.cell pred_row key) (DF.cell truth_row key)
             else true)
          key_columns.

(** The loop over [field_types.items()] for one matched pair of rows. *)
Definition score_fields (predicted_df ground_truth_df : DataFrame)
  (field_types : dict string) (pred_row truth_row : gmap string value)
  (all_field_scores : dict (list pyfloat)) : result (dict (list pyfloat)) :=
  for_each
    (fun all_field_scores '(field, field_type) =>
       if DF.has_column predicted_df field && DF.has_column ground_truth_df field
       then
         score ← score_field field_type (DF.cell pred_row field)
                                         (DF.cell truth_row field);
         Ok (Dict.append all_field_scores field score)
       else Ok all_field_scores)
    field_types all_field_scores.

(** One turn of the loop over [ground_truth_df.iterrows()]; the state is
    [all_field_scores] and [matched_count]. *)
Definition score_truth_row (predicted_df ground_truth_df : DataFrame)
  (key_columns : list string) (field_types : dict string)
  (state : dict (list pyfloat) * nat) (truth_row : gmap string value)
  : result (dict (list pyfloat) * nat) :=
  let '(all_field_scores, matched_count) := state in
  let matched_rows :=
    List.filter (mask predicted_df ground_truth_df key_columns truth_row)
                (rows predicted_df) in
  match matched_rows with
  | pred_row :: _ =>
      all_field_scores ←
        score_fields predicted_df ground_truth_df field_types
                     pred_row truth_row all_field_scores;
      Ok (all_field_scores, S matched_count)
  | [] => Ok (all_field_scores, matched_count)
  end.

Definition calculate_table_dqs (predicted_df ground_truth_df : DataFrame)
  (key_columns : list string) (field_types : dict string)
  : result (pyfloat * dict pyfloat) :=
  if DF.empty predicted_df && DF.empty ground_truth_df then Ok (Fin 1, [])
  else if DF.empty predicted_df then Ok (Fin 0, [])
  else if DF.empty ground_truth_df then Ok (Fin 1, [])
  else
    let all_field_scores : dict (list pyfloat) :=
      List.map (fun '(field, _) => (field, [])) field_types in
    '(all_field_scores, matched_count) ←
      for_each
        (score_truth_row predicted_df ground_truth_df key_columns field_types)
        (rows ground_truth_df) (all_field_scores, 0%nat);
    let final_field_scores : dict pyfloat :=
      List.flat_map (fun '(field, scores) =>
                       match scores with
                       | [] => []
                       | _ => [(field, np_mean scores)]
                       end)
                    all_field_scores in
    let coverage :=
      if (0 <? DF.len ground_truth_df)%nat
      then F.div (F.of_nat matched_count) (F.of_nat (DF.len ground_truth_df))
      else Fin 0 in
    let overall :=
      match final_field_scores with
      | [] => Fin 0
      | _ => F.mul (np_mean (Dict.values final_field_scores)) coverage
      end in
    Ok (overall, final_field_scores).

End WithLevenshteinTables.

(** ** The overall score ([DQSCalculator.calculate_overall_dqs]) *)

Definition SECTION_WEIGHTS : dict pyfloat :=
  [ ("submitter_spouse", Fin 0.25);
    ("statement_details", Fin 0.30);
    ("assets", Fin 0.30);
    ("relatives", Fin 0.15) ].

Definition TABLE_TO_SECTION : dict string :=
  [ ("submitter_info", "submitter_spouse");
    ("submitter_old_name", "submitter_spouse");
    ("submitter_position", "submitter_spouse");
    ("spouse_info", "submitter_spouse");
    ("spouse_old_name", "submitter_spouse");
    ("spouse_position", "submitter_spouse");
    ("statement", "statement_details");
    ("statement_detail", "statement_details");
    ("asset", "assets");
    ("asset_land_info", "assets");
    ("asset_building_info", "assets");
    ("asset_vehicle_info", "assets");
    ("asset_other_asset_info", "assets");
    ("relative_info", "relatives") ].

Definition field_type_definitions : dict (dict string) :=
  [ ("submitter_info",
      [ ("title", "text"); ("first_name", "text"); ("last_name", "text");
        ("age", "numeric"); ("status", "text"); ("sub_district", "text");
        ("district", "text"); ("province", "text") ]);
    ("spouse_info",
      [ ("title", "text"); ("first_name", "text"); ("last_name", "text");
        ("age", "numeric"); ("status", "text") ]);
    ("asset",
      [ ("asset_type_id", "enum"); ("asset_name", "text");
        ("valuation", "numeric"); ("owner_by_submitter", "boolean");
        ("owner_by_spouse", "boolean"); ("owner_by_child", "boolean") ]);
    ("relative_info",
      [ ("relationship_id", "enum"); ("title", "text");
        ("first_name", "text"); ("last_name", "text") ]);
    ("statement",
      [ ("statement_type_id", "enum"); ("valuation_submitter", "numeric");
        ("valuation_spouse", "numeric"); ("valuation_child", "numeric") ]) ].

Definition key_columns_map : dict (list string) :=
  [ ("submitter_info", ["submitter_id"]);
    ("submitter_old_name", ["submitter_id"; "nacc_id"]);
    ("submitter_position",
      ["submitter_id"; "nacc_id"; "index"; "position_period_type_id"]);
    ("spouse_info", ["submitter_id"; "nacc_id"]);
    ("spouse_old_name", ["submitter_id"; "nacc_id"]);
    ("spouse_position", ["submitter_id"; "nacc_id"; "position"]);
    ("asset", ["submitter_id"; "nacc_id"; "index"]);
    ("asset_land_info", ["submitter_id"; "nacc_id"; "asset_index"]);
    ("asset_building_info", ["submitter_id"; "nacc_id"; "asset_index"]);
    ("asset_vehicle_info", ["submitter_id"; "nacc_id"; "asset_index"]);
    ("asset_other_asset_info", ["submitter_id"; "nacc_id"; "asset_index"]);
    ("relative_info",
      ["submitter_id"; "nacc_id"; "relationship_id"; "first_name"]);
    ("statement", ["submitter_id"; "nacc_id"; "statement_type_id"]);
    ("statement_detail",
      ["submitter_id"; "nacc_id"; "statement_type_id";
       "statement_detail_type_id"]) ].

(** The report returned by [calculate_overall_dqs]. *)
Record report := {
  overall_dqs : pyfloat;
  passes_threshold : bool;
  section_scores : dict pyfloat;
  table_scores : dict pyfloat
}.

(** The identifiers found in column [col] of the predicted tables (the set
    built by [update(df[col].dropna().unique())]; only membership and
    emptiness of it are used). *)
Definition processed_ids (predicted : gmap string DataFrame) (col : string)
  : list value :=
  List.flat_map
    (fun '(_, df) => if DF.has_column df col then DF.column_dropna df col else [])
    (map_to_list predicted).

Definition non_empty {A} (l : list A) : bool :=
  match l with [] => false | _ => true end.

(** The filter of one ground-truth table. *)
Definition filter_ground_truth
  (processed_submitter_ids processed_nacc_ids : list value) (df : DataFrame)
  : DataFrame :=
  if DF.empty df then df
  else if DF.has_column df "submitter_id" && non_empty processed_submitter_ids
  then DF.where_isin df "submitter_id" processed_submitter_ids
  else if DF.has_column df "nacc_id" && non_empty processed_nacc_ids
  then DF.where_isin df "nacc_id" processed_nacc_ids
  else df.

(** [sum(final_section_scores.get(section, 0) * weight
         for section, weight in SECTION_WEIGHTS.items())] *)
Definition weighted_sum (final_section_scores : dict pyfloat) : pyfloat :=
  fold_left F.add
    (List.map (fun '(section, weight) =>
                 F.mul (default F.zero (Dict.get final_section_scores section))
                       weight)
              SECTION_WEIGHTS)
    F.zero.

(** [np.mean(scores) if scores else 0.0] *)
Definition mean_or_zero (scores : list pyfloat) : pyfloat :=
  match scores with
  | [] => Fin 0
  | _ => np_mean scores
  end.

(** [field_type_definitions.get(table_name, {})], replaced when it is empty
    and the truth table is not by [text] for every truth column but
    [latest_submitted_date]. *)
Definition field_types_for (table_name : string) (truth_df : DataFrame)
  : dict string :=
  let field_types := default [] (Dict.get field_type_definitions table_name) in
  if negb (non_empty field_types) && negb (DF.empty truth_df)
  then List.map (fun col => (col, "text"))
         (List.filter
            (fun col => negb (existsb (String.eqb col) ["latest_submitted_date"]))
            (columns truth_df))
  else field_types.

(** [key_columns_map.get(table_name, ['submitter_id', 'nacc_id'])] *)
Definition key_columns_for (table_name : string) : list string :=
  default ["submitter_id"; "nacc_id"] (Dict.get key_columns_map table_name).

(** The ground truth restricted to the identifiers that were processed. *)
Definition filtered_ground_truth (predicted ground_truth : gmap string DataFrame)
  : gmap string DataFrame :=
  let processed_submitter_ids := processed_ids predicted "submitter_id" in
  let processed_nacc_ids := processed_ids predicted "nacc_id" in
  filter_ground_truth processed_submitter_ids processed_nacc_ids <$> ground_truth.

Section WithLevenshteinOverall.

Variable HAS_LEVENSHTEIN : bool.

(** One turn of the loop over [TABLE_TO_SECTION.keys()]; the state is
    [table_scores] and the per-section lists [section_scores]. *)
Definition score_one_table (predicted filtered_gt : gmap string DataFrame)
  (state : dict pyfloat * dict (list pyfloat)) (table_name : string)
  : result (dict pyfloat * dict (list pyfloat)) :=
  let '(table_scores, section_scores) := state in
  let pred_df := default DF.new (predicted !! table_name) in
  let truth_df := default DF.new (filtered_gt !! table_name) in
  if DF.empty pred_df then
    let table_scores :=
      if DF.empty truth_df then Dict.set table_scores table_name (Fin 1)
      else Dict.set table_scores table_name (Fin 0) in
    match Dict.get TABLE_TO_SECTION table_name with
    | Some section =>
        if negb (Str.is_empty section) && negb (DF.empty truth_df)
        then Ok (table_scores, Dict.append section_scores section (Fin 0))
        else Ok (table_scores, section_scores)
    | None => Ok (table_scores, section_scores)
    end
  else
    let field_types := field_types_for table_name truth_df in
    let key_cols := key_columns_for table_name in
    '(score, _) ←
      calculate_table_dqs HAS_LEVENSHTEIN pred_df truth_df key_cols field_types;
    let table_scores := Dict.set table_scores table_name score in
    match Dict.get TABLE_TO_SECTION table_name with
    | Some section =>
        if negb (Str.is_empty section)
        then Ok (table_scores, Dict.append section_scores section score)
        else Ok (table_scores, section_scores)
    | None => Ok (table_scores, section_scores)
    end.

Definition calculate_overall_dqs (predicted ground_truth : gmap string DataFrame)
  : result report :=
  let filtered_gt := filtered_ground_truth predicted ground_truth in
  let section_scores : dict (list pyfloat) :=
    List.map (fun '(section, _) => (section, [])) SECTION_WEIGHTS in
  '(table_scores, section_scores) ←
    for_each (score_one_table predicted filtered_gt)
             (Dict.keys TABLE_TO_SECTION) ([], section_scores);
  let final_section_scores : dict pyfloat :=
    List.map (fun '(section, scores) => (section, mean_or_zero scores))
             section_scores in
  let overall_dqs := weighted_sum final_section_scores in
  Ok {| overall_dqs := overall_dqs;
        passes_threshold := F.ge overall_dqs (Fin 0.70);
        section_scores := final_section_scores;
        table_scores := table_scores |}.

End WithLevenshteinOverall.

(** ** The field rules in the words of the specification *)

(** The fixed vocabulary of the boolean coercion. *)
Definition vocabulary (s : string) : option bool :=
  if one_of s ["true"; "1"; "yes"] then Some true
  else if one_of s ["false"; "0"; "no"] then Some false
  else None.

(** The text of a value, trimmed and lower-cased. *)
Definition normal_text (v : value) : string :=
  Str.lower (Str.strip (Py.str v)).

(** Absent or null: [None] and NaN. *)
Definition is_null (v : value) : Prop := Py.isna v = true.

(** The sentinel "NONE" in any letter case, surrounding blanks apart. *)
Definition is_NONE (v : value) : Prop :=
  exists s, v = VStr s /\ Str.upper (Str.strip s) = "NONE".

(** An integer that [float] cannot convert. *)
Definition too_large_for_float (v : value) : Prop :=
  exists z, v = VInt z /\ (F.overflow_bound <= Z.abs z)%Z.

(** An infinite float, which [int] cannot convert. *)
Definition is_infinite (v : value) : Prop :=
  exists n shown, v = VFloat (Inf n) shown.

(** ** Table scoring in the words of the specification *)

Definition ok_values {A} (l : list (result A)) : list A :=
  List.flat_map (fun r => match r with Ok a => [a] | Raise _ => [] end) l.

Definition is_ok {A} (r : result A) : bool :=
  match r with Ok _ => true | Raise _ => false end.

Definition all_ok {A} (l : list (result A)) : bool := forallb is_ok l.

(** Sum and arithmetic mean of rationals. *)
Definition Qsum (l : list Q) : Q := fold_right Qplus 0 l.
Definition Qmean (l : list Q) : Q := Qsum l / inject_Z (Z.of_nat (List.length l)).

Section TableSpec.

Variable HAS_LEVENSHTEIN : bool.
Variables predicted truth : DataFrame.
Variable key_columns : list string.
Variable field_types : dict string.

(** RowMatcher: the first predicted row that agrees with the truth row on
    every key field present on both sides. *)
Definition first_match (truth_row : gmap string value)
  : option (gmap string value) :=
  List.find (mask predicted truth key_columns truth_row) (rows predicted).

(** The matched truth rows, each with its predicted row. *)
Definition matched_pairs : list (gmap string value * gmap string value) :=
  List.flat_map
    (fun truth_row =>
       match first_match truth_row with
       | Some pred_row => [(pred_row, truth_row)]
       | None => []
       end)
    (rows truth).

(** A field is scored when both tables have it. *)
Definition is_scored (field : string) : bool :=
  DF.has_column predicted field && DF.has_column truth field.

(** The scores of one field over the matched rows. *)
Definition field_results (field field_type : string) : list (result pyfloat) :=
  if is_scored field then
    List.map (fun '(pred_row, truth_row) =>
                score_field HAS_LEVENSHTEIN field_type
                  (DF.cell pred_row field) (DF.cell truth_row field))
             matched_pairs
  else [].

(** Per-field score: the mean of the field's scores over the matched rows;
    a field without scores has none. *)
Definition per_field_scores : dict pyfloat :=
  List.flat_map
    (fun '(field, field_type) =>
       match ok_values (field_results field field_type) with
       | [] => []
       | scores => [(field, np_mean scores)]
       end)
    field_types.

(** Coverage: matched truth rows over all truth rows. *)
Definition coverage : pyfloat :=
  F.div (F.of_nat (List.length matched_pairs)) (F.of_nat (DF.len truth)).

(** Overall: the mean of the per-field scores times the coverage. *)
Definition table_score : pyfloat :=
  match per_field_scores with
  | [] => Fin 0
  | _ => F.mul (np_mean (Dict.values per_field_scores)) coverage
  end.

(** No score of a declared field raises. *)
Definition all_scores_ok : bool :=
  forallb (fun '(field, field_type) => all_ok (field_results field field_type))
          field_types.

End TableSpec.

(** ** The table loop, row by row (used in the proofs) *)

(** [d] with the list [new k] appended to the entry of every key [k]. *)
Definition extend {V} (d : dict (list V)) (new : string -> list V)
  : dict (list V) :=
  List.map (fun '(k, l) => (k, (l ++ new k)%list)) d.

Section RowByRow.

Variable HAS_LEVENSHTEIN : bool.
Variables predicted truth : DataFrame.
Variable key_columns : list string.

(** What one matched pair of rows appends under key [k]. *)
Definition row_scores (field_types : dict string)
  (pair : gmap string value * gmap string value) (k : string) : list pyfloat :=
  List.flat_map
    (fun '(field, field_type) =>
       if String.eqb k field && is_scored predicted truth field then
         ok_values [score_field HAS_LEVENSHTEIN field_type
                      (DF.cell (fst pair) field) (DF.cell (snd pair) field)]
       else [])
    field_types.

(** No score of the pair raises. *)
Definition row_ok (field_types : dict string)
  (pair : gmap string value * gmap string value) : bool :=
  forallb
    (fun '(field, field_type) =>
       if is_scored predicted truth field then
         is_ok (score_field HAS_LEVENSHTEIN field_type
                  (DF.cell (fst pair) field) (DF.cell (snd pair) field))
       else true)
    field_types.

(** The matched pairs among some truth rows. *)
Definition pairs_of (truth_rows : list (gmap string value))
  : list (gmap string value * gmap string value) :=
  List.flat_map
    (fun truth_row =>
       match first_match predicted truth key_columns truth_row with
       | Some pred_row => [(pred_row, truth_row)]
       | None => []
       end)
    truth_rows.

End RowByRow.

(** The lists gathered by the loop, the per-field means and the overall
    score computed from them. *)
Definition gathered (hl : bool) (predicted truth : DataFrame)
  (key_columns : list string) (field_types : dict string)
  : dict (list pyfloat) :=
  List.map
    (fun '(field, _) =>
       (field,
        List.flat_map (fun pair => row_scores hl predicted truth field_types pair field)
                      (matched_pairs predicted truth key_columns)))
    field_types.

Definition means_of (all_field_scores : dict (list pyfloat)) : dict pyfloat :=
  List.flat_map
    (fun '(field, scores) =>
       match scores with
       | [] => []
       | _ => [(field, np_mean scores)]
       end)
    all_field_scores.

Definition overall_of (final_field_scores : dict pyfloat) (coverage : pyfloat)
  : pyfloat :=
  match final_field_scores with
  | [] => Fin 0
  | _ => F.mul (np_mean (Dict.values final_field_scores)) coverage
  end.

(** ** Sample tables *)

Module SampleTable.

Definition columns_names : list string := ["id"; "name"].

(** One predicted row and one truth row with the same key and names that
    share no character. *)
Definition pred_names : DataFrame :=
  {| columns := columns_names;
     rows := [ {[ "id" := VInt 1; "name" := VStr "abc" ]} ] |}.

Definition truth_names : DataFrame :=
  {| columns := columns_names;
     rows := [ {[ "id" := VInt 1; "name" := VStr "xyz" ]} ] |}.

Definition columns_asset : list string := ["id"; "valuation"; "asset_type_id"].

(** Two truth rows, of which the prediction has the first, exactly. *)
Definition truth_assets : DataFrame :=
  {| columns := columns_asset;
     rows := [ {[ "id" := VInt 1; "valuation" := VInt 1000; "asset_type_id" := VInt 18 ]};
               {[ "id" := VInt 2; "valuation" := VInt 500; "asset_type_id" := VInt 3 ]} ] |}.

Definition pred_assets : DataFrame :=
  {| columns := columns_asset;
     rows := [ {[ "id" := VInt 1; "valuation" := VInt 1000; "asset_type_id" := VInt 18 ]} ] |}.

(** The asset row of the end-to-end example: 1050 predicted for 1000. *)
Definition truth_asset : DataFrame :=
  {| columns := columns_asset;
     rows := [ {[ "id" := VInt 1; "valuation" := VInt 1000; "asset_type_id" := VInt 18 ]} ] |}.

Definition pred_asset : DataFrame :=
  {| columns := columns_asset;
     rows := [ {[ "id" := VInt 1; "valuation" := VInt 1050; "asset_type_id" := VInt 18 ]} ] |}.

Definition asset_types : dict string :=
  [("valuation", "numeric"); ("asset_type_id", "enum")].

End SampleTable.

(** ** Section scores in the words of the specification *)

Section SectionSpec.

Variable HAS_LEVENSHTEIN : bool.
Variables predicted filtered_gt : gmap string DataFrame.

Definition predicted_table (table_name : string) : DataFrame :=
  default DF.new (predicted !! table_name).

Definition truth_table (table_name : string) : DataFrame :=
  default DF.new (filtered_gt !! table_name).

(** The overall score of one table. *)
Definition table_result (table_name : string) : result pyfloat :=
  if DF.empty (predicted_table table_name) then
    Ok (if DF.empty (truth_table table_name) then Fin 1 else Fin 0)
  else
    '(score, _) ←
      calculate_table_dqs HAS_LEVENSHTEIN
        (predicted_table table_name) (truth_table table_name)
        (key_columns_for table_name)
        (field_types_for table_name (truth_table table_name));
    Ok score.

(** Absent on both sides. *)
Definition both_empty (table_name : string) : bool :=
  DF.empty (predicted_table table_name) && DF.empty (truth_table table_name).

(** What a table adds to the score list of its section: its overall score,
    unless it is absent on both sides. *)
Definition contribution (table_name : string) : list pyfloat :=
  if both_empty table_name then [] else ok_values [table_result table_name].

(** The tables of a section, in the order of [TABLE_TO_SECTION]. *)
Definition section_members (section : string) : list string :=
  Dict.keys (List.filter (fun '(_, s) => String.eqb s section) TABLE_TO_SECTION).

(** The score list of a section. *)
Definition section_list (section : string) : list pyfloat :=
  List.flat_map contribution (section_members section).

(** What a table appends under the section key [k]. *)
Definition adds (table_name k : string) : list pyfloat :=
  match Dict.get TABLE_TO_SECTION table_name with
  | Some section =>
      if negb (Str.is_empty section) && String.eqb k section
      then contribution table_name
      else []
  | None => []
  end.

(** [table_scores] after the tables [names]. *)
Definition table_scores_after (names : list string) (table_scores : dict pyfloat)
  : dict pyfloat :=
  fold_left
    (fun ts name =>
       match table_result name with
       | Ok score => Dict.set ts name score
       | Raise _ => ts
       end)
    names table_scores.

End SectionSpec.

(** The weighted sum of four section scores, as a rational. *)
Definition Qweighted (scores : dict pyfloat) (skip : string) : Q :=
  Qsum (List.map
          (fun '(section, weight) =>
             if String.eqb section skip then 0
             else F.value (default F.zero (Dict.get scores section)) * F.value weight)
          SECTION_WEIGHTS).

Module SampleRun.

Definition columns_asset : list string :=
  ["submitter_id"; "nacc_id"; "index"; "asset_type_id"; "valuation"].

Definition asset_row : gmap string value :=
  {[ "submitter_id" := VInt 1; "nacc_id" := VInt 7; "index" := VInt 1;
     "asset_type_id" := VInt 18; "valuation" := VInt 1000 ]}.

(** A run whose only table is a perfect [asset] table. *)
Definition only_assets : gmap string DataFrame :=
  {[ "asset" := {| columns := columns_asset; rows := [asset_row] |} ]}.

Definition no_report : report :=
  {| overall_dqs := NaN; passes_threshold := false;
     section_scores := []; table_scores := [] |}.

(** The report of that run against itself as ground truth. *)
Definition only_assets_report : report :=
  Eval vm_compute in
    match calculate_overall_dqs true only_assets only_assets with
    | Ok r => r
    | Raise _ => no_report
    end.

End SampleRun.

(** ** Tables on which no conversion overflows *)

(** No cell of the table is an integer beyond the range of a float. *)
Definition safe_table (df : DataFrame) : Prop :=
  forall row col v,
    In row (rows df) -> row !! col = Some v -> ~ too_large_for_float v.

Definition safe_tables (tables : gmap string DataFrame) : Prop :=
  forall name df, tables !! name = Some df -> safe_table df.


(** ** The edit distance by its recurrence (used in the proofs) *)

(** The Wagner-Fischer recurrence on two words read from their last
    characters: [lev (rev s) (rev t)] is the entry of the table for the
    words [s] and [t]. *)
Fixpoint lev (a : list ascii) : list ascii -> nat :=
  match a with
  | [] => fun b => List.length b
  | c :: a' =>
      fix lev_c (b : list ascii) : nat :=
        match b with
        | [] => S (List.length a')
        | d :: b' =>
            let cost := if Ascii.eqb c d then 0%nat else 1%nat in
            Nat.min (Nat.min (S (lev a' b)) (S (lev_c b'))) (lev a' b' + cost)
        end
  end.

(** The entries of the table row of [rs] right of the column of [rt],
    along the rest [t] of the second word. *)
Fixpoint row_of (rs rt : list ascii) (t : string) : list nat :=
  match t with
  | EmptyString => []
  | String d t' => lev rs (d :: rt) :: row_of rs (d :: rt) t'
  end.

(** The text that [calculate_text_score] compares: [str(v).strip()], and
    the empty string for the sentinel. *)
Definition text_key (v : value) : string :=
  let s := Str.strip (Py.str v) in
  if String.eqb (Str.upper s) "NONE" then "" else s.

(** ** [DQSCalculator.calculate_row_dqs] *)

(** [field in row.index] for a row given as a Series: the labels of the
    Series are the keys of the map. *)
Definition in_index (row : gmap string value) (field : string) : bool :=
  match row !! field with
  | Some _ => true
  | None => false
  end.

(** [row.get(field)] *)
Definition series_get (row : gmap string value) (field : string) : value :=
  default VNone (row !! field).

Section WithLevenshteinRows.

Variable HAS_LEVENSHTEIN : bool.

Definition calculate_row_dqs (predicted_row truth_row : gmap string value)
  (field_types : dict string) : result (pyfloat * dict pyfloat) :=
  field_scores ←
    for_each
      (fun (field_scores : dict pyfloat) '(field, field_type) =>
         if negb (in_index predicted_row field) || negb (in_index truth_row field)
         then Ok field_scores
         else
           let pred_val := series_get predicted_row field in
           let truth_val := series_get truth_row field in
           score ← score_field HAS_LEVENSHTEIN field_type pred_val truth_val;
           Ok (Dict.set field_scores field score))
      field_types [];
  let overall :=
    if non_empty field_scores then np_mean (Dict.values field_scores)
    else Fin 0 in
  Ok (overall, field_scores).

End WithLevenshteinRows.

(** ** Decidable forms of the conditions on tables *)

Definition too_large_for_floatb (v : value) : bool :=
  match v with
  | VInt z => (F.overflow_bound <=? Z.abs z)%Z
  | _ => false
  end.

Definition safe_tableb (df : DataFrame) : bool :=
  forallb
    (fun row => forallb (fun kv => negb (too_large_for_floatb (snd kv)))
                        (map_to_list row))
    (rows df).

(** The truth rows for which the mask selects a predicted row. *)
Definition matched_truth_rows (predicted truth : DataFrame)
  (key_columns : list string) : list (gmap string value) :=
  List.filter
    (fun truth_row =>
       existsb (mask predicted truth key_columns truth_row) (rows predicted))
    (rows truth).

Module SampleKeys.

(** A table whose only row has no value under the key [id]: the cell reads
    as NaN. *)
Definition no_key : DataFrame :=
  {| columns := ["id"; "name"];
     rows := [ {[ "name" := VStr "abc" ]} ] |}.

(** [SampleTable.pred_assets] followed by a row whose key is in no truth
    row. *)
Definition pred_assets_more : DataFrame :=
  {| columns := SampleTable.columns_asset;
     rows := (rows SampleTable.pred_assets ++
              [ {[ "id" := VInt 9; "valuation" := VInt 1; "asset_type_id" := VInt 1 ]} ])%list |}.

End SampleKeys.

(** No value of the row is an integer beyond the range of a float. *)
Definition safe_row (row : gmap string value) : Prop :=
  forall col v, row !! col = Some v -> ~ too_large_for_float v.

Definition safe_rowb (row : gmap string value) : bool :=
  forallb (fun kv => negb (too_large_for_floatb (snd kv))) (map_to_list row).

Module SampleRows.

Definition pred_row : gmap string value :=
  {[ "name" := VStr "Somchai"; "age" := VInt 44; "note" := VStr "x" ]}.

Definition truth_row : gmap string value :=
  {[ "name" := VStr "Somchai"; "age" := VInt 40 ]}.

Definition field_types : dict string :=
  [("name", "text"); ("age", "numeric"); ("note", "text"); ("title", "text")].

End SampleRows.

Definition safe_tablesb (tables : gmap string DataFrame) : bool :=
  forallb (fun kv => safe_tableb (snd kv)) (map_to_list tables).

Module SampleTruth.

(** The ground truth of [SampleRun.only_assets] with one more row, of a
    submitter that was not processed. *)
Definition other_row : gmap string value :=
  {[ "submitter_id" := VInt 2; "nacc_id" := VInt 8; "index" := VInt 1;
     "asset_type_id" := VInt 1; "valuation" := VInt 5 ]}.

Definition assets : DataFrame :=
  {| columns := SampleRun.columns_asset; rows := [SampleRun.asset_row] |}.

End SampleTruth.

(** ** The enum loader ([src/utils/enum_loader.py]) *)

(** [key in text] on strings.  The strings are UTF-8 bytes; a well-formed
    UTF-8 text occurs in another as a sequence of bytes exactly when it
    occurs in it as a sequence of characters. *)
Fixpoint contains (key text : string) : bool :=
  String.prefix key text ||
  match text with
  | EmptyString => false
  | String _ text' => contains key text'
  end.

Module EnumLoader.

(** The [mapping] of [match_relationship_id], in its order. *)
Definition mapping : dict Z :=
  [ ("บิดา", 1); ("พ่อ", 1); ("father", 1);
    ("มารดา", 2); ("แม่", 2); ("mother", 2);
    ("พี่", 3); ("น้อง", 3); ("พี่น้อง", 3); ("sibling", 3);
    ("บุตร", 4); ("ลูก", 4); ("child", 4);
    ("บิดาคู่สมรส", 5); ("พ่อสามี", 5); ("พ่อภรรยา", 5);
    ("มารดาคู่สมรส", 6); ("แม่สามี", 6); ("แม่ภรรยา", 6) ]%Z.

(** [for key, id in mapping.items(): if key in text: return id], then the
    default. *)
Definition first_key (mapping : dict Z) (text : string) (default : Z) : Z :=
  match List.find (fun '(key, _) => contains key text) mapping with
  | Some (_, id) => id
  | None => default
  end.

(** [text.lower().strip() if text else ""]; [None] stands for a missing
    text. *)
Definition lower_strip (text : option string) : string :=
  match text with
  | Some s => if Str.is_empty s then "" else Str.strip (Str.lower s)
  | None => ""
  end.

Definition match_relationship_id (text : option string) : Z :=
  let text_lower := lower_strip text in
  first_key mapping text_lower 4%Z.

(** The [type_mapping] of [match_asset_type_id], in its order. *)
Definition type_mapping : dict Z :=
  [ ("ที่ดิน", 1); ("land", 1);
    ("โรงเรือน", 10); ("สิ่งปลูกสร้าง", 10); ("building", 10);
    ("ยานพาหนะ", 18); ("vehicle", 18); ("รถยนต์", 18);
    ("รถจักรยานยนต์", 19);
    ("สิทธิ", 22); ("สัมปทาน", 22); ("rights", 22); ("กรมธรรม์", 22);
    ("ทรัพย์สินอื่น", 28); ("other", 28) ]%Z.

End EnumLoader.

(** ** Batched extraction ([ClaudeExtractor.extract_all_data_batched]) *)

Module Slice.

Local Open Scope Z_scope.

(** [l[:k]] and [l[k:]] for any integer [k]: a negative [k] counts from
    the end. *)
Definition upto {A} (k : Z) (l : list A) : list A :=
  if 0 <=? k then List.firstn (Z.to_nat k) l
  else List.firstn (List.length l - Z.to_nat (- k)) l.

Definition from {A} (k : Z) (l : list A) : list A :=
  if 0 <=? k then List.skipn (Z.to_nat k) l
  else List.skipn (List.length l - Z.to_nat (- k)) l.

End Slice.

(** One line of the log: the number of the batch and the first and last
    page it announces. *)
Record batch_log := {
  log_batch : Z;
  log_start : Z;
  log_end : Z
}.

(** One call to the extractor: the pages it is given. *)
Inductive call (page : Type) :=
| ExtractAll (pages : list page)
| AssetsOnly (pages : list page).
Arguments ExtractAll {page} pages.
Arguments AssetsOnly {page} pages.

Definition pages_of {page} (c : call page) : list page :=
  match c with
  | ExtractAll pages | AssetsOnly pages => pages
  end.

Section Batched.

Local Open Scope Z_scope.

Context {page R : Type}.

(** [self.extract_all_data(pages, nacc_id, submitter_id)] *)
Variable extract_all_data : list page -> R.

(** The body of the loop on [result]: the assets of the batch are
    extracted by [self._extract_assets_only], renumbered and added to the
    assets of [result]. *)
Variable merge_assets : R -> list page -> R.

(** What a run leaves behind: the returned result, the calls made and the
    lines logged, in order. *)
Record batch_run := {
  returned : R;
  calls : list (call page);
  logged : list batch_log
}.

(** [while remaining_pages: ...]; the loop has no bound of its own, and
    [None] stands for a run that is still looping when the fuel is spent. *)
Fixpoint batch_loop (fuel : nat) (max_pages_per_batch first_batch_size : Z)
  (remaining_pages : list page) (batch_num : Z) (run : batch_run)
  : option batch_run :=
  match remaining_pages with
  | [] => Some run
  | _ :: _ =>
      match fuel with
      | O => None
      | S fuel' =>
          let batch := Slice.upto max_pages_per_batch remaining_pages in
          let remaining_pages := Slice.from max_pages_per_batch remaining_pages in
          let start_page :=
            first_batch_size + (batch_num - 2) * max_pages_per_batch + 1 in
          let end_page := start_page + Z.of_nat (List.length batch) - 1 in
          batch_loop fuel' max_pages_per_batch first_batch_size
            remaining_pages (batch_num + 1)
            {| returned := merge_assets (returned run) batch;
               calls := (calls run ++ [AssetsOnly batch])%list;
               logged := (logged run ++
                          [{| log_batch := batch_num;
                              log_start := start_page;
                              log_end := end_page |}])%list |}
      end
  end.

Definition extract_all_data_batched (fuel : nat) (page_images : list page)
  (max_pages_per_batch : Z) : option batch_run :=
  let num_pages := Z.of_nat (List.length page_images) in
  if num_pages <=? max_pages_per_batch then
    Some {| returned := extract_all_data page_images;
            calls := [ExtractAll page_images]; logged := [] |}
  else
    let first_batch_size := max_pages_per_batch in
    let first_batch := Slice.upto first_batch_size page_images in
    batch_loop fuel max_pages_per_batch first_batch_size
      (Slice.from first_batch_size page_images) 2
      {| returned := extract_all_data first_batch;
         calls := [ExtractAll first_batch];
         logged := [{| log_batch := 1; log_start := 1;
                       log_end := first_batch_size |}] |}.


End Batched.

(** ** Extracted data and what can go wrong with it *)

(** A member of an extracted JSON object: a scalar, or an object of
    scalars (arrays and deeper nesting are not modelled). *)
Inductive member :=
| Scalar (v : value)
| Object (o : gmap string value).

(** An extracted object, such as an asset. *)
Definition object : Type := gmap string member.

(** The exceptions of the pipeline: a method that the value does not have,
    a column that the table does not have, a file that does not exist, or a
    failed conversion. *)
Inductive raised :=
| AttributeError
| KeyError
| FileNotFoundError
| Conversion (e : exn).

Inductive outcome (A : Type) :=
| Done (a : A)
| Failed (r : raised).
Arguments Done {A} a.
Arguments Failed {A} r.

#[export] Instance outcome_ret : MRet outcome := fun _ a => Done a.
#[export] Instance outcome_bind : MBind outcome := fun _ _ f m =>
  match m with
  | Done a => f a
  | Failed r => Failed r
  end.

Module Json.

(** [o.get(key)] and [o.get(key, default)] on an object. *)
Definition get (o : object) (key : string) : member :=
  default (Scalar VNone) (o !! key).

Definition get_or (o : object) (key : string) (d : member) : member :=
  default d (o !! key).

(** [m.get(key)] on a member: only an object has the method. *)
Definition member_get (m : member) (key : string) : outcome value :=
  match m with
  | Object o => Done (default VNone (o !! key))
  | Scalar _ => Failed AttributeError
  end.

(** Truth value: an object is true unless it is empty. *)
Definition truthy (m : member) : bool :=
  match m with
  | Scalar v => Py.truthy v
  | Object o => negb (bool_decide (o = ∅))
  end.

(** [a or b] *)
Definition or (a b : member) : member := if truthy a then a else b.

(** [x == i] for an integer [i]. *)
Definition eq_int (x : member) (i : Z) : bool :=
  match x with
  | Scalar v => Py.eq v (VInt i)
  | Object _ => false
  end.

(** [x in range(lo, hi)]: [x] equals one of the integers of the range. *)
Definition in_range (x : member) (lo hi : Z) : bool :=
  existsb (fun i => eq_int x (lo + Z.of_nat i)%Z) (List.seq 0 (Z.to_nat (hi - lo))).

(** The integer [z]. *)
Definition of_Z (z : Z) : member := Scalar (VInt z).

(** [s.lower().strip() if s else ""] for a member expected to be text. *)
Definition lower_strip (s : member) : outcome string :=
  if truthy s then
    match s with
    | Scalar (VStr t) => Done (Str.strip (Str.lower t))
    | _ => Failed AttributeError
    end
  else Done "".

End Json.

(** [s.replace(" ", "")] *)
Fixpoint remove_spaces (s : string) : string :=
  match s with
  | EmptyString => EmptyString
  | String c s' =>
      if Ascii.eqb c " " then remove_spaces s' else String c (remove_spaces s')
  end.

Section WithAssetTypes.

(** The table of [asset_type.csv], as loaded by [get_asset_types]. *)
Variable asset_types : DataFrame.

(** [row[col]] on a row of [asset_types]. *)
Definition enum_cell (row : gmap string value) (col : string) : outcome value :=
  if DF.has_column asset_types col then Done (DF.cell row col)
  else Failed KeyError.

(** The loop of [match_asset_type_id] over the rows of the table. *)
Fixpoint match_sub_type (sub_type_lower : string)
  (rows : list (gmap string value)) : outcome (option Z) :=
  match rows with
  | [] => Done None
  | row :: rows' =>
      name ← enum_cell row "asset_type_sub_type_name";
      if contains sub_type_lower (Str.lower (Py.str name)) then
        id ← enum_cell row "asset_type_id";
        match Py.int id with
        | Ok z => Done (Some z)
        | Raise e => Failed (Conversion e)
        end
      else match_sub_type sub_type_lower rows'
  end.

(** What [match_asset_type_id] does with the table once it is loaded
    (the loading itself is in [EnumFiles]). *)
Definition match_asset_type_id (main_type sub_type : member) : outcome Z :=
  main_type_lower ← Json.lower_strip main_type;
  found ←
    (if Json.truthy sub_type then
       match sub_type with
       | Scalar (VStr t) =>
           match_sub_type (Str.strip (Str.lower t)) (rows asset_types)
       | _ => Failed AttributeError
       end
     else Done None);
  match found with
  | Some id => Done id
  | None => Done (EnumLoader.first_key EnumLoader.type_mapping main_type_lower 1%Z)
  end.

End WithAssetTypes.

(** ** Loading the lookup tables ([EnumLoader.load_enum]) *)

Module EnumFiles.

Section Loading.

(** [load_enum]: the table read from the CSV file of that name in the enum
    directory, or its failure (FileNotFoundError when the file is not
    there).  The call is cached, so a name always gives the same answer. *)
Variable load_enum : string -> outcome DataFrame.

Definition get_asset_types : outcome DataFrame := load_enum "asset_type".

(** [EnumLoader.match_asset_type_id]: the table is loaded first, then the
    texts are matched. *)
Definition match_asset_type_id (main_type sub_type : member) : outcome Z :=
  df ← get_asset_types;
  match_asset_type_id df main_type sub_type.

End Loading.

End EnumFiles.

(** ** The assets of a document ([NACCExtractionPipeline.process_document]) *)

Module Pipeline.

Local Open Scope Z_scope.

Definition get_asset_category (type_id : member) : string :=
  if Json.in_range type_id 1 10 || Json.eq_int type_id 36 then "land"
  else if Json.in_range type_id 10 18 || Json.eq_int type_id 37 then "building"
  else if Json.in_range type_id 18 22 || Json.eq_int type_id 38 then "vehicle"
  else if Json.in_range type_id 22 28 || Json.eq_int type_id 39 then "rights"
  else "other".

Definition strip_leading_zeros (val : member) : outcome member :=
  match val with
  | Scalar VNone => Done (Scalar VNone)
  | Scalar v =>
      match Py.int v with
      | Ok z => Done (Scalar (VInt z))
      | Raise e => if caught e then Done val else Failed (Conversion e)
      end
  | Object _ => Done val
  end.

(** A row of an output table: a dict in the order of its keys. *)
Definition row : Type := dict member.

(** The lists of [results] that the loop over the assets fills. *)
Record asset_tables := {
  asset : list row;
  asset_land_info : list row;
  asset_building_info : list row;
  asset_vehicle_info : list row;
  asset_other_asset_info : list row
}.

Definition no_rows : asset_tables :=
  {| asset := []; asset_land_info := []; asset_building_info := [];
     asset_vehicle_info := []; asset_other_asset_info := [] |}.

Section Assets.

Variable asset_types : DataFrame.
Variables nacc_id submitter_id : Z.

(** [date.today()] *)
Variable today : member.

(** [f"{brand} {model}".strip() if brand or model else model], after the
    two values are read and the sentinel is blanked. *)
Definition combined_model (vehicle_info : member) : outcome value :=
  brand ← Json.member_get vehicle_info "vehicle_brand";
  let brand := if Py.truthy brand then brand else VStr "" in
  model ← Json.member_get vehicle_info "vehicle_model";
  let model := if Py.truthy model then model else VStr "" in
  let brand :=
    if String.eqb (Str.upper (Str.strip (Py.str brand))) "NONE" then VStr ""
    else brand in
  let model :=
    if String.eqb (Str.upper (Str.strip (Py.str model))) "NONE" then VStr ""
    else model in
  if Py.truthy brand || Py.truthy model
  then Done (VStr (Str.strip (Py.str brand ++ " " ++ Py.str model)))
  else Done model.

(** [reg_number.replace(' ', '')] when the registration number is true. *)
Definition registration_number (vehicle_info : member) : outcome value :=
  match vehicle_info with
  | Object o =>
      let reg_number := default (VStr "") (o !! "registration_number") in
      if Py.truthy reg_number then
        match reg_number with
        | VStr s => Done (VStr (remove_spaces s))
        | _ => Failed AttributeError
        end
      else Done reg_number
  | Scalar _ => Failed AttributeError
  end.

(** [x or 0] *)
Definition or_zero (x : value) : value := if Py.truthy x then x else VInt 0.

(** The row of [results['asset']]. *)
Definition asset_row (asset_id asset_index : Z) (asset_type_id : member)
  (a : object) : outcome row :=
  let has_end_date :=
    Json.or (Json.get a "ending_date")
            (Json.or (Json.get a "ending_month") (Json.get a "ending_year")) in
  let date_ending_type_id := if Json.truthy has_end_date then 1 else 4 in
  let has_acq_date :=
    Json.or (Json.get a "acquiring_date")
            (Json.or (Json.get a "acquiring_month") (Json.get a "acquiring_year")) in
  let date_acquiring_type_id :=
    Json.get_or a "date_acquiring_type_id"
      (Json.of_Z (if Json.truthy has_acq_date then 1 else 2)) in
  acquiring_date ← strip_leading_zeros (Json.get a "acquiring_date");
  acquiring_month ← strip_leading_zeros (Json.get a "acquiring_month");
  ending_date ← strip_leading_zeros (Json.get a "ending_date");
  ending_month ← strip_leading_zeros (Json.get a "ending_month");
  Done
    [ ("asset_id", Json.of_Z asset_id);
      ("submitter_id", Json.of_Z submitter_id);
      ("nacc_id", Json.of_Z nacc_id);
      ("index", Json.of_Z asset_index);
      ("asset_type_id", asset_type_id);
      ("asset_type_other", Json.get a "asset_type_other");
      ("asset_name", Json.get a "asset_name");
      ("date_acquiring_type_id", date_acquiring_type_id);
      ("acquiring_date", acquiring_date);
      ("acquiring_month", acquiring_month);
      ("acquiring_year", Json.get a "acquiring_year");
      ("date_ending_type_id", Json.of_Z date_ending_type_id);
      ("ending_date", ending_date);
      ("ending_month", ending_month);
      ("ending_year", Json.get a "ending_year");
      ("asset_acquisition_type_id", Json.of_Z 6);
      ("valuation", Json.get a "valuation");
      ("owner_by_submitter", Json.get_or a "owner_by_submitter" (Scalar (VBool false)));
      ("owner_by_spouse", Json.get_or a "owner_by_spouse" (Scalar (VBool false)));
      ("owner_by_child", Json.get_or a "owner_by_child" (Scalar (VBool false)));
      ("latest_submitted_date", today) ].

(** The row of [results['asset_land_info']]; the misspelt keys are those
    of the source. *)
Definition land_info_row (asset_id : Z) (land_info : member) : outcome row :=
  land_doc_number ← Json.member_get land_info "land_doc_number";
  rai ← Json.member_get land_info "rai";
  ngan ← Json.member_get land_info "ngan";
  sq_wa ← Json.member_get land_info "sq_wa";
  sub_district ← Json.member_get land_info "sub_district";
  district ← Json.member_get land_info "district";
  province ← Json.member_get land_info "province";
  Done
    [ ("asset_id", Json.of_Z asset_id);
      ("submitter_id", Json.of_Z submitter_id);
      ("nacc_id", Json.of_Z nacc_id);
      ("land_doc_number", Scalar land_doc_number);
      ("rai", Scalar (or_zero rai));
      ("ngan", Scalar (or_zero ngan));
      ("sq_wa", Scalar sq_wa);
      ("sub_distirict", Scalar sub_district);
      ("distirict", Scalar district);
      ("province", Scalar province);
      ("latest_submitted_date", today) ].

Definition building_info_row (asset_id : Z) (building_info : member)
  : outcome row :=
  building_doc_number ← Json.member_get building_info "building_doc_number";
  sub_district ← Json.member_get building_info "sub_district";
  district ← Json.member_get building_info "district";
  province ← Json.member_get building_info "province";
  Done
    [ ("asset_id", Json.of_Z asset_id);
      ("submitter_id", Json.of_Z submitter_id);
      ("nacc_id", Json.of_Z nacc_id);
      ("building_doc_number", Scalar building_doc_number);
      ("sub_district", Scalar sub_district);
      ("district", Scalar district);
      ("province", Scalar province);
      ("latest_submitted_date", today) ].

Definition vehicle_info_row (asset_id : Z) (vehicle_info : member)
  : outcome row :=
  vehicle_model ← combined_model vehicle_info;
  reg_number ← registration_number vehicle_info;
  province ← Json.member_get vehicle_info "registration_province";
  Done
    [ ("asset_id", Json.of_Z asset_id);
      ("submitter_id", Json.of_Z submitter_id);
      ("nacc_id", Json.of_Z nacc_id);
      ("registration_number", Scalar reg_number);
      ("vehicle_model", Scalar vehicle_model);
      ("province", Scalar province);
      ("latest_submitted_date", today) ].

Definition other_info_row (asset_id : Z) (other_info : member) : outcome row :=
  count ← Json.member_get other_info "count";
  unit ← Json.member_get other_info "unit";
  Done
    [ ("asset_id", Json.of_Z asset_id);
      ("submitter_id", Json.of_Z submitter_id);
      ("nacc_id", Json.of_Z nacc_id);
      ("count", Scalar count);
      ("unit", Scalar unit);
      ("latest_submitted_date", today) ].

(** [if info and asset_type_id in range(lo, hi): rows.append({...})] *)
Definition append_info (info asset_type_id : member) (lo hi : Z)
  (make : member -> outcome row) (rows : list row) : outcome (list row) :=
  if Json.truthy info && Json.in_range asset_type_id lo hi then
    r ← make info; Done (rows ++ [r])%list
  else Done rows.

(** [asset_category_index] after an asset of [category], and the index
    the asset is given. *)
Definition next_index (asset_category_index : dict Z) (category : string)
  : Z * dict Z :=
  let asset_category_index :=
    match Dict.get asset_category_index category with
    | None => Dict.set asset_category_index category 1
    | Some _ => asset_category_index
    end in
  let asset_index := default 0 (Dict.get asset_category_index category) in
  (asset_index, Dict.set asset_category_index category (asset_index + 1)).

(** The body of the loop over the assets, after the identifier is taken:
    the state is [asset_category_index] and the lists of rows. *)
Definition asset_rows (asset_id : Z) (a : object)
  (state : dict Z * asset_tables) : outcome (dict Z * asset_tables) :=
  let '(asset_category_index, results) := state in
  let asset_type_id := Json.get a "asset_type_id" in
  asset_type_id ←
    (if negb (Json.truthy asset_type_id) then
       let main_type := Json.get_or a "asset_type_main" (Scalar (VStr "")) in
       let sub_type := Json.get a "asset_type_sub" in
       id ← match_asset_type_id asset_types main_type sub_type;
       Done (Json.of_Z id)
     else Done asset_type_id);
  let category := get_asset_category asset_type_id in
  let '(asset_index, asset_category_index) :=
    next_index asset_category_index category in
  r ← asset_row asset_id asset_index asset_type_id a;
  let assets := (asset results ++ [r])%list in
  lands ←
    append_info (Json.get a "land_info") asset_type_id 1 10
      (land_info_row asset_id) (asset_land_info results);
  buildings ←
    append_info (Json.get a "building_info") asset_type_id 10 18
      (building_info_row asset_id) (asset_building_info results);
  vehicles ←
    append_info (Json.get a "vehicle_info") asset_type_id 18 22
      (vehicle_info_row asset_id) (asset_vehicle_info results);
  others ←
    append_info (Json.get a "other_info") asset_type_id 28 36
      (other_info_row asset_id) (asset_other_asset_info results);
  Done (asset_category_index,
        {| asset := assets; asset_land_info := lands;
           asset_building_info := buildings; asset_vehicle_info := vehicles;
           asset_other_asset_info := others |}).

(** [for asset in extracted.get('assets', []): ...].  The identifier
    counter [self.next_asset_id] belongs to the pipeline and keeps what it
    has counted when the document fails; the rows are lost then. *)
Fixpoint process_assets (next_asset_id : Z) (assets : list object)
  (state : dict Z * asset_tables) : Z * outcome (dict Z * asset_tables) :=
  match assets with
  | [] => (next_asset_id, Done state)
  | a :: assets' =>
      let asset_id := next_asset_id in
      let next_asset_id := next_asset_id + 1 in
      match asset_rows asset_id a state with
      | Done state' => process_assets next_asset_id assets' state'
      | Failed r => (next_asset_id, Failed r)
      end
  end.

End Assets.

(** The identifier of a row, its category and its index. *)
Definition row_id (r : row) : option Z :=
  match Dict.get r "asset_id" with
  | Some (Scalar (VInt z)) => Some z
  | _ => None
  end.

Definition row_type (r : row) : member :=
  default (Scalar VNone) (Dict.get r "asset_type_id").

Definition row_category (r : row) : string := get_asset_category (row_type r).

Definition row_index (r : row) : option Z :=
  match Dict.get r "index" with
  | Some (Scalar (VInt z)) => Some z
  | _ => None
  end.

(** The rank of each category of a list among the earlier occurrences of
    the same category, counting from 1; [seen] holds the categories met
    before the list. *)
Fixpoint ranks (seen categories : list string) : list Z :=
  match categories with
  | [] => []
  | c :: categories' =>
      (1 + Z.of_nat (List.count_occ String.string_dec seen c))
      :: ranks (c :: seen) categories'
  end.

(** [asset_category_index] after the assets of the categories [seen]: a
    category holds one more than the number of its assets. *)
Definition counts (asset_category_index : dict Z) (seen : list string) : Prop :=
  forall c,
    Dict.get asset_category_index c =
    if (List.count_occ String.string_dec seen c =? 0)%nat then None
    else Some (1 + Z.of_nat (List.count_occ String.string_dec seen c)).

(** How often [x] is among the identifiers of some rows. *)
Definition times (x : option Z) (rows : list row) : nat :=
  List.length (List.filter (fun r => bool_decide (row_id r = x)) rows).

(** The rows of the four tables of details. *)
Definition details (t : asset_tables) : list row :=
  (asset_land_info t ++ asset_building_info t ++ asset_vehicle_info t ++
   asset_other_asset_info t)%list.

(** 1 if [x] is an identifier from [next] up to [next'], excluded, else 0. *)
Definition in_ids (next next' : Z) (x : option Z) : nat :=
  match x with
  | Some z => if (next <=? z) && (z <? next') then 1%nat else 0%nat
  | None => 0%nat
  end.

(** Every row of [rows] carries the identifier of a row of [assets] whose
    type lies in [range(lo, hi)]. *)
Definition refers (lo hi : Z) (rows assets : list row) : Prop :=
  forall d, In d rows ->
    exists r, In r assets /\ row_id r = row_id d /\ row_id d <> None /\
              Json.in_range (row_type r) lo hi = true.

(** The [success_rate] of [get_stats]; the counters are natural numbers,
    and the integer 0 of the source is the float 0 here. *)
Definition success_rate (processed_docs failed_docs : nat) : pyfloat :=
  if (0 <? processed_docs + failed_docs)%nat
  then F.div (F.of_nat processed_docs) (F.of_nat (processed_docs + failed_docs))
  else F.of_Z 0.

End Pipeline.

(** [AssetType] of [src/models/enums.py]. *)
Definition AssetType : dict Z :=
  [ ("LAND_CHANOT", 1); ("LAND_SPK", 2); ("LAND_SPK_4_01", 3); ("LAND_NS3", 4);
    ("LAND_NS3K", 5); ("LAND_PBT5", 6); ("LAND_CONDO", 7); ("LAND_CONTRACT", 8);
    ("LAND_NK3", 9);
    ("BUILDING_HOUSE", 10); ("BUILDING_BUILDING", 11); ("BUILDING_TOWER", 12);
    ("BUILDING_CONDO", 13); ("BUILDING_CONDOMINIUM", 14);
    ("BUILDING_DORMITORY", 15); ("BUILDING_PARKING", 16); ("BUILDING_FACTORY", 17);
    ("VEHICLE_CAR", 18); ("VEHICLE_MOTORCYCLE", 19); ("VEHICLE_BOAT", 20);
    ("VEHICLE_PLANE", 21);
    ("RIGHTS_INSURANCE", 22); ("RIGHTS_CONTRACT", 23); ("RIGHTS_MEMBERSHIP", 24);
    ("RIGHTS_FUND", 25); ("RIGHTS_PENSION", 26); ("RIGHTS_AUCTION", 27);
    ("OTHER_BAG", 28); ("OTHER_GUN", 29); ("OTHER_WATCH", 30);
    ("OTHER_JEWELRY", 31); ("OTHER_AMULET", 32); ("OTHER_GOLD", 33);
    ("OTHER_ART", 34); ("OTHER_COLLECTION", 35);
    ("LAND_OTHER", 36); ("BUILDING_OTHER", 37); ("VEHICLE_OTHER", 38);
    ("RIGHTS_OTHER", 39) ]%Z.

(** The family that the name of a member of [AssetType] announces: the
    name up to its first underscore, in lower case. *)
Definition family (name : string) : string :=
  Str.lower (fst (Str.cut (fun c => Ascii.eqb c "_") name)).

Module SampleAssets.

(** A plot of land with its details, a car with its details, a plot of
    the catch-all land type with details, and a second plot of land. *)
Definition land : object :=
  {[ "asset_type_id" := Scalar (VInt 1);
     "land_info" := Object {[ "rai" := VInt 2; "province" := VStr "Bangkok" ]} ]}.

Definition car : object :=
  {[ "asset_type_id" := Scalar (VInt 18);
     "vehicle_info" := Object {[ "vehicle_brand" := VStr "Toyota";
                                 "vehicle_model" := VStr "NONE";
                                 "registration_number" := VStr "1 AB 234" ]} ]}.

Definition other_land : object :=
  {[ "asset_type_id" := Scalar (VInt 36);
     "land_info" := Object {[ "rai" := VInt 5 ]} ]}.

Definition assets : list object := [land; car; other_land; land].

Definition today : member := Scalar (VStr "2025-01-31").

(** The tables and the category counters after these assets, numbered
    from 100 on. *)
Definition processed : dict Z * Pipeline.asset_tables :=
  Eval vm_compute in
    match snd (Pipeline.process_assets DF.new 7 1 today 100 assets
                 ([], Pipeline.no_rows)) with
    | Done state => state
    | Failed _ => ([], Pipeline.no_rows)
    end.

End SampleAssets.

(** ** Pages of a PDF ([src/processors/pdf_processor.py]) *)

Section Pdf.

Local Open Scope Z_scope.

(** The pages of the open document, and what rendering a page at a zoom,
    resizing it and encoding it at a quality gives. *)
Context {page zoom quality : Type}.
Variable doc : list page.
Variable encode : page -> zoom -> quality -> string.

Definition num_pages : Z := Z.of_nat (List.length doc).

(** [get_page_base64], with the check of [get_page_image]; past the
    check the page exists. *)
Definition get_page_base64 (page_num : Z) (z : zoom) (q : quality)
  : result string :=
  if (page_num <? 0) || (num_pages <=? page_num) then Raise ValueError
  else
    match List.nth_error doc (Z.to_nat page_num) with
    | Some p => Ok (encode p z q)
    | None => Raise ValueError
    end.

(** [range(start, stop)] *)
Definition range (start stop : Z) : list Z :=
  List.map (fun i => start + Z.of_nat i) (List.seq 0 (Z.to_nat (stop - start))).

(** A list comprehension whose element may raise. *)
Fixpoint collect {A B} (f : A -> result B) (l : list A) : result (list B) :=
  match l with
  | [] => Ok []
  | a :: l' => b ← f a; bs ← collect f l'; Ok (b :: bs)
  end.

Definition get_all_pages_base64 (z : zoom) (q : quality) : result (list string) :=
  collect (fun i => get_page_base64 i z q) (range 0 num_pages).

(** [end] is [None] or an integer. *)
Definition get_pages_range_base64 (start : Z) (end_ : option Z)
  (z : zoom) (q : quality) : result (list string) :=
  let end_ := default num_pages end_ in
  let end_ := Z.min end_ num_pages in
  collect (fun i => get_page_base64 i z q) (range start end_).

End Pdf.

(** ** The weighted rollup in binary64 *)

(** The last lines of [calculate_overall_dqs] on the floats that Python
    computes with: every product and every sum is rounded to binary64.
    [sum] starts from the integer 0 and adds from left to right; a section
    score is the float that [np.mean], or the literal 0.0, gave. *)
Module Binary64.

Local Open Scope float_scope.

Definition SECTION_WEIGHTS : dict float :=
  [ ("submitter_spouse", 0.25);
    ("statement_details", 0.30);
    ("assets", 0.30);
    ("relatives", 0.15) ].

(** [sum(final_section_scores.get(section, 0) * weight
         for section, weight in SECTION_WEIGHTS.items())] *)
Definition weighted_sum (final_section_scores : dict float) : float :=
  fold_left (fun acc '(section, weight) =>
               acc + default 0 (Dict.get final_section_scores section) * weight)
            SECTION_WEIGHTS 0.

(** [overall_dqs >= 0.70] *)
Definition passes_threshold (overall_dqs : float) : bool :=
  0.70 <=? overall_dqs.



End Binary64.
(** * Properties *)

(** ** Sample evaluations of the builtins and the field scores *)

Example levenshtein_kitten : Levenshtein.distance "kitten" "sitting" = 3%nat.
Proof. reflexivity. Qed.

Example float_of_string_samples :
  Py.float_of_string " 1_000.50 " = Some (Fin (100050 # 100)) /\
  Py.float_of_string "-2.5e-1" = Some (Fin ((-25) # 100)) /\
  Py.float_of_string "NONE" = None /\
  Py.float_of_string "Infinity" = Some (Inf false) /\
  Py.float_of_string "1e" = None /\
  Py.float_of_string "." = None /\
  Py.float_of_string "5." = Some (Fin 5).
Proof. vm_compute. repeat split; reflexivity. Qed.

Example int_of_string_samples :
  Py.int_of_string " 2567 " = Some 2567%Z /\
  Py.int_of_string "-1_0" = Some (-10)%Z /\
  Py.int_of_string "25x7" = None /\
  Py.int_of_string "" = None /\
  Py.int_of_string "2567.0" = None.
Proof. vm_compute. repeat split; reflexivity. Qed.

Example levenshtein_samples :
  Levenshtein.distance "" "abc" = 3%nat /\
  Levenshtein.distance "abc" "" = 3%nat /\
  Levenshtein.distance "flaw" "lawn" = 2%nat /\
  Levenshtein.distance "same" "same" = 0%nat.
Proof. repeat split. Qed.

Example str_samples :
  Py.str (VInt (-120)) = "-120" /\ Py.str (VInt 0) = "0" /\
  Py.str VNone = "None" /\ Py.str (VBool true) = "True" /\
  Str.strip "  a b  " = "a b" /\ Str.upper "None" = "NONE".
Proof. repeat split. Qed.

Example text_score_samples :
  F.has_value (calculate_text_score true (VStr "abcd") (VStr " abxd ")) 0.75 /\
  F.has_value (calculate_text_score false (VStr "abcd") (VStr "abxd")) 0 /\
  F.has_value (calculate_text_score true (VStr "none") (VStr " NONE")) 1 /\
  F.has_value (calculate_text_score true (VFloat (Fin 45) "45.0") (VInt 45)) 0.
Proof. repeat split. Qed.

Example numeric_score_samples :
  returns_value (calculate_numeric_score (VInt 1050) (VInt 1000)) 0.95 /\
  returns_value (calculate_numeric_score (VStr "abc") (VInt 1000)) 0 /\
  returns_value (calculate_numeric_score (VStr "nan") (VInt 1000)) 0 /\
  returns_value (calculate_numeric_score (VStr "3") (VFloat (Inf false) "")) 0 /\
  returns_value (calculate_numeric_score (VInt 0) (VStr "0.0")) 1 /\
  calculate_numeric_score (VInt (2 ^ 1024)) (VInt 1) = Raise OverflowError.
Proof. repeat split. Qed.


(** The date tiers of the specification, in order: one day apart, ten days
    apart, another month, another year. *)
Example date_score_samples :
  calculate_date_score (VStr "5") (VStr "3") (VStr "2567")
                       (VStr "5") (VStr "3") (VStr "2567") = Ok (Fin 1) /\
  calculate_date_score (VStr "5") (VStr "3") (VStr "2567")
                       (VStr "6") (VStr "3") (VStr "2567") = Ok (Fin 0.8) /\
  calculate_date_score (VStr "5") (VStr "3") (VStr "2567")
                       (VStr "15") (VStr "3") (VStr "2567") = Ok (Fin 0.5) /\
  calculate_date_score VNone (VStr "3") (VStr "2567")
                       (VStr "15") (VStr "3") (VStr "2567") = Ok (Fin 0.5) /\
  calculate_date_score (VStr "5") (VStr "3") (VStr "2567")
                       (VStr "5") (VStr "4") (VStr "2567") = Ok (Fin 0.3) /\
  calculate_date_score (VStr "5") (VStr "3") (VStr "2567")
                       (VStr "5") (VStr "3") (VStr "2566") = Ok (Fin 0) /\
  calculate_date_score VNaN VNone (VStr "NONE") VNone VNaN VNaN = Ok (Fin 1) /\
  calculate_date_score VNaN VNone (VStr "NONE")
                       (VStr "5") (VStr "3") (VStr "2566") = Ok (Fin 0) /\
  calculate_date_score (VStr "5") (VStr "3") (VFloat (Inf false) "inf")
                       (VStr "5") (VStr "3") (VStr "2566") = Raise OverflowError.
Proof. repeat split. Qed.

Example boolean_score_samples :
  calculate_boolean_score (VStr "Yes") (VBool true) = Fin 1 /\
  calculate_boolean_score (VInt 0) (VStr "true") = Fin 0 /\
  calculate_boolean_score (VStr "maybe") (VBool false) = Fin 0.5 /\
  calculate_boolean_score (VFloat (Fin 1) "1.0") (VInt 1) = Fin 0.5 /\
  calculate_boolean_score VNaN (VStr "n/a") = Fin 1.
Proof. repeat split. Qed.

(** ** Characters and strings *)

Lemma to_lower_to_upper (c : ascii) :
  Str.to_lower (Str.to_upper c) = Str.to_lower c.
Proof. destruct c as [[] [] [] [] [] [] [] []]; reflexivity. Qed.

Lemma lower_upper (s : string) : Str.lower (Str.upper s) = Str.lower s.
Proof.
  induction s as [|c s IH]; simpl; [reflexivity|].
  unfold Str.lower, Str.upper in *. simpl. now rewrite to_lower_to_upper, IH.
Qed.

Lemma upper_NONE_lower (s : string) :
  Str.upper s = "NONE" -> Str.lower s = "none".
Proof. intros H. rewrite <- lower_upper, H. reflexivity. Qed.

Lemma to_upper_inv (c d : ascii) :
  Str.to_upper c = d -> c = d \/ c = Str.to_lower d.
Proof.
  intros <-. destruct c as [[] [] [] [] [] [] [] []]; vm_compute; auto.
Qed.

(** The sixteen spellings of the sentinel. *)
Lemma upper_NONE_inv (s : string) :
  Str.upper s = "NONE" ->
  exists c1 c2 c3 c4,
    s = String c1 (String c2 (String c3 (String c4 EmptyString))) /\
    (c1 = "N" \/ c1 = "n")%char /\ (c2 = "O" \/ c2 = "o")%char /\
    (c3 = "N" \/ c3 = "n")%char /\ (c4 = "E" \/ c4 = "e")%char.
Proof.
  destruct s as [|c1 [|c2 [|c3 [|c4 [|c5 s]]]]]; try discriminate.
  unfold Str.upper; simpl. intros H. injection H as H1 H2 H3 H4.
  exists c1, c2, c3, c4. split; [reflexivity|].
  repeat split; [apply (to_upper_inv _ _ H1) | apply (to_upper_inv _ _ H2)
                | apply (to_upper_inv _ _ H3) | apply (to_upper_inv _ _ H4)].
Qed.

(** Characters that survive stripping, and characters that stop a run of
    digits. *)
Lemma in_lstrip (p : ascii -> bool) (c : ascii) (s : string) :
  In c (list_ascii_of_string (Str.lstrip p s)) -> In c (list_ascii_of_string s).
Proof.
  induction s as [|d s IH]; simpl; [tauto|].
  destruct (p d); simpl; tauto.
Qed.

Lemma in_rstrip (p : ascii -> bool) (c : ascii) (s : string) :
  In c (list_ascii_of_string (Str.rstrip p s)) -> In c (list_ascii_of_string s).
Proof.
  induction s as [|d s IH]; simpl; [tauto|].
  destruct (Str.rstrip p s) as [|e r]; [destruct (p d)|]; simpl in *; tauto.
Qed.

Lemma lstrip_keeps (p : ascii -> bool) (c : ascii) (s : string) :
  p c = false -> In c (list_ascii_of_string s) ->
  In c (list_ascii_of_string (Str.lstrip p s)).
Proof.
  intros Hc. induction s as [|d s IH]; simpl; [tauto|].
  destruct (p d) eqn:E; simpl; [|tauto].
  intros [->|H]; [congruence | now apply IH].
Qed.

Lemma rstrip_keeps (p : ascii -> bool) (c : ascii) (s : string) :
  p c = false -> In c (list_ascii_of_string s) ->
  In c (list_ascii_of_string (Str.rstrip p s)).
Proof.
  intros Hc. induction s as [|d s IH]; simpl; [tauto|].
  intros [->|H].
  - destruct (Str.rstrip p s); [rewrite Hc|]; simpl; tauto.
  - specialize (IH H). destruct (Str.rstrip p s); simpl in *; tauto.
Qed.

Lemma strip_blanks_keeps (c : ascii) (s : string) :
  Str.is_blank c = false -> In c (list_ascii_of_string (Str.strip s)) ->
  In c (list_ascii_of_string (Str.strip_blanks s)).
Proof.
  intros Hc H. unfold Str.strip, Str.strip_blanks in *.
  apply rstrip_keeps, lstrip_keeps; try assumption.
  now apply in_rstrip, in_lstrip in H.
Qed.

Lemma digitpart_stops (c : ascii) (s : string) (acc : Z) (n : nat) (b : bool) :
  In c (list_ascii_of_string s) -> Str.is_digit c = false -> c <> "_"%char ->
  Py.digitpart s acc n b = None.
Proof.
  intros Hin Hd Hu. revert acc n b.
  induction s as [|d s IH]; intros acc n b; simpl in *; [tauto|].
  destruct (Ascii.eqb_spec d "_") as [->|Hne].
  - destruct Hin as [<-|Hin]; [congruence|]. destruct b; [now apply IH | reflexivity].
  - unfold Py.digit_of. destruct Hin as [->|Hin]; [now rewrite Hd|].
    destruct (Str.is_digit d); [now apply IH | reflexivity].
Qed.

Lemma cut_keeps (sep : ascii -> bool) (c : ascii) (s : string) :
  In c (list_ascii_of_string s) -> sep c = false ->
  In c (list_ascii_of_string (fst (Str.cut sep s))) \/
  exists r, snd (Str.cut sep s) = Some r /\ In c (list_ascii_of_string r).
Proof.
  intros Hin Hc. induction s as [|d s IH]; simpl in *; [tauto|].
  destruct (sep d) eqn:E; simpl.
  - destruct Hin as [->|Hin]; [congruence|]. right. now exists s.
  - destruct (Str.cut sep s) as [a r]. simpl in *.
    destruct Hin as [->|Hin]; [now left; left|].
    destruct (IH Hin) as [H|H]; [left; now right | now right].
Qed.

Lemma split_sign_keeps (c : ascii) (s : string) :
  In c (list_ascii_of_string s) -> c <> "-"%char -> c <> "+"%char ->
  In c (list_ascii_of_string (snd (Py.split_sign s))).
Proof.
  intros Hin Hm Hp. destruct s as [|d s]; [exact Hin|].
  unfold Py.split_sign.
  destruct (Ascii.eqb_spec d "-") as [->|H1];
    [destruct Hin as [<-|Hin]; [congruence | exact Hin]|].
  destruct (Ascii.eqb_spec d "+") as [->|H2];
    [destruct Hin as [<-|Hin]; [congruence | exact Hin]|].
  destruct d as [[] [] [] [] [] [] [] []]; try exact Hin; congruence.
Qed.

Lemma decimal_of_string_stops (c : ascii) (s : string) :
  In c (list_ascii_of_string s) -> Str.is_digit c = false ->
  c <> "_"%char -> c <> "."%char ->
  Py.decimal_of_string s = None.
Proof.
  intros Hin Hd Hu Hp. unfold Py.decimal_of_string.
  assert (Hsep : Py.is_point c = false).
  { unfold Py.is_point. now destruct (Ascii.eqb_spec c "."). }
  pose proof (cut_keeps Py.is_point c s Hin Hsep) as H.
  destruct (Str.cut Py.is_point s) as [ip fp]. simpl in H.
  destruct H as [H | (r & -> & H)].
  - destruct ip as [|d ip]; [destruct H|]. cbn [Str.is_empty].
    rewrite (digitpart_stops c _ _ _ _ H Hd Hu). now destruct fp.
  - destruct (Str.is_empty ip).
    + now rewrite (digitpart_stops c _ _ _ _ H Hd Hu).
    + destruct (Py.digitpart ip 0 0 false) as [[z k]|]; [|reflexivity].
      destruct r as [|d r]; [destruct H|]. cbn [Str.is_empty].
      now rewrite (digitpart_stops c _ _ _ _ H Hd Hu).
Qed.

(** No text with the letter O in it is a number. *)
Lemma float_of_string_with_o (c : ascii) (s : string) :
  (c = "O" \/ c = "o")%char ->
  In c (list_ascii_of_string (Str.strip_blanks s)) ->
  Py.float_of_string s = None.
Proof.
  intros Hc Hin. unfold Py.float_of_string.
  assert (Hm : c <> "-"%char /\ c <> "+"%char /\ c <> "_"%char /\ c <> "."%char /\
               Str.is_digit c = false /\ Py.is_e c = false /\
               Str.to_lower c = "o"%char)
    by (destruct Hc as [-> | ->]; repeat split; discriminate).
  destruct Hm as (Hminus & Hplus & Hu & Hp & Hd & He & Hlow).
  pose proof (split_sign_keeps c _ Hin Hminus Hplus) as Hbody.
  destruct (Py.split_sign (Str.strip_blanks s)) as [neg body]. simpl in Hbody.
  assert (Hl : In "o"%char (list_ascii_of_string (Str.lower body))).
  { clear - Hbody Hlow. induction body as [|d body IH]; simpl in *; [tauto|].
    destruct Hbody as [->|H]; [left; exact Hlow | right; now apply IH]. }
  destruct (String.eqb_spec (Str.lower body) "inf") as [E|_];
    [rewrite E in Hl; simpl in Hl; intuition discriminate|].
  destruct (String.eqb_spec (Str.lower body) "infinity") as [E|_];
    [rewrite E in Hl; simpl in Hl; intuition discriminate|].
  destruct (String.eqb_spec (Str.lower body) "nan") as [E|_];
    [rewrite E in Hl; simpl in Hl; intuition discriminate|].
  cbn [orb].
  pose proof (cut_keeps Py.is_e c body Hbody He) as H.
  destruct (Str.cut Py.is_e body) as [mant e]. simpl in H.
  destruct H as [H | (r & -> & H)].
  - now rewrite (decimal_of_string_stops c mant H Hd Hu Hp).
  - destruct (Py.decimal_of_string mant) as [[m k]|]; [|reflexivity].
    unfold Py.exponent_of_string.
    pose proof (split_sign_keeps c _ H Hminus Hplus) as Hexp.
    destruct (Py.split_sign r) as [neg' body']. simpl in Hexp.
    now rewrite (digitpart_stops c _ _ _ _ Hexp Hd Hu).
Qed.

Lemma float_of_string_NONE (s : string) :
  Str.upper (Str.strip s) = "NONE" -> Py.float_of_string s = None.
Proof.
  intros H.
  destruct (upper_NONE_inv _ H) as (c1 & c2 & c3 & c4 & E & _ & H2 & _).
  apply (float_of_string_with_o c2); [exact H2|].
  apply strip_blanks_keeps; [destruct H2 as [-> | ->]; reflexivity|].
  rewrite E. simpl. tauto.
Qed.

(** ** The boolean score *)

Lemma to_bool_vocabulary (v : value) : to_bool v = vocabulary (normal_text v).
Proof.
  destruct v as [|[]|z|[|[]|q] shown|s]; try reflexivity.
Qed.

(** C9.  The boolean coercion is the fixed vocabulary on the trimmed,
    lower-cased text of the value ("true", "1", "yes" give true; "false",
    "0", "no" give false; anything else gives null), and the score is 1.0
    when both sides are null, exactly 0.5 when exactly one side is null, and
    otherwise 1.0 on equality and 0.0 on inequality. *)
Theorem boolean_score_by_vocabulary (predicted ground_truth : value) :
  to_bool predicted = vocabulary (normal_text predicted) /\
  to_bool ground_truth = vocabulary (normal_text ground_truth) /\
  (forall s, vocabulary s = Some true <-> In s ["true"; "1"; "yes"]) /\
  (forall s, vocabulary s = Some false <-> In s ["false"; "0"; "no"]) /\
  calculate_boolean_score predicted ground_truth =
    match vocabulary (normal_text predicted),
          vocabulary (normal_text ground_truth) with
    | None, None => Fin 1
    | None, Some _ | Some _, None => Fin 0.5
    | Some p, Some t => if Bool.eqb p t then Fin 1 else Fin 0
    end /\
  Fin 0.5 <> Fin 0 /\ Fin 0.5 <> Fin 1.
Proof.
  split; [apply to_bool_vocabulary|]. split; [apply to_bool_vocabulary|].
  split; [|split; [|split; [|split; discriminate]]].
  - intros s. unfold vocabulary, one_of. simpl.
    destruct (String.eqb_spec s "true"), (String.eqb_spec s "1"),
      (String.eqb_spec s "yes"); subst; simpl;
      try (split; [intros _; tauto | reflexivity]).
    split; [|intros [?|[?|[?|[]]]]; congruence].
    destruct (_ || _); discriminate.
  - intros s. unfold vocabulary, one_of. simpl.
    destruct (String.eqb_spec s "false"), (String.eqb_spec s "0"),
      (String.eqb_spec s "no"); subst; simpl;
      try (split; [intros _; tauto | reflexivity]).
    destruct (String.eqb_spec s "true"), (String.eqb_spec s "1"),
      (String.eqb_spec s "yes"); subst; simpl;
      (split; [discriminate | intros [?|[?|[?|[]]]]; congruence]).
  - unfold calculate_boolean_score. rewrite !to_bool_vocabulary.
    destruct (vocabulary _) as [[]|], (vocabulary _) as [[]|]; reflexivity.
Qed.

Lemma boolean_score_by_vocabulary_witness :
  vocabulary "yes" = Some true /\
  calculate_boolean_score (VStr " Yes ") (VStr "maybe") = Fin 0.5.
Proof.
  destruct (boolean_score_by_vocabulary (VStr " Yes ") (VStr "maybe"))
    as (_ & _ & Htrue & _ & Hscore & _).
  split; [apply Htrue; simpl; tauto | exact Hscore].
Defined.

(** ** The null and "NONE" rules *)

Lemma is_NONE_not_null (v : value) : is_NONE v -> Py.isna v = false.
Proof. intros (s & -> & _). reflexivity. Qed.

Lemma to_bool_null (v : value) : is_null v -> to_bool v = None.
Proof. unfold is_null, to_bool. now intros ->. Qed.

Lemma to_bool_NONE (v : value) : is_NONE v -> to_bool v = None.
Proof.
  intros (s & -> & H). unfold to_bool; simpl.
  now rewrite (upper_NONE_lower _ H).
Qed.

Lemma text_score_null_null hl (p t : value) :
  is_null p -> is_null t -> calculate_text_score hl p t = Fin 1.
Proof. unfold is_null, calculate_text_score. now intros -> ->. Qed.

Lemma text_score_NONE_NONE hl (p t : value) :
  is_NONE p -> is_NONE t -> calculate_text_score hl p t = Fin 1.
Proof.
  intros (s & -> & Hs) (s' & -> & Hs'). unfold calculate_text_score; simpl.
  now rewrite Hs, Hs'.
Qed.

Lemma enum_score_NONE_NONE (p t : value) :
  is_NONE p -> is_NONE t -> calculate_enum_score p t = Fin 1.
Proof.
  intros (s & -> & Hs) (s' & -> & Hs'). unfold calculate_enum_score; simpl.
  now rewrite (upper_NONE_lower _ Hs), (upper_NONE_lower _ Hs').
Qed.

Lemma numeric_score_NONE (p t : value) :
  Py.isna p = false -> Py.isna t = false -> is_NONE p \/ is_NONE t ->
  Py.float p = Raise OverflowError \/ calculate_numeric_score p t = Ok (Fin 0).
Proof.
  intros Hp Ht H. unfold calculate_numeric_score. rewrite Hp, Ht; simpl.
  destruct (Py.float p) as [x|e] eqn:Ep; simpl.
  - destruct H as [(s & -> & Hs) | (s & -> & Hs)]; simpl in *.
    + now rewrite (float_of_string_NONE _ Hs) in Ep.
    + right. now rewrite (float_of_string_NONE _ Hs).
  - destruct e; auto.
Qed.

(** C2, as the code has it.  Two null values score 1.0 for every kind; two
    "NONE" sentinels score 1.0 for text, enum and boolean but 0.0 for
    numeric; a null value against a "NONE" sentinel scores 1.0 for boolean
    only, and 0.0 for text, numeric and enum. *)
Theorem null_and_NONE_scores hl (predicted ground_truth : value) :
  (is_null predicted -> is_null ground_truth ->
     calculate_text_score hl predicted ground_truth = Fin 1 /\
     calculate_numeric_score predicted ground_truth = Ok (Fin 1) /\
     calculate_enum_score predicted ground_truth = Fin 1 /\
     calculate_boolean_score predicted ground_truth = Fin 1) /\
  (is_NONE predicted -> is_NONE ground_truth ->
     calculate_text_score hl predicted ground_truth = Fin 1 /\
     calculate_numeric_score predicted ground_truth = Ok (Fin 0) /\
     calculate_enum_score predicted ground_truth = Fin 1 /\
     calculate_boolean_score predicted ground_truth = Fin 1) /\
  ((is_null predicted /\ is_NONE ground_truth) \/
   (is_NONE predicted /\ is_null ground_truth) ->
     calculate_text_score hl predicted ground_truth = Fin 0 /\
     calculate_numeric_score predicted ground_truth = Ok (Fin 0) /\
     calculate_enum_score predicted ground_truth = Fin 0 /\
     calculate_boolean_score predicted ground_truth = Fin 1).
Proof.
  split; [|split].
  - intros Hp Ht. split; [now apply text_score_null_null|].
    unfold calculate_boolean_score. rewrite (to_bool_null _ Hp), (to_bool_null _ Ht).
    unfold is_null in *.
    unfold calculate_numeric_score, calculate_enum_score. now rewrite Hp, Ht.
  - intros Hp Ht. split; [now apply text_score_NONE_NONE|].
    split; [|split; [now apply enum_score_NONE_NONE|]].
    + destruct (numeric_score_NONE predicted ground_truth) as [H|H];
        auto using is_NONE_not_null.
      destruct Hp as (s & -> & Hs). simpl in H.
      now rewrite (float_of_string_NONE _ Hs) in H.
    + unfold calculate_boolean_score.
      now rewrite (to_bool_NONE _ Hp), (to_bool_NONE _ Ht).
  - intros H.
    assert (Hb : calculate_boolean_score predicted ground_truth = Fin 1).
    { unfold calculate_boolean_score.
      destruct H as [[Hp Ht] | [Hp Ht]].
      - now rewrite (to_bool_null _ Hp), (to_bool_NONE _ Ht).
      - now rewrite (to_bool_NONE _ Hp), (to_bool_null _ Ht). }
    unfold calculate_text_score, calculate_numeric_score, calculate_enum_score.
    destruct H as [[Hp Ht] | [Hp Ht]].
    + rewrite (is_NONE_not_null _ Ht). unfold is_null in Hp. now rewrite Hp.
    + rewrite (is_NONE_not_null _ Hp). unfold is_null in Ht. now rewrite Ht.
Qed.

Lemma null_and_NONE_scores_witness :
  calculate_text_score true VNone VNaN = Fin 1 /\
  calculate_numeric_score (VStr " none") (VStr "None") = Ok (Fin 0) /\
  calculate_enum_score VNaN (VStr "NONE") = Fin 0.
Proof.
  destruct (null_and_NONE_scores true VNone VNaN) as (H1 & _ & _).
  destruct (null_and_NONE_scores true (VStr " none") (VStr "None")) as (_ & H2 & _).
  destruct (null_and_NONE_scores true VNaN (VStr "NONE")) as (_ & _ & H3).
  split; [|split].
  - apply H1; reflexivity.
  - apply H2; eexists; (split; [reflexivity | reflexivity]).
  - apply H3. left. split; [reflexivity|].
    eexists; (split; [reflexivity | reflexivity]).
Defined.

(** C2 as stated fails: a null value against the sentinel does not score
    1.0 as text or as enum, and two sentinels do not score 1.0 as numbers. *)
Lemma null_NONE_rule_counterexample :
  is_null VNone /\ is_NONE (VStr "NONE") /\
  ~ F.has_value (calculate_text_score true VNone (VStr "NONE")) 1 /\
  ~ F.has_value (calculate_text_score false VNone (VStr "NONE")) 1 /\
  ~ F.has_value (calculate_enum_score VNone (VStr "NONE")) 1 /\
  ~ returns_value (calculate_numeric_score (VStr "NONE") (VStr "NONE")) 1.
Proof.
  split; [reflexivity|]. split; [now exists "NONE"|].
  repeat split; vm_compute; discriminate.
Qed.

(** ** Scores stay in [0,1] *)

Lemma is_score_0 : F.is_score (Fin 0).
Proof. simpl; lra. Qed.

Lemma is_score_1 : F.is_score (Fin 1).
Proof. simpl; lra. Qed.

Lemma is_score_half : F.is_score (Fin 0.5).
Proof. simpl; lra. Qed.

Create HintDb scores.
#[local] Hint Resolve is_score_0 is_score_1 is_score_half : scores.

Lemma is_neg_Qabs (q : Q) : F.is_neg (Qabs q) = false.
Proof.
  unfold F.is_neg. apply negb_false_iff, Qle_bool_iff, Qabs_nonneg.
Qed.

Lemma div_abs_nan_or_nonneg (a b : pyfloat) :
  F.nan_or_nonneg (F.div (F.abs a) (F.abs b)).
Proof.
  destruct a as [|na|p], b as [|nb|q]; simpl; auto.
  - now rewrite is_neg_Qabs.
  - lra.
  - destruct (F.is_zero (Qabs q)) eqn:Ez; simpl; [trivial|].
    apply Qmult_le_0_compat; [apply Qabs_nonneg|].
    apply Qinv_le_0_compat, Qabs_nonneg.
Qed.

Lemma max0_sub_one_is_score (x : pyfloat) :
  F.nan_or_nonneg x -> F.is_score (F.max0 (F.sub F.one x)).
Proof.
  destruct x as [|n|q]; simpl.
  - intros _. apply is_score_0.
  - intros ->. apply is_score_0.
  - intros Hq. unfold F.max0, F.gt; simpl.
    destruct (Qle_bool (1 + - q) 0) eqn:E; simpl; [lra|].
    assert (~ 1 + - q <= 0) by (rewrite <- Qle_bool_iff, E; discriminate).
    lra.
Qed.

(** Negative values are clamped to zero. *)
Lemma max0_clamps (q : Q) : q < 0 -> F.max0 (Fin q) = Fin 0.
Proof.
  intros Hq. unfold F.max0, F.gt; simpl.
  assert (E : Qle_bool q 0 = true) by (apply Qle_bool_iff; lra).
  now rewrite E.
Qed.

Lemma of_nat_nonneg (n : nat) : F.nan_or_nonneg (F.of_nat n).
Proof.
  simpl. change 0 with (inject_Z 0). rewrite <- Zle_Qle. lia.
Qed.

Lemma text_divisor_nonzero (n : nat) :
  F.eq_zero (F.of_nat (Nat.max n 1)) = false.
Proof.
  simpl. unfold F.is_zero. apply not_true_is_false. intros H.
  apply Qeq_bool_iff in H. unfold Qeq in H. simpl in H. lia.
Qed.

Lemma text_score_is_score hl (p t : value) :
  F.is_score (calculate_text_score hl p t).
Proof.
  unfold calculate_text_score.
  repeat match goal with
         | |- F.is_score (if ?b then _ else _) => destruct b
         end; auto with scores.
  all: apply max0_sub_one_is_score.
  all: match goal with
       | |- F.nan_or_nonneg (F.div (F.of_nat ?d) (F.of_nat ?m)) =>
           pose proof (of_nat_nonneg d) as Hd;
           pose proof (of_nat_nonneg m) as Hm;
           simpl in *; destruct (F.is_zero _); simpl; [trivial|];
           apply Qmult_le_0_compat; [exact Hd | now apply Qinv_le_0_compat]
       end.
Qed.

Lemma enum_score_is_score (p t : value) : F.is_score (calculate_enum_score p t).
Proof.
  unfold calculate_enum_score.
  repeat match goal with
         | |- F.is_score (if ?b then _ else _) => destruct b
         end; auto with scores.
Qed.

Lemma boolean_score_is_score (p t : value) :
  F.is_score (calculate_boolean_score p t).
Proof.
  unfold calculate_boolean_score.
  destruct (to_bool p) as [[]|], (to_bool t) as [[]|]; simpl; lra.
Qed.

Lemma float_raises (v : value) (e : exn) :
  Py.float v = Raise e ->
  caught e = true \/ (e = OverflowError /\ too_large_for_float v).
Proof.
  destruct v as [| b | z | x shown | s]; simpl; try discriminate.
  - intros [= <-]. now left.
  - destruct (Z.leb_spec F.overflow_bound (Z.abs z)); [|discriminate].
    intros [= <-]. right. split; [reflexivity|]. now exists z.
  - destruct (Py.float_of_string s); [discriminate|]. intros [= <-]. now left.
Qed.

Lemma numeric_score_outcome (p t : value) :
  match calculate_numeric_score p t with
  | Ok s => F.is_score s
  | Raise e =>
      e = OverflowError /\ (too_large_for_float p \/ too_large_for_float t)
  end.
Proof.
  unfold calculate_numeric_score.
  destruct (Py.isna p && Py.isna t); [apply is_score_1|].
  destruct (Py.isna p || Py.isna t); [apply is_score_0|].
  destruct (Py.float p) as [x|e] eqn:Ep; simpl.
  - destruct (Py.float t) as [y|e] eqn:Et; simpl.
    + destruct (F.eq_zero y).
      * destruct (F.eq_zero x); auto with scores.
      * apply max0_sub_one_is_score, div_abs_nan_or_nonneg.
    + destruct (float_raises _ _ Et) as [H | [-> H]].
      * rewrite H. apply is_score_0.
      * simpl. auto.
  - destruct (float_raises _ _ Ep) as [H | [-> H]].
    + rewrite H. apply is_score_0.
    + simpl. auto.
Qed.

(** ** The composite-date score *)

Lemma int_raises (v : value) (e : exn) :
  Py.int v = Raise e -> caught e = true \/ (e = OverflowError /\ is_infinite v).
Proof.
  destruct v as [| b | z | [|n|q] shown | s]; simpl; try discriminate.
  - intros [= <-]. now left.
  - intros [= <-]. now left.
  - intros [= <-]. right. split; [reflexivity|]. now exists n, shown.
  - destruct (Py.int_of_string s); [discriminate|]. intros [= <-]. now left.
Qed.

Lemma int_or_none_raises (v : value) (e : exn) :
  int_or_none v = Raise e ->
  caught e = true \/ (e = OverflowError /\ is_infinite v).
Proof.
  unfold int_or_none. destruct (_ && _); [|discriminate].
  destruct (Py.int v) as [z|e'] eqn:E; simpl; [discriminate|].
  intros [= <-]. now apply int_raises.
Qed.

Lemma try_int_pair_outcome (pred truth : value) :
  match try_int_pair pred truth with
  | Ok _ => True
  | Raise e => e = OverflowError /\ (is_infinite pred \/ is_infinite truth)
  end.
Proof.
  unfold try_int_pair.
  destruct (int_or_none pred) as [p|e] eqn:Ep; simpl.
  - destruct (int_or_none truth) as [t|e] eqn:Et; simpl; [trivial|].
    destruct (int_or_none_raises _ _ Et) as [H | [-> H]].
    + now rewrite H.
    + simpl. auto.
  - destruct (int_or_none_raises _ _ Ep) as [H | [-> H]].
    + now rewrite H.
    + simpl. auto.
Qed.

(** When either conversion fails with a caught exception, both years (or
    months, or days) become [None]. *)
Lemma try_int_pair_caught (pred truth : value) (e : exn) :
  caught e = true ->
  int_or_none pred = Raise e \/
  ((exists p, int_or_none pred = Ok p) /\ int_or_none truth = Raise e) ->
  try_int_pair pred truth = Ok (None, None).
Proof.
  intros He [H | [[p Hp] H]]; unfold try_int_pair.
  - rewrite H; simpl. now rewrite He.
  - rewrite Hp, H; simpl. now rewrite He.
Qed.

Lemma date_score_outcome (pd pm py td tm ty : value) :
  match calculate_date_score pd pm py td tm ty with
  | Ok s => In s [Fin 0; Fin 0.3; Fin 0.5; Fin 0.8; Fin 1]
  | Raise e =>
      e = OverflowError /\ Exists is_infinite [pd; pm; py; td; tm; ty]
  end.
Proof.
  unfold calculate_date_score.
  destruct (_ && _); [simpl; tauto|].
  destruct (_ || _); [simpl; tauto|].
  pose proof (try_int_pair_outcome py ty) as Hy.
  destruct (try_int_pair py ty) as [[p_year t_year]|e]; simpl.
  2:{ destruct Hy as [-> [H|H]]; split; auto 10 using Exists_cons_hd, Exists_cons_tl. }
  destruct (opt_neq p_year t_year).
  { destruct (_ || _); simpl; tauto. }
  pose proof (try_int_pair_outcome pm tm) as Hm.
  destruct (try_int_pair pm tm) as [[p_month t_month]|e]; simpl.
  2:{ destruct Hm as [-> [H|H]]; split; auto 10 using Exists_cons_hd, Exists_cons_tl. }
  destruct (opt_neq p_month t_month); [simpl; tauto|].
  pose proof (try_int_pair_outcome pd td) as Hd.
  destruct (try_int_pair pd td) as [[p_date t_date]|e]; simpl.
  2:{ destruct Hd as [-> [H|H]]; split; auto 10 using Exists_cons_hd, Exists_cons_tl. }
  destruct (opt_neq p_date t_date); simpl; [|tauto].
  destruct p_date, t_date; try (simpl; tauto).
  destruct (_ <=? _)%Z; simpl; tauto.
Qed.

(** The part of the year rule that the code keeps: when the two years are
    read without a failed conversion and differ (two different numbers, or a
    number against an empty, zero or "NONE" year), the score is 0.0 whatever
    the days and months are. *)
Lemma date_score_year_mismatch (pd pm py td tm ty : value) (p t : option Z) :
  forallb null_or_none [pd; pm; py] && forallb null_or_none [td; tm; ty] = false ->
  int_or_none py = Ok p -> int_or_none ty = Ok t -> opt_neq p t = true ->
  calculate_date_score pd pm py td tm ty = Ok (Fin 0).
Proof.
  intros Hnull Hp Ht Hne. unfold calculate_date_score. rewrite Hnull.
  destruct (_ || _); [reflexivity|].
  unfold try_int_pair. rewrite Hp, Ht; simpl. rewrite Hne.
  now destruct (_ || _).
Qed.

Lemma date_score_year_mismatch_witness :
  calculate_date_score (VStr "5") (VStr "3") (VStr "2566")
                       (VStr "5") (VStr "3") (VStr "2567") = Ok (Fin 0).
Proof.
  apply (date_score_year_mismatch _ _ _ _ _ _ (Some 2566%Z) (Some 2567%Z));
    reflexivity.
Defined.

(** C1, the failing input.  The predicted year "25x7" cannot be read as an
    integer and the true year is 2567, yet with equal days and months the
    score is 1.0 (and with different months 0.3), not 0.0: the failed
    conversion resets both years to [None], which then compare equal.  The
    same happens when the predicted year is NaN. *)
Theorem date_score_unparseable_year :
  forallb null_or_none [VStr "5"; VStr "3"; VStr "25x7"] = false /\
  Py.int (VStr "25x7") = Raise ValueError /\
  Py.int (VStr "2567") = Ok 2567%Z /\
  calculate_date_score (VStr "5") (VStr "3") (VStr "25x7")
                       (VStr "5") (VStr "3") (VStr "2567") = Ok (Fin 1) /\
  calculate_date_score (VStr "5") (VStr "4") (VStr "25x7")
                       (VStr "5") (VStr "3") (VStr "2567") = Ok (Fin 0.3) /\
  calculate_date_score (VStr "5") (VStr "3") VNaN
                       (VStr "5") (VStr "3") (VStr "2567") = Ok (Fin 1).
Proof. repeat split. Qed.

(** C8.  A numeric score is not always returned.  [float] raises
    OverflowError on an integer that no float can hold, and the clause
    [except (ValueError, TypeError)] does not catch it, so the call fails
    where a text that is no number or a value of a wrong type is caught and
    scores 0.0.  The composite-date score fails in the same way when [int]
    is given an infinite component, where a text that is no number is
    caught. *)
Theorem numeric_score_overflow :
  calculate_numeric_score (VInt (10 ^ 400)) (VInt 1) = Raise OverflowError /\
  calculate_numeric_score (VInt 1) (VInt (10 ^ 400)) = Raise OverflowError /\
  calculate_numeric_score (VStr "abc") (VInt 1) = Ok (Fin 0) /\
  calculate_date_score (VStr "5") (VStr "3") (VFloat (Inf false) "inf")
                       (VStr "5") (VStr "3") (VStr "2567")
  = Raise OverflowError /\
  calculate_date_score (VStr "5") (VStr "3") (VStr "2566")
                       (VStr "5") (VStr "3") (VStr "2567") = Ok (Fin 0).
Proof. repeat split; vm_compute; reflexivity. Qed.

(** ** The table loop *)

Lemma extend_ext {V} (d : dict (list V)) (f g : string -> list V) :
  (forall k, f k = g k) -> extend d f = extend d g.
Proof.
  intros H. unfold extend. apply List.map_ext. intros [k l]. now rewrite H.
Qed.

Lemma extend_nil {V} (d : dict (list V)) : extend d (fun _ => []) = d.
Proof.
  unfold extend. rewrite <- (List.map_id d) at 2. apply List.map_ext.
  intros [k l]. now rewrite app_nil_r.
Qed.

Lemma extend_extend {V} (d : dict (list V)) (f g : string -> list V) :
  extend (extend d f) g = extend d (fun k => (f k ++ g k)%list).
Proof.
  unfold extend. rewrite List.map_map. apply List.map_ext.
  intros [k l]. now rewrite app_assoc.
Qed.

Lemma append_extend {V} (d : dict (list V)) (field : string) (x : V) :
  Dict.append d field x =
  extend d (fun k => if String.eqb k field then [x] else []).
Proof.
  unfold Dict.append, extend. apply List.map_ext. intros [k l].
  destruct (String.eqb k field); [reflexivity | now rewrite app_nil_r].
Qed.

Lemma score_field_outcome hl (field_type : string) (p t : value) :
  match score_field hl field_type p t with
  | Ok s => F.is_score s
  | Raise e => e = OverflowError
  end.
Proof.
  unfold score_field.
  pose proof (numeric_score_outcome p t) as Hn.
  repeat match goal with
         | |- context [if ?b then _ else _] => destruct b
         end;
    try apply text_score_is_score; try apply enum_score_is_score;
    try apply boolean_score_is_score.
  destruct (calculate_numeric_score p t); [exact Hn | apply Hn].
Qed.

Lemma score_fields_row hl (p t : DataFrame) (field_types : dict string)
  (pred_row truth_row : gmap string value) (scores : dict (list pyfloat)) :
  score_fields hl p t field_types pred_row truth_row scores =
  if row_ok hl p t field_types (pred_row, truth_row)
  then Ok (extend scores (row_scores hl p t field_types (pred_row, truth_row)))
  else Raise OverflowError.
Proof.
  unfold score_fields.
  revert scores. induction field_types as [|[field ty] fts IH]; intros scores.
  - cbn [for_each row_ok forallb]. f_equal.
    rewrite <- (extend_nil scores) at 1. now apply extend_ext.
  - cbn [for_each row_ok forallb]. unfold is_scored at 1.
    destruct (DF.has_column p field && DF.has_column t field) eqn:Es.
    + pose proof (score_field_outcome hl ty (DF.cell pred_row field)
                    (DF.cell truth_row field)) as Ho.
      cbn [fst snd].
      destruct (score_field hl ty _ _) as [x|e] eqn:E; cbn [mbind result_bind is_ok andb].
      * rewrite IH.
        change (forallb _ fts) with (row_ok hl p t fts (pred_row, truth_row)).
        destruct (row_ok hl p t fts (pred_row, truth_row)); [|reflexivity].
        f_equal. rewrite append_extend, extend_extend. apply extend_ext.
        intros k. cbn [row_scores List.flat_map fst snd].
        unfold is_scored at 1. rewrite Es, E, andb_true_r.
        now destruct (String.eqb k field).
      * now subst e.
    + cbn [mbind result_bind andb]. rewrite IH.
      change (forallb _ fts) with (row_ok hl p t fts (pred_row, truth_row)).
      destruct (row_ok hl p t fts (pred_row, truth_row)); [|reflexivity].
      f_equal. apply extend_ext. intros k.
      cbn [row_scores List.flat_map fst snd]. unfold is_scored at 1.
      now rewrite Es, andb_false_r.
Qed.

Lemma find_filter_head {A} (f : A -> bool) (l : list A) :
  List.find f l =
  match List.filter f l with x :: _ => Some x | [] => None end.
Proof.
  induction l as [|a l IH]; simpl; [reflexivity|]. now destruct (f a).
Qed.

Lemma score_truth_row_unfold hl (p t : DataFrame) (keys : list string)
  (field_types : dict string) (scores : dict (list pyfloat)) (n : nat)
  (tr : gmap string value) :
  score_truth_row hl p t keys field_types (scores, n) tr =
  match List.filter (mask p t keys tr) (rows p) with
  | pr :: _ =>
      scores' ← score_fields hl p t field_types pr tr scores;
      Ok (scores', S n)
  | [] => Ok (scores, n)
  end.
Proof. reflexivity. Qed.

Lemma table_loop hl (p t : DataFrame) (keys : list string)
  (field_types : dict string) (truth_rows : list (gmap string value))
  (scores : dict (list pyfloat)) (n : nat) :
  for_each (score_truth_row hl p t keys field_types) truth_rows (scores, n) =
  if forallb (row_ok hl p t field_types) (pairs_of p t keys truth_rows)
  then Ok (extend scores
             (fun k => List.flat_map (fun pair => row_scores hl p t field_types pair k)
                                     (pairs_of p t keys truth_rows)),
           (n + List.length (pairs_of p t keys truth_rows))%nat)
  else Raise OverflowError.
Proof.
  revert scores n. induction truth_rows as [|tr trs IH]; intros scores n.
  - cbn [for_each pairs_of List.flat_map forallb List.length].
    rewrite Nat.add_0_r. f_equal. f_equal.
    rewrite <- (extend_nil scores) at 1. now apply extend_ext.
  - cbn [for_each]. rewrite score_truth_row_unfold.
    assert (Hp : pairs_of p t keys (tr :: trs) =
                 (match List.filter (mask p t keys tr) (rows p) with
                  | pr :: _ => [(pr, tr)]
                  | [] => []
                  end ++ pairs_of p t keys trs)%list).
    { unfold pairs_of at 1. cbn [List.flat_map]. unfold first_match.
      rewrite find_filter_head. now destruct (List.filter _ _). }
    rewrite Hp. clear Hp.
    destruct (List.filter (mask p t keys tr) (rows p)) as [|pr ?].
    + cbn [mbind result_bind app]. apply IH.
    + rewrite score_fields_row. cbn [app forallb List.length List.flat_map].
      destruct (row_ok hl p t field_types (pr, tr)); cbn [mbind result_bind andb];
        [|reflexivity].
      rewrite IH. destruct (forallb _ _); [|reflexivity].
      f_equal. f_equal; [|lia].
      rewrite extend_extend. now apply extend_ext.
Qed.

Lemma DF_nonempty_len (df : DataFrame) :
  DF.empty df = false -> (0 < DF.len df)%nat.
Proof.
  unfold DF.empty, DF.len. destruct (columns df), (rows df); simpl;
    try discriminate; lia.
Qed.

Lemma row_ok_all_scores_ok hl (p t : DataFrame) (keys : list string)
  (field_types : dict string) :
  forallb (row_ok hl p t field_types) (matched_pairs p t keys) =
  all_scores_ok hl p t keys field_types.
Proof.
  apply eq_iff_eq_true. unfold all_scores_ok, row_ok, all_ok, field_results.
  rewrite !forallb_forall. split.
  - intros H [f ty] Hf. destruct (is_scored p t f) eqn:Es; [|reflexivity].
    apply forallb_forall. intros r Hr. apply in_map_iff in Hr.
    destruct Hr as ([pr tr] & <- & Hin).
    specialize (H _ Hin). rewrite forallb_forall in H.
    specialize (H _ Hf). cbn in H. now rewrite Es in H.
  - intros H [pr tr] Hin. apply forallb_forall. intros [f ty] Hf.
    destruct (is_scored p t f) eqn:Es; [|reflexivity].
    specialize (H _ Hf). cbn in H. rewrite Es in H.
    rewrite forallb_forall in H. apply H.
    apply in_map_iff. now exists (pr, tr).
Qed.

Lemma row_scores_absent hl (p t : DataFrame) (field_types : dict string)
  (pair : gmap string value * gmap string value) (f : string) :
  ~ In f (Dict.keys field_types) -> row_scores hl p t field_types pair f = [].
Proof.
  induction field_types as [|[f' ty'] fts IH]; [reflexivity|].
  cbn [Dict.keys List.map fst In row_scores List.flat_map]. intros H.
  destruct (String.eqb_spec f f') as [->|_]; [tauto|].
  cbn [andb app]. apply IH. unfold Dict.keys. tauto.
Qed.

Lemma row_scores_NoDup hl (p t : DataFrame) (field_types : dict string)
  (pair : gmap string value * gmap string value) (f ty : string) :
  List.NoDup (Dict.keys field_types) -> In (f, ty) field_types ->
  row_scores hl p t field_types pair f =
  if is_scored p t f
  then ok_values [score_field hl ty (DF.cell (fst pair) f) (DF.cell (snd pair) f)]
  else [].
Proof.
  induction field_types as [|[f' ty'] fts IH]; [intros _ []|].
  cbn [Dict.keys List.map fst]. intros Hnd Hin.
  apply NoDup_cons_iff in Hnd. destruct Hnd as [Hnotin Hnd].
  change (row_scores hl p t ((f', ty') :: fts) pair f)
    with ((if String.eqb f f' && is_scored p t f'
           then ok_values [score_field hl ty' (DF.cell (fst pair) f')
                             (DF.cell (snd pair) f')]
           else []) ++ row_scores hl p t fts pair f)%list.
  destruct Hin as [[= -> ->] | Hin].
  - rewrite String.eqb_refl, (row_scores_absent _ _ _ _ _ _ Hnotin), app_nil_r.
    reflexivity.
  - assert (f <> f').
    { intros ->. apply Hnotin. unfold Dict.keys.
      change f' with (fst (f', ty)). now apply in_map. }
    destruct (String.eqb_spec f f'); [contradiction|].
    cbn [andb app]. now apply IH.
Qed.

Lemma flat_map_nil {A B} (l : list A) :
  List.flat_map (fun _ : A => @nil B) l = [].
Proof. induction l; simpl; auto. Qed.

Lemma ok_values_map {A B} (f : A -> result B) (l : list A) :
  ok_values (List.map f l) = List.flat_map (fun a => ok_values [f a]) l.
Proof.
  unfold ok_values. induction l as [|a l IH]; [reflexivity|].
  cbn [List.map List.flat_map]. rewrite IH. now rewrite app_nil_r.
Qed.

(** Under distinct keys, what the loop gathers for a field is the list of
    that field's scores over the matched rows. *)
Lemma gathered_scores hl (p t : DataFrame) (keys : list string)
  (field_types : dict string) (f ty : string) :
  List.NoDup (Dict.keys field_types) -> In (f, ty) field_types ->
  List.flat_map (fun pair => row_scores hl p t field_types pair f)
                (matched_pairs p t keys) =
  ok_values (field_results hl p t keys f ty).
Proof.
  intros Hnd Hin. unfold field_results.
  rewrite (List.flat_map_ext _ _ (fun pair => row_scores_NoDup hl p t field_types pair f ty Hnd Hin)).
  destruct (is_scored p t f).
  - rewrite ok_values_map. apply List.flat_map_ext. now intros [pr tr].
  - apply flat_map_nil.
Qed.

(** The table score of two non-empty tables, in terms of what the loop
    gathers. *)
Lemma table_dqs_row_major hl (p t : DataFrame) (keys : list string)
  (field_types : dict string) :
  DF.empty p = false -> DF.empty t = false ->
  calculate_table_dqs hl p t keys field_types =
  if forallb (row_ok hl p t field_types) (matched_pairs p t keys)
  then Ok (overall_of (means_of (gathered hl p t keys field_types))
                      (coverage p t keys),
           means_of (gathered hl p t keys field_types))
  else Raise OverflowError.
Proof.
  intros Hp Ht. unfold calculate_table_dqs. rewrite Hp, Ht. cbn [andb].
  rewrite table_loop. change (pairs_of p t keys (rows t)) with (matched_pairs p t keys).
  destruct (forallb _ _); [|reflexivity]. cbn [mbind result_bind].
  assert (Hg : extend (List.map (fun '(field, _) => (field, @nil pyfloat)) field_types)
                 (fun k => List.flat_map
                             (fun pair => row_scores hl p t field_types pair k)
                             (matched_pairs p t keys)) =
               gathered hl p t keys field_types).
  { unfold extend, gathered. rewrite List.map_map. apply List.map_ext.
    now intros [f ty]. }
  rewrite Hg. fold (means_of (gathered hl p t keys field_types)).
  apply DF_nonempty_len in Ht.
  destruct (Nat.ltb_spec 0 (DF.len t)); [|lia].
  reflexivity.
Qed.

Lemma flat_map_ext_in {A B} (f g : A -> list B) (l : list A) :
  (forall a, In a l -> f a = g a) -> List.flat_map f l = List.flat_map g l.
Proof.
  induction l as [|a l IH]; intros H; [reflexivity|].
  cbn [List.flat_map]. rewrite H by now left.
  rewrite IH; [reflexivity|]. intros b Hb. apply H. now right.
Qed.

Lemma gathered_per_field hl (p t : DataFrame) (keys : list string)
  (field_types : dict string) :
  List.NoDup (Dict.keys field_types) ->
  means_of (gathered hl p t keys field_types) =
  per_field_scores hl p t keys field_types.
Proof.
  intros Hnd. unfold means_of, gathered, per_field_scores.
  rewrite List.flat_map_concat_map, List.map_map, <- List.flat_map_concat_map.
  apply flat_map_ext_in. intros [f ty] Hin.
  rewrite (gathered_scores hl p t keys field_types f ty Hnd Hin).
  now destruct (ok_values _).
Qed.

(** The refinement: on two non-empty tables the code computes the
    per-field means over the matched rows and their mean times the
    coverage, unless one of the scores raises. *)
Lemma table_dqs_refines hl (p t : DataFrame) (keys : list string)
  (field_types : dict string) :
  DF.empty p = false -> DF.empty t = false ->
  List.NoDup (Dict.keys field_types) ->
  calculate_table_dqs hl p t keys field_types =
  if all_scores_ok hl p t keys field_types
  then Ok (table_score hl p t keys field_types,
           per_field_scores hl p t keys field_types)
  else Raise OverflowError.
Proof.
  intros Hp Ht Hnd. rewrite table_dqs_row_major by assumption.
  rewrite row_ok_all_scores_ok, gathered_per_field by assumption.
  reflexivity.
Qed.

(** ** Means of scores *)

Lemma is_score_Fin (x : pyfloat) : F.is_score x -> x = Fin (F.value x).
Proof. destruct x; simpl; intros H; try contradiction; reflexivity. Qed.

Lemma fold_add_scores (l : list pyfloat) (a : Q) :
  Forall F.is_score l ->
  fold_left F.add l (Fin a) = Fin (fold_left Qplus (List.map F.value l) a).
Proof.
  intros H. revert a. induction H as [|x l Hx _ IH]; intros a; [reflexivity|].
  cbn [fold_left List.map]. rewrite (is_score_Fin x Hx) at 1. cbn [F.add].
  apply IH.
Qed.

Lemma fold_left_Qplus (l : list Q) (a : Q) : fold_left Qplus l a == a + Qsum l.
Proof.
  revert a. induction l as [|q l IH]; intros a; simpl.
  - unfold Qsum; simpl. lra.
  - rewrite IH. unfold Qsum; simpl. lra.
Qed.

Lemma inject_nat_pos (n : nat) : (0 < n)%nat -> 0 < inject_Z (Z.of_nat n).
Proof.
  intros H. change 0 with (inject_Z 0). rewrite <- Zlt_Qlt. lia.
Qed.

Lemma is_zero_inject_nat (n : nat) :
  (0 < n)%nat -> F.is_zero (inject_Z (Z.of_nat n)) = false.
Proof.
  intros H. unfold F.is_zero. apply not_true_is_false. intros E.
  apply Qeq_bool_iff in E. pose proof (inject_nat_pos n H). lra.
Qed.

Lemma np_mean_value (l : list pyfloat) :
  l <> [] -> Forall F.is_score l ->
  exists q, np_mean l = Fin q /\ q == Qmean (List.map F.value l).
Proof.
  intros Hne H. unfold np_mean, F.zero. rewrite (fold_add_scores l 0 H).
  assert (Hlen : (0 < List.length l)%nat) by (destruct l; simpl; [congruence | lia]).
  unfold F.of_nat, F.of_Z. cbn [F.div]. rewrite (is_zero_inject_nat _ Hlen).
  eexists. split; [reflexivity|].
  unfold Qmean. rewrite List.length_map, fold_left_Qplus.
  now rewrite Qplus_0_l.
Qed.

Lemma Qsum_bounds (l : list Q) :
  Forall (fun q => 0 <= q <= 1) l ->
  0 <= Qsum l <= inject_Z (Z.of_nat (List.length l)).
Proof.
  induction 1 as [|q l Hq _ IH]; unfold Qsum in *; cbn [fold_right List.length].
  - split; apply Qle_refl.
  - rewrite Nat2Z.inj_succ, <- Z.add_1_r, inject_Z_plus.
    change (inject_Z 1) with 1. lra.
Qed.

Lemma Qsum_zero (l : list Q) :
  Forall (fun q => 0 <= q <= 1) l -> Qsum l == 0 -> Forall (fun q => q == 0) l.
Proof.
  induction 1 as [|q l Hq Hl IH]; intros Hs; constructor.
  - pose proof (Qsum_bounds l Hl). unfold Qsum in *. simpl in Hs. lra.
  - apply IH. pose proof (Qsum_bounds l Hl). unfold Qsum in *. simpl in Hs. lra.
Qed.

Lemma Qmean_bounds (l : list Q) :
  l <> [] -> Forall (fun q => 0 <= q <= 1) l -> 0 <= Qmean l <= 1.
Proof.
  intros Hne H. pose proof (Qsum_bounds l H) as [H0 H1].
  assert (Hlen : 0 < inject_Z (Z.of_nat (List.length l))).
  { apply inject_nat_pos. destruct l; simpl; [congruence | lia]. }
  unfold Qmean. split.
  - apply Qle_shift_div_l; [assumption | lra].
  - apply Qle_shift_div_r; [assumption | lra].
Qed.

Lemma scores_values (l : list pyfloat) :
  Forall F.is_score l -> Forall (fun q => 0 <= q <= 1) (List.map F.value l).
Proof.
  induction 1 as [|x l Hx _ IH]; constructor; [|assumption].
  now destruct x.
Qed.

Lemma np_mean_is_score (l : list pyfloat) :
  l <> [] -> Forall F.is_score l -> F.is_score (np_mean l).
Proof.
  intros Hne H. destruct (np_mean_value l Hne H) as (q & -> & Hq).
  simpl. rewrite Hq. apply Qmean_bounds; [|now apply scores_values].
  destruct l; simpl; congruence.
Qed.

Lemma mul_is_score (x y : pyfloat) :
  F.is_score x -> F.is_score y -> F.is_score (F.mul x y).
Proof.
  destruct x as [| |a], y as [| |b]; simpl; try tauto. intros Ha Hb. nra.
Qed.

(** ** Scores of a table *)

Lemma ok_values_scores hl (l : list (string * value * value)) :
  Forall F.is_score
    (ok_values (List.map (fun '(ty, a, b) => score_field hl ty a b) l)).
Proof.
  induction l as [|[[ty a] b] l IH]; [constructor|].
  cbn [List.map]. unfold ok_values in *. cbn [List.flat_map].
  pose proof (score_field_outcome hl ty a b) as H.
  destruct (score_field hl ty a b); cbn [app]; [now constructor | assumption].
Qed.

Lemma field_results_scores hl (p t : DataFrame) (keys : list string)
  (f ty : string) :
  Forall F.is_score (ok_values (field_results hl p t keys f ty)).
Proof.
  unfold field_results. destruct (is_scored p t f); [|constructor].
  pose proof (ok_values_scores hl
                (List.map (fun '(pr, tr) => (ty, DF.cell pr f, DF.cell tr f))
                          (matched_pairs p t keys))) as H.
  rewrite List.map_map in H.
  erewrite List.map_ext; [exact H|]. now intros [pr tr].
Qed.

Lemma per_field_scores_In hl (p t : DataFrame) (keys : list string)
  (field_types : dict string) (f : string) (x : pyfloat) :
  In (f, x) (per_field_scores hl p t keys field_types) ->
  exists ty,
    In (f, ty) field_types /\
    ok_values (field_results hl p t keys f ty) <> [] /\
    x = np_mean (ok_values (field_results hl p t keys f ty)).
Proof.
  unfold per_field_scores. rewrite in_flat_map.
  intros ([f' ty] & Hin & Hx). exists ty.
  destruct (ok_values (field_results hl p t keys f' ty)) eqn:E; [destruct Hx|].
  destruct Hx as [[= -> <-] | []].
  split; [assumption|]. rewrite E. split; [discriminate | reflexivity].
Qed.

Lemma per_field_scores_are_scores hl (p t : DataFrame) (keys : list string)
  (field_types : dict string) :
  Forall F.is_score (Dict.values (per_field_scores hl p t keys field_types)).
Proof.
  apply List.Forall_forall. intros x Hx. unfold Dict.values in Hx.
  apply in_map_iff in Hx. destruct Hx as ([f x'] & <- & Hin).
  destruct (per_field_scores_In _ _ _ _ _ _ _ Hin) as (ty & _ & Hne & ->).
  apply np_mean_is_score; [assumption | apply field_results_scores].
Qed.

Lemma matched_pairs_length (p t : DataFrame) (keys : list string) :
  (List.length (matched_pairs p t keys) <= DF.len t)%nat.
Proof.
  unfold matched_pairs, DF.len. induction (rows t) as [|tr trs IH]; [simpl; lia|].
  cbn [List.flat_map]. rewrite List.length_app.
  destruct (first_match p t keys tr); simpl in *; lia.
Qed.

Lemma coverage_value (p t : DataFrame) (keys : list string) :
  DF.empty t = false ->
  coverage p t keys =
  Fin (inject_Z (Z.of_nat (List.length (matched_pairs p t keys))) /
       inject_Z (Z.of_nat (DF.len t))).
Proof.
  intros Ht. apply DF_nonempty_len in Ht. unfold coverage, F.of_nat, F.of_Z.
  cbn [F.div]. now rewrite is_zero_inject_nat.
Qed.

Lemma coverage_is_score (p t : DataFrame) (keys : list string) :
  DF.empty t = false -> F.is_score (coverage p t keys).
Proof.
  intros Ht. rewrite coverage_value by assumption.
  pose proof (matched_pairs_length p t keys) as Hle.
  pose proof (inject_nat_pos _ (DF_nonempty_len _ Ht)) as Hpos.
  simpl. split.
  - apply Qle_shift_div_l; [assumption|]. rewrite Qmult_0_l.
    change 0 with (inject_Z 0). rewrite <- Zle_Qle. lia.
  - apply Qle_shift_div_r; [assumption|]. rewrite Qmult_1_l.
    rewrite <- Zle_Qle. lia.
Qed.

Lemma table_score_value hl (p t : DataFrame) (keys : list string)
  (field_types : dict string) :
  DF.empty t = false ->
  per_field_scores hl p t keys field_types <> [] ->
  F.has_value (table_score hl p t keys field_types)
    (Qmean (List.map F.value (Dict.values (per_field_scores hl p t keys field_types)))
     * (inject_Z (Z.of_nat (List.length (matched_pairs p t keys))) /
        inject_Z (Z.of_nat (DF.len t)))).
Proof.
  intros Ht Hne. unfold table_score.
  destruct (per_field_scores hl p t keys field_types) as [|e l] eqn:E;
    [congruence|]. rewrite <- E.
  destruct (np_mean_value (Dict.values (per_field_scores hl p t keys field_types)))
    as (m & -> & Hm).
  - rewrite E. discriminate.
  - apply per_field_scores_are_scores.
  - rewrite coverage_value by assumption. simpl. now rewrite Hm.
Qed.

Lemma table_score_is_score hl (p t : DataFrame) (keys : list string)
  (field_types : dict string) :
  DF.empty t = false -> F.is_score (table_score hl p t keys field_types).
Proof.
  intros Ht. unfold table_score.
  destruct (per_field_scores hl p t keys field_types) as [|e l] eqn:E;
    [apply is_score_0|]. rewrite <- E.
  apply mul_is_score; [|now apply coverage_is_score].
  apply np_mean_is_score; [rewrite E; discriminate|].
  apply per_field_scores_are_scores.
Qed.

Lemma row_scores_are_scores hl (p t : DataFrame) (field_types : dict string)
  (pair : gmap string value * gmap string value) (k : string) :
  Forall F.is_score (row_scores hl p t field_types pair k).
Proof.
  induction field_types as [|[f ty] fts IH]; [constructor|].
  cbn [row_scores List.flat_map]. apply Forall_app. split; [|exact IH].
  destruct (_ && _); [|constructor].
  pose proof (score_field_outcome hl ty (DF.cell (fst pair) f)
                (DF.cell (snd pair) f)) as H.
  unfold ok_values. cbn [List.flat_map].
  destruct (score_field hl ty _ _); cbn [app]; [now constructor | constructor].
Qed.

Lemma means_of_In (d : dict (list pyfloat)) (f : string) (x : pyfloat) :
  In (f, x) (means_of d) -> exists l, In (f, l) d /\ l <> [] /\ x = np_mean l.
Proof.
  unfold means_of. rewrite in_flat_map. intros ([f' l] & Hin & Hx).
  destruct l as [|y l]; [destruct Hx|].
  destruct Hx as [[= -> <-] | []]. exists (y :: l).
  split; [assumption|]. split; [discriminate | reflexivity].
Qed.

Lemma gathered_means_are_scores hl (p t : DataFrame) (keys : list string)
  (field_types : dict string) :
  Forall F.is_score (Dict.values (means_of (gathered hl p t keys field_types))).
Proof.
  apply List.Forall_forall. intros x Hx. unfold Dict.values in Hx.
  apply in_map_iff in Hx. destruct Hx as ([f x'] & <- & Hin).
  destruct (means_of_In _ _ _ Hin) as (l & Hl & Hne & ->).
  apply np_mean_is_score; [assumption|].
  unfold gathered in Hl. apply in_map_iff in Hl.
  destruct Hl as ([f' ty] & [= -> <-] & _).
  apply List.Forall_forall. intros y Hy. apply in_flat_map in Hy.
  destruct Hy as (pair & _ & Hy).
  pose proof (row_scores_are_scores hl p t field_types pair f) as H.
  rewrite List.Forall_forall in H. now apply H.
Qed.

Lemma overall_of_zero (final : dict pyfloat) (c : Q) :
  Forall F.is_score (Dict.values final) -> 0 <= c ->
  F.has_value (overall_of final (Fin c)) 0 ->
  c == 0 \/ Forall (fun x => F.has_value x 0) (Dict.values final).
Proof.
  intros Hs Hc. unfold overall_of.
  destruct final as [|e l] eqn:E; [right; constructor|]. rewrite <- E in *.
  destruct (np_mean_value (Dict.values final)) as (m & -> & Hm);
    [rewrite E; discriminate | assumption |].
  cbn [F.mul F.has_value]. intros H0.
  apply Qmult_integral in H0. destruct H0 as [H0 | H0]; [right | now left].
  rewrite Hm in H0. unfold Qmean in H0.
  assert (Hlen : 0 < inject_Z (Z.of_nat (List.length (List.map F.value (Dict.values final))))).
  { apply inject_nat_pos. rewrite E. simpl. lia. }
  assert (Hsum : Qsum (List.map F.value (Dict.values final)) == 0).
  { unfold Qdiv in H0. apply Qmult_integral in H0. destruct H0 as [H0|H0];
      [exact H0|]. pose proof (Qinv_lt_0_compat _ Hlen). lra. }
  pose proof (Qsum_zero _ (scores_values _ Hs) Hsum) as Hz.
  clear - Hs Hz. induction Hs as [|x l Hx _ IH]; [constructor|].
  inversion Hz; subst. constructor; [|now apply IH].
  destruct x; simpl in *; try contradiction. assumption.
Qed.

(** ** Table scores: the claims *)

(** C6.  Table scoring on empty inputs: both tables empty gives (1.0, {});
    predicted empty and truth non-empty gives (0.0, {}); truth empty and
    predicted non-empty gives (1.0, {}). *)
Theorem table_dqs_on_empty_tables hl (predicted_df ground_truth_df : DataFrame)
  (key_columns : list string) (field_types : dict string) :
  (DF.empty predicted_df = true -> DF.empty ground_truth_df = true ->
   calculate_table_dqs hl predicted_df ground_truth_df key_columns field_types
   = Ok (Fin 1, [])) /\
  (DF.empty predicted_df = true -> DF.empty ground_truth_df = false ->
   calculate_table_dqs hl predicted_df ground_truth_df key_columns field_types
   = Ok (Fin 0, [])) /\
  (DF.empty predicted_df = false -> DF.empty ground_truth_df = true ->
   calculate_table_dqs hl predicted_df ground_truth_df key_columns field_types
   = Ok (Fin 1, [])).
Proof.
  unfold calculate_table_dqs. repeat split; intros -> ->; reflexivity.
Qed.

Lemma table_dqs_on_empty_tables_witness :
  calculate_table_dqs true DF.new DF.new ["id"] SampleTable.asset_types = Ok (Fin 1, []) /\
  calculate_table_dqs true DF.new SampleTable.truth_asset ["id"] SampleTable.asset_types
  = Ok (Fin 0, []) /\
  calculate_table_dqs true SampleTable.pred_asset DF.new ["id"] SampleTable.asset_types
  = Ok (Fin 1, []).
Proof.
  split; [|split].
  - destruct (table_dqs_on_empty_tables true DF.new DF.new ["id"]
                SampleTable.asset_types) as (H & _ & _).
    apply H; reflexivity.
  - destruct (table_dqs_on_empty_tables true DF.new SampleTable.truth_asset ["id"]
                SampleTable.asset_types) as (_ & H & _).
    apply H; reflexivity.
  - destruct (table_dqs_on_empty_tables true SampleTable.pred_asset DF.new ["id"]
                SampleTable.asset_types) as (_ & _ & H).
    apply H; reflexivity.
Defined.

(** C3, as the code has it.  A table score is 0 only if the predicted table
    is empty while the truth table is not, or both are non-empty and either
    no truth row matched or every per-field score is 0 (which includes the
    case that no field was scored). *)
Theorem table_dqs_zero_only_if hl (predicted_df ground_truth_df : DataFrame)
  (key_columns : list string) (field_types : dict string)
  (overall : pyfloat) (final_field_scores : dict pyfloat) :
  calculate_table_dqs hl predicted_df ground_truth_df key_columns field_types
  = Ok (overall, final_field_scores) ->
  F.has_value overall 0 ->
  (DF.empty predicted_df = true /\ DF.empty ground_truth_df = false) \/
  (DF.empty predicted_df = false /\ DF.empty ground_truth_df = false /\
   (matched_pairs predicted_df ground_truth_df key_columns = [] \/
    Forall (fun x => F.has_value x 0) (Dict.values final_field_scores))).
Proof.
  intros Hr H0.
  destruct (DF.empty predicted_df) eqn:Hp, (DF.empty ground_truth_df) eqn:Ht.
  - unfold calculate_table_dqs in Hr. rewrite Hp, Ht in Hr.
    injection Hr as <- _. vm_compute in H0. discriminate H0.
  - now left.
  - unfold calculate_table_dqs in Hr. rewrite Hp, Ht in Hr.
    injection Hr as <- _. vm_compute in H0. discriminate H0.
  - right. split; [reflexivity|]. split; [reflexivity|].
    rewrite table_dqs_row_major in Hr by assumption.
    destruct (forallb _ _); [|discriminate]. injection Hr as <- <-.
    rewrite coverage_value in H0 by assumption.
    pose proof (coverage_is_score predicted_df ground_truth_df key_columns Ht) as Hc.
    rewrite coverage_value in Hc by assumption. simpl in Hc.
    apply overall_of_zero in H0;
      [|apply gathered_means_are_scores | apply Hc].
    destruct H0 as [H0 | H0]; [left | now right].
    pose proof (inject_nat_pos _ (DF_nonempty_len _ Ht)) as Hpos.
    unfold Qdiv in H0. apply Qmult_integral in H0. destruct H0 as [H0 | H0].
    + destruct (matched_pairs _ _ _) as [|pair pairs]; [reflexivity|].
      unfold Qeq in H0. simpl in H0. lia.
    + pose proof (Qinv_lt_0_compat _ Hpos). lra.
Qed.

Lemma table_dqs_zero_only_if_witness :
  Forall (fun x => F.has_value x 0)
    (Dict.values
       (per_field_scores true SampleTable.pred_names SampleTable.truth_names
          ["id"] [("name", "text")])).
Proof.
  destruct (table_dqs_zero_only_if true SampleTable.pred_names
              SampleTable.truth_names ["id"] [("name", "text")]
              (table_score true SampleTable.pred_names SampleTable.truth_names
                 ["id"] [("name", "text")])
              (per_field_scores true SampleTable.pred_names
                 SampleTable.truth_names ["id"] [("name", "text")]))
    as [[H _] | (_ & _ & [H | H])].
  - vm_compute. reflexivity.
  - vm_compute. reflexivity.
  - discriminate H.
  - vm_compute in H. discriminate H.
  - exact H.
Defined.

(** C3 as stated fails: the truth row is matched (same key) and the
    predicted table is not empty, yet the table score is 0, because the only
    scored field scores 0 on the matched row. *)
Lemma table_dqs_zero_counterexample :
  (exists overall final,
     calculate_table_dqs true SampleTable.pred_names SampleTable.truth_names ["id"]
       [("name", "text")] = Ok (overall, final) /\
     F.has_value overall 0) /\
  DF.empty SampleTable.pred_names = false /\
  DF.empty SampleTable.truth_names = false /\
  matched_pairs SampleTable.pred_names SampleTable.truth_names ["id"] <> [].
Proof.
  split; [|repeat split; vm_compute; discriminate].
  eexists _, _. split; [vm_compute; reflexivity | reflexivity].
Qed.

Lemma has_value_eq (x : pyfloat) (q q' : Q) :
  F.has_value x q -> q == q' -> F.has_value x q'.
Proof. destruct x; simpl; try tauto. intros H H'. now rewrite H. Qed.

Lemma Qmean_all_one (l : list pyfloat) :
  l <> [] -> Forall (fun x => F.has_value x 1) l ->
  Qmean (List.map F.value l) == 1.
Proof.
  intros Hne H.
  assert (Hs : Qsum (List.map F.value l) == inject_Z (Z.of_nat (List.length l))).
  { clear Hne. induction H as [|x l Hx _ IH]; [reflexivity|].
    cbn [List.map List.length]. unfold Qsum in *. cbn [fold_right].
    rewrite IH, Nat2Z.inj_succ, <- Z.add_1_r, inject_Z_plus.
    destruct x; simpl in Hx; try contradiction. simpl F.value.
    rewrite Hx. change (inject_Z 1) with 1. lra. }
  unfold Qmean. rewrite List.length_map, Hs.
  apply Qmult_inv_r. apply Qnot_eq_sym, Qlt_not_eq, inject_nat_pos.
  destruct l; simpl; [congruence | lia].
Qed.

(** C5.  On two non-empty tables the code returns the per-field scores
    (each the mean of that field's scores over the matched truth rows) and,
    as overall score, their mean times the coverage (matched truth rows over
    all truth rows), unless a score raises.  The overall score is the float
    of that rational value; with 1 of 2 truth rows matched and every
    per-field score equal to 1 it is exactly 0.5. *)
Theorem table_dqs_mean_times_coverage hl (predicted_df ground_truth_df : DataFrame)
  (key_columns : list string) (field_types : dict string) :
  DF.empty predicted_df = false -> DF.empty ground_truth_df = false ->
  List.NoDup (Dict.keys field_types) ->
  let per_field :=
    per_field_scores hl predicted_df ground_truth_df key_columns field_types in
  let overall :=
    table_score hl predicted_df ground_truth_df key_columns field_types in
  let matched :=
    List.length (matched_pairs predicted_df ground_truth_df key_columns) in
  calculate_table_dqs hl predicted_df ground_truth_df key_columns field_types =
    (if all_scores_ok hl predicted_df ground_truth_df key_columns field_types
     then Ok (overall, per_field) else Raise OverflowError) /\
  (forall field x, In (field, x) per_field ->
     exists field_type,
       In (field, field_type) field_types /\
       F.has_value x
         (Qmean (List.map F.value
                   (ok_values (field_results hl predicted_df ground_truth_df
                                 key_columns field field_type))))) /\
  (per_field <> [] ->
   F.has_value overall
     (Qmean (List.map F.value (Dict.values per_field)) *
      (inject_Z (Z.of_nat matched) /
       inject_Z (Z.of_nat (DF.len ground_truth_df))))) /\
  (per_field = [] -> overall = Fin 0) /\
  (matched = 1%nat -> DF.len ground_truth_df = 2%nat -> per_field <> [] ->
   Forall (fun x => F.has_value x 1) (Dict.values per_field) ->
   F.has_value overall 0.5).
Proof.
  intros Hp Ht Hnd per_field overall matched.
  split; [now apply table_dqs_refines|].
  split; [|split; [|split]].
  - intros f x Hin.
    destruct (per_field_scores_In _ _ _ _ _ _ _ Hin) as (ty & Hty & Hne & ->).
    exists ty. split; [assumption|].
    destruct (np_mean_value _ Hne (field_results_scores hl predicted_df
                ground_truth_df key_columns f ty)) as (q & -> & Hq).
    exact Hq.
  - intros Hne. now apply table_score_value.
  - subst overall. unfold table_score. fold per_field. now intros ->.
  - intros Hm Hlen Hne Hall.
    eapply has_value_eq; [now apply table_score_value|].
    fold per_field matched. rewrite Hm, Hlen.
    rewrite Qmean_all_one; [reflexivity | | assumption].
    intros E. apply Hne. unfold Dict.values in E.
    now destruct per_field.
Qed.

Lemma table_dqs_mean_times_coverage_witness :
  calculate_table_dqs true SampleTable.pred_assets SampleTable.truth_assets ["id"]
    SampleTable.asset_types =
  Ok (table_score true SampleTable.pred_assets SampleTable.truth_assets ["id"]
        SampleTable.asset_types,
      per_field_scores true SampleTable.pred_assets SampleTable.truth_assets ["id"]
        SampleTable.asset_types) /\
  F.has_value
    (table_score true SampleTable.pred_assets SampleTable.truth_assets ["id"]
       SampleTable.asset_types) 0.5.
Proof.
  assert (Hnd : List.NoDup (Dict.keys SampleTable.asset_types)).
  { repeat constructor; simpl; intuition discriminate. }
  destruct (table_dqs_mean_times_coverage true SampleTable.pred_assets
              SampleTable.truth_assets ["id"] SampleTable.asset_types
              eq_refl eq_refl Hnd) as (Hcode & _ & _ & _ & Hhalf).
  split; [exact Hcode|].
  apply Hhalf; try reflexivity; [discriminate|].
  repeat constructor.
Defined.

(** The end-to-end example of the specification: 1050 predicted for a true
    valuation of 1000 and the same asset type give 0.95 and 1.0, and 0.975
    overall at full coverage. *)
Example table_dqs_asset_example :
  exists overall valuation asset_type,
    calculate_table_dqs true SampleTable.pred_asset SampleTable.truth_asset ["id"]
      SampleTable.asset_types =
    Ok (overall, [("valuation", valuation); ("asset_type_id", asset_type)]) /\
    F.has_value valuation 0.95 /\ F.has_value asset_type 1 /\
    F.has_value overall 0.975.
Proof.
  eexists _, _, _. split; [vm_compute; reflexivity|]. repeat split.
Qed.

(** ** The loop over the tables *)

Lemma table_dqs_outcome hl (p t : DataFrame) (keys : list string)
  (field_types : dict string) :
  match calculate_table_dqs hl p t keys field_types with
  | Ok (overall, final) =>
      F.is_score overall /\ Forall F.is_score (Dict.values final)
  | Raise e => e = OverflowError
  end.
Proof.
  destruct (DF.empty p) eqn:Hp; [|destruct (DF.empty t) eqn:Ht].
  - unfold calculate_table_dqs. rewrite Hp. cbn [andb].
    destruct (DF.empty t); (split; [simpl; lra | constructor]).
  - unfold calculate_table_dqs. rewrite Hp, Ht. cbn [andb].
    split; [simpl; lra | constructor].
  - rewrite table_dqs_row_major by assumption.
    destruct (forallb _ _); [|reflexivity].
    pose proof (gathered_means_are_scores hl p t keys field_types) as Hs.
    split; [|exact Hs]. unfold overall_of.
    destruct (means_of _) eqn:E; [apply is_score_0|]. rewrite <- E in *.
    apply mul_is_score; [|now apply coverage_is_score].
    apply np_mean_is_score; [rewrite E; discriminate | exact Hs].
Qed.

Lemma table_result_outcome hl (predicted filtered_gt : gmap string DataFrame)
  (name : string) :
  match table_result hl predicted filtered_gt name with
  | Ok score => F.is_score score
  | Raise e => e = OverflowError
  end.
Proof.
  unfold table_result.
  destruct (DF.empty (predicted_table predicted name)).
  - destruct (DF.empty _); simpl; lra.
  - pose proof (table_dqs_outcome hl (predicted_table predicted name)
                  (truth_table filtered_gt name) (key_columns_for name)
                  (field_types_for name (truth_table filtered_gt name))) as H.
    destruct (calculate_table_dqs _ _ _ _ _) as [[score final]|e];
      cbn [mbind result_bind]; [apply H | exact H].
Qed.

Lemma score_one_table_step hl (predicted filtered_gt : gmap string DataFrame)
  (ts : dict pyfloat) (ss : dict (list pyfloat)) (name : string) :
  score_one_table hl predicted filtered_gt (ts, ss) name =
  match table_result hl predicted filtered_gt name with
  | Ok score =>
      Ok (Dict.set ts name score,
          extend ss (adds hl predicted filtered_gt name))
  | Raise _ => Raise OverflowError
  end.
Proof.
  pose proof (table_result_outcome hl predicted filtered_gt name) as Ho.
  unfold score_one_table, adds, contribution, both_empty, table_result in *.
  fold (predicted_table predicted name) (truth_table filtered_gt name) in *.
  destruct (DF.empty (predicted_table predicted name)) eqn:Hp.
  - cbn [andb]. destruct (Dict.get TABLE_TO_SECTION name) as [section|].
    + destruct (DF.empty (truth_table filtered_gt name)) eqn:Ht.
      * rewrite andb_false_r. f_equal. f_equal.
        rewrite <- (extend_nil ss) at 1. apply extend_ext. intros k.
        now destruct (_ && _).
      * rewrite andb_true_r. destruct (Str.is_empty section); cbn [negb andb].
        -- f_equal. f_equal. rewrite <- (extend_nil ss) at 1. now apply extend_ext.
        -- f_equal. f_equal. rewrite append_extend. apply extend_ext.
           intros k. now destruct (String.eqb k section).
    + destruct (DF.empty (truth_table filtered_gt name)); f_equal; f_equal;
        rewrite <- (extend_nil ss) at 1; now apply extend_ext.
  - cbn [andb].
    destruct (calculate_table_dqs _ _ _ _ _) as [[score final]|e];
      cbn [mbind result_bind] in *; [|now rewrite Ho].
    destruct (Dict.get TABLE_TO_SECTION name) as [section|].
    + destruct (Str.is_empty section); cbn [negb andb].
      * f_equal. f_equal. rewrite <- (extend_nil ss) at 1. now apply extend_ext.
      * f_equal. f_equal. rewrite append_extend. apply extend_ext.
        intros k. now destruct (String.eqb k section).
    + f_equal. f_equal. rewrite <- (extend_nil ss) at 1. now apply extend_ext.
Qed.

Lemma sections_loop hl (predicted filtered_gt : gmap string DataFrame)
  (names : list string) (ts : dict pyfloat) (ss : dict (list pyfloat)) :
  for_each (score_one_table hl predicted filtered_gt) names (ts, ss) =
  if forallb (fun name => is_ok (table_result hl predicted filtered_gt name)) names
  then Ok (table_scores_after hl predicted filtered_gt names ts,
           extend ss (fun k => List.flat_map
                                 (fun name => adds hl predicted filtered_gt name k)
                                 names))
  else Raise OverflowError.
Proof.
  revert ts ss. induction names as [|name names IH]; intros ts ss.
  - cbn [for_each forallb table_scores_after fold_left List.flat_map].
    f_equal. f_equal. rewrite <- (extend_nil ss) at 1. now apply extend_ext.
  - cbn [for_each forallb table_scores_after fold_left List.flat_map].
    rewrite score_one_table_step.
    destruct (table_result hl predicted filtered_gt name) as [score|e];
      cbn [mbind result_bind is_ok andb]; [|reflexivity].
    rewrite IH. destruct (forallb _ names); [|reflexivity].
    f_equal. f_equal. rewrite extend_extend. now apply extend_ext.
Qed.

Lemma gather_by_section (c : string -> list pyfloat) (k : string) :
  In k (Dict.keys SECTION_WEIGHTS) ->
  List.flat_map
    (fun name =>
       match Dict.get TABLE_TO_SECTION name with
       | Some section =>
           if negb (Str.is_empty section) && String.eqb k section
           then c name else []
       | None => []
       end)
    (Dict.keys TABLE_TO_SECTION) =
  List.flat_map c
    (Dict.keys (List.filter (fun '(_, s) => String.eqb s k) TABLE_TO_SECTION)).
Proof. intros [<-|[<-|[<-|[<-|[]]]]]; reflexivity. Qed.

Lemma get_map_keys {A V} (f : string -> V) (d : dict A) (k : string) :
  In k (Dict.keys d) ->
  Dict.get (List.map (fun '(s, _) => (s, f s)) d) k = Some (f k).
Proof.
  induction d as [|[s a] d IH]; [intros []|].
  cbn [Dict.keys List.map fst In Dict.get]. intros H.
  destruct (String.eqb_spec s k) as [->|Hne]; [reflexivity|].
  apply IH. destruct H; [contradiction | assumption].
Qed.

(** The report, in terms of the per-section score lists. *)
Lemma overall_dqs_unfold hl (predicted ground_truth : gmap string DataFrame) :
  let filtered_gt := filtered_ground_truth predicted ground_truth in
  let final :=
    List.map (fun '(section, _) =>
                (section, mean_or_zero (section_list hl predicted filtered_gt section)))
             SECTION_WEIGHTS in
  calculate_overall_dqs hl predicted ground_truth =
  if forallb (fun name => is_ok (table_result hl predicted filtered_gt name))
             (Dict.keys TABLE_TO_SECTION)
  then Ok {| overall_dqs := weighted_sum final;
             passes_threshold := F.ge (weighted_sum final) (Fin 0.70);
             section_scores := final;
             table_scores :=
               table_scores_after hl predicted filtered_gt
                 (Dict.keys TABLE_TO_SECTION) [] |}
  else Raise OverflowError.
Proof.
  intros filtered_gt final. unfold calculate_overall_dqs.
  fold filtered_gt. rewrite sections_loop.
  destruct (forallb _ _); [|reflexivity]. cbn [mbind result_bind].
  assert (E : List.map (fun '(section, scores) => (section, mean_or_zero scores))
                (extend (List.map (fun '(section, _) => (section, @nil pyfloat))
                                  SECTION_WEIGHTS)
                        (fun k => List.flat_map
                                    (fun name => adds hl predicted filtered_gt name k)
                                    (Dict.keys TABLE_TO_SECTION)))
              = final).
  { unfold extend, final. rewrite !List.map_map. apply List.map_ext_in.
    intros [section weight] Hin. cbn [app]. f_equal. f_equal.
    unfold adds, section_list, section_members.
    apply gather_by_section. unfold Dict.keys.
    change section with (fst (section, weight)). now apply in_map. }
  now rewrite E.
Qed.

Lemma contribution_scores hl (predicted filtered_gt : gmap string DataFrame)
  (name : string) :
  Forall F.is_score (contribution hl predicted filtered_gt name).
Proof.
  unfold contribution. destruct (both_empty _ _ _); [constructor|].
  pose proof (table_result_outcome hl predicted filtered_gt name) as H.
  unfold ok_values. cbn [List.flat_map].
  destruct (table_result hl predicted filtered_gt name); cbn [app];
    [now constructor | constructor].
Qed.

Lemma section_list_scores hl (predicted filtered_gt : gmap string DataFrame)
  (section : string) :
  Forall F.is_score (section_list hl predicted filtered_gt section).
Proof.
  unfold section_list. induction (section_members section) as [|n ns IH];
    [constructor|].
  cbn [List.flat_map]. apply Forall_app. split; [apply contribution_scores | exact IH].
Qed.

Lemma mean_or_zero_is_score (l : list pyfloat) :
  Forall F.is_score l -> F.is_score (mean_or_zero l).
Proof.
  intros H. destruct l as [|x l']; [apply is_score_0|].
  unfold mean_or_zero. apply np_mean_is_score; [discriminate | assumption].
Qed.

Lemma weighted_sum_four (a b c d : Q) :
  weighted_sum [ ("submitter_spouse", Fin a); ("statement_details", Fin b);
                 ("assets", Fin c); ("relatives", Fin d) ] =
  Fin (0 + a * 0.25 + b * 0.30 + c * 0.30 + d * 0.15).
Proof. reflexivity. Qed.

Lemma Ok_inj {A} (a b : A) : Ok a = Ok b -> a = b.
Proof. now intros [= ->]. Qed.

Lemma Raise_not_Ok {A} (e : exn) (a : A) : Raise e = Ok a -> False.
Proof. discriminate. Qed.

Lemma overall_dqs_ok hl (predicted ground_truth : gmap string DataFrame)
  (r : report) :
  calculate_overall_dqs hl predicted ground_truth = Ok r ->
  let filtered_gt := filtered_ground_truth predicted ground_truth in
  let final :=
    List.map (fun '(section, _) =>
                (section, mean_or_zero (section_list hl predicted filtered_gt section)))
             SECTION_WEIGHTS in
  (forall name, In name (Dict.keys TABLE_TO_SECTION) ->
                exists score, table_result hl predicted filtered_gt name = Ok score) /\
  overall_dqs r = weighted_sum final /\
  passes_threshold r = F.ge (weighted_sum final) (Fin 0.70) /\
  section_scores r = final.
Proof.
  intros H filtered_gt final. rewrite overall_dqs_unfold in H.
  fold filtered_gt final in H.
  destruct (forallb _ _) eqn:E; [|now apply Raise_not_Ok in H].
  apply Ok_inj in H. rewrite <- H. cbn [overall_dqs passes_threshold section_scores].
  split; [|split; [|split]]; try reflexivity.
  intros name Hin. rewrite forallb_forall in E. specialize (E _ Hin).
  destruct (table_result hl predicted filtered_gt name) as [score|e];
    [now exists score | discriminate].
Qed.

Lemma only_assets_report_ok :
  calculate_overall_dqs true SampleRun.only_assets SampleRun.only_assets
  = Ok SampleRun.only_assets_report.
Proof. vm_compute. reflexivity. Qed.

(** ** Sections and the overall score: the claims *)

(** C7.  Each section score is the arithmetic mean of the score list of the
    section (0.0 when the list is empty), and the list holds, for the tables
    of the section in order, the table's overall score: an explicit 0.0 for
    a table with empty predicted output and non-empty filtered ground truth,
    nothing for a table that is empty on both sides, and the score returned
    by table scoring for a table with predicted output. *)
Theorem section_scores_are_means hl (predicted ground_truth : gmap string DataFrame)
  (r : report) :
  calculate_overall_dqs hl predicted ground_truth = Ok r ->
  let filtered_gt := filtered_ground_truth predicted ground_truth in
  (forall section, In section (Dict.keys SECTION_WEIGHTS) ->
     let scores := section_list hl predicted filtered_gt section in
     Dict.get (section_scores r) section = Some (mean_or_zero scores) /\
     (scores <> [] ->
      F.has_value (mean_or_zero scores) (Qmean (List.map F.value scores))) /\
     scores =
       List.flat_map (contribution hl predicted filtered_gt)
                     (section_members section)) /\
  (forall name, In name (Dict.keys TABLE_TO_SECTION) ->
     let pred_df := predicted_table predicted name in
     let truth_df := truth_table filtered_gt name in
     (DF.empty pred_df = true -> DF.empty truth_df = false ->
      contribution hl predicted filtered_gt name = [Fin 0]) /\
     (DF.empty pred_df = true -> DF.empty truth_df = true ->
      contribution hl predicted filtered_gt name = []) /\
     (DF.empty pred_df = false ->
      exists score final,
        calculate_table_dqs hl pred_df truth_df (key_columns_for name)
          (field_types_for name truth_df) = Ok (score, final) /\
        contribution hl predicted filtered_gt name = [score])).
Proof.
  intros H filtered_gt.
  destruct (overall_dqs_ok hl predicted ground_truth r H) as (Hok & _ & _ & Hs).
  fold filtered_gt in Hok, Hs. split.
  - intros section Hin scores. split; [|split; [|reflexivity]].
    + rewrite Hs. now apply (get_map_keys (fun s => mean_or_zero
                                 (section_list hl predicted filtered_gt s))).
    + intros Hne. destruct scores as [|x l] eqn:E; [congruence|].
      rewrite <- E in *. unfold mean_or_zero. rewrite E at 1.
      destruct (np_mean_value scores Hne) as (q & -> & Hq); [|exact Hq].
      apply section_list_scores.
  - intros name Hin pred_df truth_df. unfold contribution, both_empty, table_result.
    fold pred_df truth_df. split; [|split].
    + now intros -> ->.
    + now intros -> ->.
    + intros Hp. destruct (Hok name Hin) as [score Hscore].
      unfold table_result in Hscore. fold pred_df truth_df in Hscore.
      rewrite Hp in *. cbn [andb].
      destruct (calculate_table_dqs _ _ _ _ _) as [[s final]|e];
        cbn [mbind result_bind] in *; [|discriminate].
      now exists s, final.
Qed.

Lemma section_scores_are_means_witness :
  Dict.get (section_scores SampleRun.only_assets_report) "assets" =
  Some (mean_or_zero
          (section_list true SampleRun.only_assets
             (filtered_ground_truth SampleRun.only_assets SampleRun.only_assets)
             "assets")) /\
  contribution true SampleRun.only_assets
    (filtered_ground_truth SampleRun.only_assets SampleRun.only_assets)
    "relative_info" = [].
Proof.
  destruct (section_scores_are_means true SampleRun.only_assets
              SampleRun.only_assets _ only_assets_report_ok) as [Hs Ht].
  assert (Hin : In "assets" (Dict.keys SECTION_WEIGHTS)) by (simpl; tauto).
  assert (Hin' : In "relative_info" (Dict.keys TABLE_TO_SECTION))
    by (simpl; auto 20).
  split.
  - exact (proj1 (Hs "assets" Hin)).
  - destruct (Ht "relative_info" Hin') as (_ & Hboth & _).
    apply Hboth; vm_compute; reflexivity.
Defined.

(** C10.  A section whose tables are all empty on both sides has an empty
    score list and the section score 0.0, and the overall DQS is the
    weighted sum of the other sections only: the section adds 0 and its
    weight is not given to the others. *)
Theorem empty_section_scores_zero hl (predicted ground_truth : gmap string DataFrame)
  (r : report) (section : string) :
  calculate_overall_dqs hl predicted ground_truth = Ok r ->
  In section (Dict.keys SECTION_WEIGHTS) ->
  let filtered_gt := filtered_ground_truth predicted ground_truth in
  (forall name, In name (section_members section) ->
                both_empty predicted filtered_gt name = true) ->
  section_list hl predicted filtered_gt section = [] /\
  Dict.get (section_scores r) section = Some (Fin 0) /\
  F.has_value (overall_dqs r) (Qweighted (section_scores r) section).
Proof.
  intros H Hin filtered_gt Hempty.
  destruct (overall_dqs_ok hl predicted ground_truth r H) as (_ & Ho & _ & Hs).
  fold filtered_gt in Ho, Hs.
  assert (Hnil : section_list hl predicted filtered_gt section = []).
  { unfold section_list.
    induction (section_members section) as [|n ns IH]; [reflexivity|].
    cbn [List.flat_map]. unfold contribution at 1.
    rewrite Hempty by now left. cbn [app]. apply IH.
    intros name Hn. apply Hempty. now right. }
  split; [exact Hnil|].
  assert (Hget : Dict.get (section_scores r) section = Some (Fin 0)).
  { rewrite Hs.
    rewrite (get_map_keys (fun s => mean_or_zero
                             (section_list hl predicted filtered_gt s))) by assumption.
    now rewrite Hnil. }
  split; [exact Hget|].
  rewrite Ho. unfold Qweighted. rewrite Hs. clear Ho Hs Hget H.
  cbn [List.map SECTION_WEIGHTS fst snd].
  assert (Hz : F.value (mean_or_zero (section_list hl predicted filtered_gt section)) = 0)
    by now rewrite Hnil.
  pose proof (fun s => mean_or_zero_is_score _
                (section_list_scores hl predicted filtered_gt s)) as Hsc.
  pose proof (Hsc "submitter_spouse") as H1.
  pose proof (Hsc "statement_details") as H2.
  pose proof (Hsc "assets") as H3.
  pose proof (Hsc "relatives") as H4.
  clear Hsc Hnil Hempty. cbn in Hin.
  destruct Hin as [<-|[<-|[<-|[<-|[]]]]]; revert Hz;
    destruct (mean_or_zero (section_list hl predicted filtered_gt "submitter_spouse"))
      as [| |a]; try contradiction;
    destruct (mean_or_zero (section_list hl predicted filtered_gt "statement_details"))
      as [| |b]; try contradiction;
    destruct (mean_or_zero (section_list hl predicted filtered_gt "assets"))
      as [| |c]; try contradiction;
    destruct (mean_or_zero (section_list hl predicted filtered_gt "relatives"))
      as [| |d]; try contradiction;
    intros Hz; simpl in Hz; subst;
    rewrite weighted_sum_four; unfold Qsum; cbn; lra.
Qed.

Lemma empty_section_scores_zero_witness :
  Dict.get (section_scores SampleRun.only_assets_report) "relatives"
  = Some (Fin 0) /\
  F.has_value (overall_dqs SampleRun.only_assets_report) 0.30.
Proof.
  destruct (empty_section_scores_zero true SampleRun.only_assets
              SampleRun.only_assets _ "relatives" only_assets_report_ok)
    as (_ & Hget & Hsum).
  - simpl. tauto.
  - intros name [<-|[]]. reflexivity.
  - split; [exact Hget|].
    eapply has_value_eq; [exact Hsum | vm_compute; reflexivity].
Defined.



(** ** When the scores are returned *)

Lemma cell_safe (df : DataFrame) (row : gmap string value) (col : string) :
  safe_table df -> In row (rows df) -> ~ too_large_for_float (DF.cell row col).
Proof.
  intros Hs Hin. unfold DF.cell.
  destruct (row !! col) as [v|] eqn:E; simpl.
  - now apply (Hs row col v).
  - intros (z & Hz & _). discriminate Hz.
Qed.

Lemma score_field_safe hl (field_type : string) (p t : value) :
  ~ too_large_for_float p -> ~ too_large_for_float t ->
  is_ok (score_field hl field_type p t) = true.
Proof.
  intros Hp Ht. unfold score_field.
  pose proof (numeric_score_outcome p t) as Hn.
  repeat match goal with
         | |- context [if ?b then _ else _] => destruct b
         end; try reflexivity.
  destruct (calculate_numeric_score p t); [reflexivity|]. tauto.
Qed.

Lemma matched_pairs_In (p t : DataFrame) (keys : list string)
  (pr tr : gmap string value) :
  In (pr, tr) (matched_pairs p t keys) -> In pr (rows p) /\ In tr (rows t).
Proof.
  unfold matched_pairs. rewrite in_flat_map. intros (tr' & Htr & H).
  unfold first_match in H.
  destruct (List.find _ (rows p)) as [pr'|] eqn:E; [|destruct H].
  destruct H as [[= <- <-] | []]. apply List.find_some in E. tauto.
Qed.

Lemma safe_rows_ok hl (p t : DataFrame) (keys : list string)
  (field_types : dict string) :
  safe_table p -> safe_table t ->
  forallb (row_ok hl p t field_types) (matched_pairs p t keys) = true.
Proof.
  intros Hp Ht. apply forallb_forall. intros [pr tr] Hin.
  apply matched_pairs_In in Hin. destruct Hin as [Hpr Htr].
  unfold row_ok. apply forallb_forall. intros [f ty] _.
  destruct (is_scored p t f); [|reflexivity].
  apply score_field_safe; cbn [fst snd];
    [now apply (cell_safe p) | now apply (cell_safe t)].
Qed.

(** Table scoring returns a score whenever no cell holds an integer that
    is beyond the range of a float. *)
Lemma calculate_table_dqs_returns hl (p t : DataFrame) (keys : list string)
  (field_types : dict string) :
  safe_table p -> safe_table t ->
  exists overall final,
    calculate_table_dqs hl p t keys field_types = Ok (overall, final).
Proof.
  intros Hp Ht.
  destruct (DF.empty p) eqn:Ep; [|destruct (DF.empty t) eqn:Et].
  - unfold calculate_table_dqs. rewrite Ep. cbn [andb].
    destruct (DF.empty t); eauto.
  - unfold calculate_table_dqs. rewrite Ep, Et. cbn [andb]. eauto.
  - rewrite table_dqs_row_major by assumption.
    rewrite safe_rows_ok by assumption. eauto.
Qed.

Lemma filter_ground_truth_safe (ids ids' : list value) (df : DataFrame) :
  safe_table df -> safe_table (filter_ground_truth ids ids' df).
Proof.
  intros Hs. unfold filter_ground_truth.
  repeat match goal with
         | |- context [if ?b then _ else _] => destruct b
         end; try assumption;
    intros row col v Hin; simpl in Hin; apply List.filter_In in Hin;
    apply Hs; tauto.
Qed.

(** The overall score is returned whenever no cell of the predicted and
    ground-truth tables holds an integer beyond the range of a float. *)
Lemma calculate_overall_dqs_returns hl
  (predicted ground_truth : gmap string DataFrame) :
  safe_tables predicted -> safe_tables ground_truth ->
  exists r, calculate_overall_dqs hl predicted ground_truth = Ok r.
Proof.
  intros Hp Hg. rewrite overall_dqs_unfold.
  set (filtered_gt := filtered_ground_truth predicted ground_truth).
  assert (Hok : forallb (fun name => is_ok (table_result hl predicted filtered_gt name))
                        (Dict.keys TABLE_TO_SECTION) = true).
  { apply forallb_forall. intros name _. unfold table_result.
    destruct (DF.empty (predicted_table predicted name)); [reflexivity|].
    destruct (calculate_table_dqs_returns hl (predicted_table predicted name)
                (truth_table filtered_gt name) (key_columns_for name)
                (field_types_for name (truth_table filtered_gt name)))
      as (overall & final & ->); [| |reflexivity].
    - unfold predicted_table. destruct (predicted !! name) as [df|] eqn:E; simpl.
      + now apply (Hp name).
      + intros row col v [].
    - unfold truth_table, filtered_gt, filtered_ground_truth.
      rewrite lookup_fmap. destruct (ground_truth !! name) as [df|] eqn:E; simpl.
      + apply filter_ground_truth_safe. now apply (Hg name).
      + intros row col v []. }
  rewrite Hok. eauto.
Qed.

(** * Further properties *)

(** ** The edit distance *)

Lemma lev_nil_r (a : list ascii) : lev a [] = List.length a.
Proof. destruct a; reflexivity. Qed.

Lemma lev_cons (c d : ascii) (a b : list ascii) :
  lev (c :: a) (d :: b) =
  Nat.min (Nat.min (S (lev a (d :: b))) (S (lev (c :: a) b)))
          (lev a b + if Ascii.eqb c d then 0 else 1)%nat.
Proof. reflexivity. Qed.

Lemma next_row_row_of (c : ascii) (t : string) (rs rt : list ascii) :
  Levenshtein.next_row c t (row_of rs rt t) (lev rs rt) (lev (c :: rs) rt) =
  row_of (c :: rs) rt t.
Proof.
  revert rt. induction t as [|d t IH]; intros rt; [reflexivity|].
  cbn [row_of Levenshtein.next_row]. rewrite <- lev_cons. f_equal. apply IH.
Qed.

Lemma rows_row_of (s t : string) (rs : list ascii) :
  Levenshtein.rows s t (lev rs [] :: row_of rs [] t) =
  let rs' := (List.rev (list_ascii_of_string s) ++ rs)%list in
  lev rs' [] :: row_of rs' [] t.
Proof.
  revert rs. induction s as [|c s IH]; intros rs; [reflexivity|].
  cbn [Levenshtein.rows List.hd List.tl list_ascii_of_string List.rev].
  replace (S (lev rs [])) with (lev (c :: rs) []) by now rewrite !lev_nil_r.
  rewrite next_row_row_of, IH. cbn zeta. now rewrite <- List.app_assoc.
Qed.

Lemma row_of_nil (rt : list ascii) (t : string) :
  row_of [] rt t = List.seq (S (List.length rt)) (String.length t).
Proof.
  revert rt. induction t as [|d t IH]; intros rt; [reflexivity|].
  cbn [row_of String.length List.seq]. f_equal. apply IH.
Qed.

Lemma last_row_of (rs rt : list ascii) (t : string) :
  List.last (lev rs rt :: row_of rs rt t) 0%nat =
  lev rs (List.rev (list_ascii_of_string t) ++ rt)%list.
Proof.
  revert rt. induction t as [|d t IH]; intros rt; [reflexivity|].
  cbn [row_of list_ascii_of_string List.rev]. rewrite <- List.app_assoc.
  cbn [app]. rewrite <- IH. reflexivity.
Qed.

(** The table filled row by row holds the distance of the recurrence. *)
Lemma distance_lev (s t : string) :
  Levenshtein.distance s t =
  lev (List.rev (list_ascii_of_string s)) (List.rev (list_ascii_of_string t)).
Proof.
  unfold Levenshtein.distance.
  replace (List.seq 0 (S (String.length t)))
    with (lev [] [] :: row_of [] [] t) by now rewrite row_of_nil.
  rewrite rows_row_of. cbn zeta.
  rewrite last_row_of, !List.app_nil_r. reflexivity.
Qed.

Lemma lev_refl (a : list ascii) : lev a a = 0%nat.
Proof.
  induction a as [|c a IH]; [reflexivity|].
  rewrite lev_cons, IH, Ascii.eqb_refl. lia.
Qed.

Lemma lev_zero (a b : list ascii) : lev a b = 0%nat -> a = b.
Proof.
  revert b. induction a as [|c a IH]; intros [|d b].
  - reflexivity.
  - discriminate.
  - discriminate.
  - rewrite lev_cons. destruct (Ascii.eqb_spec c d) as [->|Hne]; intros H.
    + f_equal. apply IH. lia.
    + lia.
Qed.

Lemma list_ascii_of_string_inj (s t : string) :
  list_ascii_of_string s = list_ascii_of_string t -> s = t.
Proof.
  intros H. rewrite <- (string_of_list_ascii_of_string s),
    <- (string_of_list_ascii_of_string t). now rewrite H.
Qed.

Lemma distance_zero_iff (s t : string) :
  Levenshtein.distance s t = 0%nat <-> s = t.
Proof.
  rewrite distance_lev. split.
  - intros H. apply lev_zero in H.
    apply list_ascii_of_string_inj.
    rewrite <- (List.rev_involutive (list_ascii_of_string s)), H.
    apply List.rev_involutive.
  - intros ->. apply lev_refl.
Qed.

(** ** The text score *)

Lemma cer_score_value (d n : nat) :
  (0 < n)%nat ->
  F.max0 (F.sub F.one (F.div (F.of_nat d) (F.of_nat n))) =
  if Qle_bool (1 + - (inject_Z (Z.of_nat d) / inject_Z (Z.of_nat n))) 0
  then Fin 0
  else Fin (1 + - (inject_Z (Z.of_nat d) / inject_Z (Z.of_nat n))).
Proof.
  intros Hn. unfold F.of_nat, F.of_Z. cbn [F.div].
  rewrite (is_zero_inject_nat n Hn). unfold F.max0, F.gt, F.sub, F.one, F.zero.
  cbn [F.neg F.add]. now destruct (Qle_bool _ 0).
Qed.

Lemma cer_score_one (d n : nat) :
  (0 < n)%nat ->
  F.has_value (F.max0 (F.sub F.one (F.div (F.of_nat d) (F.of_nat n)))) 1 <->
  d = 0%nat.
Proof.
  intros Hn. rewrite (cer_score_value d n Hn).
  pose proof (inject_nat_pos n Hn) as Hpos.
  assert (Hd : d = 0%nat \/ (0 < d)%nat) by lia.
  destruct Hd as [-> | Hd].
  - destruct (Qle_bool _ 0) eqn:E.
    + apply Qle_bool_iff in E. change (inject_Z (Z.of_nat 0)) with 0 in E.
      unfold Qdiv in E. rewrite Qmult_0_l in E. lra.
    + cbn [F.has_value]. change (inject_Z (Z.of_nat 0)) with 0.
      unfold Qdiv. rewrite Qmult_0_l. split; [reflexivity | intros _; lra].
  - pose proof (inject_nat_pos d Hd) as Hdpos.
    assert (Hq : 0 < inject_Z (Z.of_nat d) / inject_Z (Z.of_nat n)).
    { apply Qlt_shift_div_l; [assumption | lra]. }
    destruct (Qle_bool _ 0); cbn [F.has_value]; split; intros H; try lia; lra.
Qed.

Lemma cer_score_zero (n : nat) :
  (0 < n)%nat ->
  F.has_value (F.max0 (F.sub F.one (F.div (F.of_nat n) (F.of_nat n)))) 0.
Proof.
  intros Hn. rewrite (cer_score_value n n Hn).
  pose proof (inject_nat_pos n Hn) as Hpos.
  assert (E : inject_Z (Z.of_nat n) / inject_Z (Z.of_nat n) == 1)
    by (field; lra).
  destruct (Qle_bool _ 0); cbn [F.has_value]; [reflexivity | lra].
Qed.

Lemma is_empty_length (s : string) :
  Str.is_empty s = false -> (0 < String.length s)%nat.
Proof. destruct s; [discriminate | simpl; lia]. Qed.

Lemma is_empty_eq (s : string) : Str.is_empty s = true -> s = "".
Proof. now destruct s. Qed.

(** X1.  The text score is 1.0 exactly when the two texts are equal once they
    are trimmed and the sentinel is read as the empty text, with the
    Levenshtein package as without it. *)
Theorem text_score_perfect_iff hl (predicted ground_truth : value) :
  Py.isna predicted = false -> Py.isna ground_truth = false ->
  (F.has_value (calculate_text_score hl predicted ground_truth) 1 <->
   text_key predicted = text_key ground_truth).
Proof.
  intros Hp Ht. unfold calculate_text_score. rewrite Hp, Ht. cbn [andb orb].
  fold (text_key predicted) (text_key ground_truth).
  cbv zeta.
  destruct (Str.is_empty (text_key ground_truth)) eqn:Et.
  - apply is_empty_eq in Et as Et'. rewrite Et'.
    destruct (Str.is_empty (text_key predicted)) eqn:Ep; cbn [andb negb].
    + apply is_empty_eq in Ep. rewrite Ep. cbn [F.has_value].
      split; reflexivity.
    + cbn [F.has_value]. split; [intros H; lra|].
      intros H. rewrite H in Ep. discriminate.
  - cbn [andb]. pose proof (is_empty_length _ Et) as Hlen.
    rewrite Nat.max_l by lia. rewrite (cer_score_one _ _ Hlen).
    destruct hl.
    + apply distance_zero_iff.
    + destruct (String.eqb_spec (text_key predicted) (text_key ground_truth));
        split; intros H; try reflexivity; try assumption;
        [exfalso; lia | contradiction].
Qed.

Lemma text_score_perfect_iff_witness :
  F.has_value (calculate_text_score true (VStr " Bangkok ") (VStr "Bangkok")) 1.
Proof.
  apply (text_score_perfect_iff true (VStr " Bangkok ") (VStr "Bangkok"));
    reflexivity.
Defined.

(** X2.  Without the Levenshtein package the text score is all or nothing: it
    is 0.0 or 1.0, never a partial credit. *)
Theorem text_score_fallback_binary (predicted ground_truth : value) :
  F.has_value (calculate_text_score false predicted ground_truth) 0 \/
  F.has_value (calculate_text_score false predicted ground_truth) 1.
Proof.
  unfold calculate_text_score.
  destruct (_ && _); [right; reflexivity|].
  destruct (_ || _); [left; reflexivity|].
  fold (text_key predicted) (text_key ground_truth). cbv zeta.
  destruct (Str.is_empty (text_key ground_truth)) eqn:Et; cbn [andb].
  - destruct (Str.is_empty (text_key predicted)); cbn [negb];
      [right | left]; reflexivity.
  - pose proof (is_empty_length _ Et) as Hlen. rewrite Nat.max_l by lia.
    destruct (String.eqb _ _).
    + right. now apply cer_score_one.
    + left. now apply cer_score_zero.
Qed.

Lemma length_list_ascii (s : string) :
  List.length (list_ascii_of_string s) = String.length s.
Proof. induction s as [|c s IH]; [reflexivity|]. cbn. now rewrite IH. Qed.

Lemma distance_empty_l (t : string) :
  Levenshtein.distance "" t = String.length t.
Proof.
  rewrite distance_lev. cbn [list_ascii_of_string List.rev lev].
  now rewrite List.length_rev, length_list_ascii.
Qed.

(** X3.  A missing text against a present one scores 0.0, either way round:
    when neither value is null and exactly one of the two texts is empty
    once trimmed (or is the sentinel), the text score is 0.0, with the
    Levenshtein package as without it. *)
Theorem text_score_missing_side hl (predicted ground_truth : value) :
  Py.isna predicted = false -> Py.isna ground_truth = false ->
  Str.is_empty (text_key predicted) <> Str.is_empty (text_key ground_truth) ->
  F.has_value (calculate_text_score hl predicted ground_truth) 0.
Proof.
  intros Hp Ht Hne. unfold calculate_text_score. rewrite Hp, Ht. cbn [andb orb].
  fold (text_key predicted) (text_key ground_truth). cbv zeta.
  destruct (Str.is_empty (text_key ground_truth)) eqn:Et,
           (Str.is_empty (text_key predicted)) eqn:Ep;
    try contradiction; cbn [andb negb].
  - reflexivity.
  - apply is_empty_eq in Ep. rewrite Ep.
    pose proof (is_empty_length _ Et) as Hlen. rewrite Nat.max_l by lia.
    destruct hl.
    + rewrite distance_empty_l. now apply cer_score_zero.
    + destruct (String.eqb_spec "" (text_key ground_truth)) as [E | _].
      * rewrite <- E in Et. discriminate.
      * now apply cer_score_zero.
Qed.

Lemma text_score_missing_side_witness :
  F.has_value (calculate_text_score true (VStr " none ") (VStr "Bangkok")) 0.
Proof.
  apply (text_score_missing_side true (VStr " none ") (VStr "Bangkok"));
    [reflexivity | reflexivity | vm_compute; discriminate].
Defined.

(** ** The enum score *)

(** X4.  The enum score is all or nothing, and two values that are not null
    score 1.0 exactly when their texts are equal once trimmed and put in
    lower case: letter case and surrounding blanks do not count, anything
    else does. *)
Theorem enum_score_exact_match (predicted ground_truth : value) :
  (calculate_enum_score predicted ground_truth = Fin 1 \/
   calculate_enum_score predicted ground_truth = Fin 0) /\
  (Py.isna predicted = false -> Py.isna ground_truth = false ->
   (calculate_enum_score predicted ground_truth = Fin 1 <->
    normal_text predicted = normal_text ground_truth)).
Proof.
  unfold calculate_enum_score.
  fold (normal_text predicted) (normal_text ground_truth). split.
  - repeat match goal with |- context [if ?b then _ else _] => destruct b end;
      auto.
  - intros -> ->. cbn [andb orb].
    destruct (String.eqb_spec (normal_text predicted) (normal_text ground_truth))
      as [E | Hne].
    + rewrite E. destruct (_ && _); tauto.
    + destruct (String.eqb_spec (normal_text predicted) "none") as [E1|];
        destruct (String.eqb_spec (normal_text ground_truth) "none") as [E2|];
        cbn [andb]; try (split; [discriminate | contradiction]).
      congruence.
Qed.

Lemma enum_score_exact_match_witness :
  calculate_enum_score (VStr " Married ") (VStr "married") = Fin 1.
Proof.
  destruct (enum_score_exact_match (VStr " Married ") (VStr "married"))
    as [_ H].
  apply H; reflexivity.
Defined.

(** ** The numeric score *)

Lemma is_zero_iff (q : Q) : F.is_zero q = true <-> q == 0.
Proof. unfold F.is_zero. apply Qeq_bool_iff. Qed.

Lemma is_zero_false (q : Q) : F.is_zero q = false <-> ~ q == 0.
Proof.
  rewrite <- is_zero_iff. destruct (F.is_zero q); split; congruence.
Qed.

Lemma Qabs_zero_iff (q : Q) : Qabs q == 0 <-> q == 0.
Proof.
  split; intros H; [|now rewrite H].
  pose proof (Qle_Qabs q) as H1. pose proof (Qle_Qabs (- q)) as H2.
  rewrite Qabs_opp in H2. lra.
Qed.

(** The score of two finite numbers, the true one not zero, as a rational. *)
Lemma numeric_score_finite_value (a b : Q) :
  ~ b == 0 ->
  F.max0 (F.sub F.one (F.div (F.abs (F.sub (Fin a) (Fin b))) (F.abs (Fin b)))) =
  if Qle_bool (1 + - (Qabs (a + - b) / Qabs b)) 0 then Fin 0
  else Fin (1 + - (Qabs (a + - b) / Qabs b)).
Proof.
  intros Hb. cbn [F.sub F.neg F.add F.abs F.div].
  assert (E : F.is_zero (Qabs b) = false).
  { apply is_zero_false. now rewrite Qabs_zero_iff. }
  rewrite E. unfold F.max0, F.gt, F.one, F.zero. cbn [F.sub F.neg F.add].
  now destruct (Qle_bool _ 0).
Qed.

Lemma numeric_score_float (p t : value) (x y : pyfloat) :
  Py.isna p = false -> Py.isna t = false ->
  Py.float p = Ok x -> Py.float t = Ok y ->
  calculate_numeric_score p t =
  if F.eq_zero y then Ok (if F.eq_zero x then Fin 1 else Fin 0)
  else Ok (F.max0 (F.sub F.one (F.div (F.abs (F.sub x y)) (F.abs y)))).
Proof.
  intros Hp Ht Ex Ey. unfold calculate_numeric_score.
  rewrite Hp, Ht, Ex, Ey. reflexivity.
Qed.



(** X6.  A value scored against itself as a number gets 1.0 exactly when it is
    null or converts to a finite float: a text that is no number, an
    infinity and a NaN read from text all score 0.0 against themselves. *)
Theorem numeric_score_identical (v : value) :
  returns_value (calculate_numeric_score v v) 1 <->
  Py.isna v = true \/ exists q, Py.float v = Ok (Fin q).
Proof.
  destruct (Py.isna v) eqn:Hv.
  - unfold calculate_numeric_score. rewrite Hv. cbn [andb returns_value F.has_value].
    split; [now left | reflexivity].
  - destruct (Py.float v) as [[| n | q] | e] eqn:Ev.
    + rewrite (numeric_score_float _ _ _ _ Hv Hv Ev Ev).
      cbn. split; [intros H; lra|]. intros [H | [q H]]; discriminate.
    + rewrite (numeric_score_float _ _ _ _ Hv Hv Ev Ev).
      cbn. destruct n; cbn; (split; [intros H; lra|]);
        intros [H | [q H]]; discriminate.
    + rewrite (numeric_score_float _ _ _ _ Hv Hv Ev Ev). cbn [F.eq_zero].
      split; [intros _; right; now exists q | intros _].
      destruct (F.is_zero q) eqn:Hq; [reflexivity|].
      apply is_zero_false in Hq. rewrite (numeric_score_finite_value q q Hq).
      assert (E : Qabs (q + - q) / Qabs q == 0).
      { assert (E0 : q + - q == 0) by lra. rewrite E0. apply Qmult_0_l. }
      destruct (Qle_bool _ 0) eqn:El; cbn [returns_value F.has_value].
      * apply Qle_bool_iff in El. lra.
      * lra.
    + unfold calculate_numeric_score. rewrite Hv, Ev. cbn [andb orb mbind result_bind].
      destruct (caught e); cbn [returns_value F.has_value].
      * split; [intros H; lra|]. intros [H | [q H]]; discriminate.
      * split; [tauto|]. intros [H | [q H]]; discriminate.
Qed.

(** ** The composite-date score *)

Lemma int_or_none_some (v : value) (z : Z) :
  int_or_none v = Ok (Some z) -> null_or_none v = false.
Proof.
  unfold int_or_none, null_or_none.
  destruct (Py.truthy v && negb (says_none v)) eqn:E; [|discriminate].
  apply andb_prop in E. destruct E as [Ht Hs].
  apply negb_true_iff in Hs. rewrite Hs, orb_false_r.
  destruct v as [| b | n | [| neg | q] shown | s]; try reflexivity; discriminate.
Qed.

Lemma try_int_pair_some (p t : value) (a b : Z) :
  int_or_none p = Ok (Some a) -> int_or_none t = Ok (Some b) ->
  try_int_pair p t = Ok (Some a, Some b).
Proof. intros Hp Ht. unfold try_int_pair. now rewrite Hp, Ht. Qed.

(** X7.  The tiers of the date score.  When the six components are read as
    integers, the score is 0.0 for different years, 0.3 for the same year
    and different months, and for the same year and month 1.0 for the same
    day, 0.8 for days at most 3 apart and 0.5 for days further apart. *)
Theorem date_score_tiers (pd pm py td tm ty : value) (d1 m1 y1 d2 m2 y2 : Z) :
  int_or_none pd = Ok (Some d1) -> int_or_none pm = Ok (Some m1) ->
  int_or_none py = Ok (Some y1) -> int_or_none td = Ok (Some d2) ->
  int_or_none tm = Ok (Some m2) -> int_or_none ty = Ok (Some y2) ->
  calculate_date_score pd pm py td tm ty =
  Ok (if negb (y1 =? y2)%Z then Fin 0
      else if negb (m1 =? m2)%Z then Fin 0.3
      else if (d1 =? d2)%Z then Fin 1
      else if (Z.abs (d1 - d2) <=? 3)%Z then Fin 0.8
      else Fin 0.5).
Proof.
  intros Hpd Hpm Hpy Htd Htm Hty. unfold calculate_date_score.
  cbn [forallb]. rewrite (int_or_none_some _ _ Hpd), (int_or_none_some _ _ Htd).
  cbn [andb orb].
  rewrite (try_int_pair_some _ _ _ _ Hpy Hty),
    (try_int_pair_some _ _ _ _ Hpm Htm), (try_int_pair_some _ _ _ _ Hpd Htd).
  cbn [mbind result_bind opt_neq is_None orb].
  destruct (y1 =? y2)%Z; [|reflexivity]. cbn [negb].
  destruct (m1 =? m2)%Z; [|reflexivity]. cbn [negb].
  destruct (d1 =? d2)%Z; [reflexivity|]. cbn [negb].
  now destruct (Z.abs (d1 - d2) <=? 3)%Z.
Qed.

Lemma date_score_tiers_witness :
  calculate_date_score (VStr "07") (VInt 3) (VStr "2567")
                       (VInt 5) (VStr "3") (VFloat (Fin 2567) "2567.0")
  = Ok (Fin 0.8).
Proof.
  apply (date_score_tiers (VStr "07") (VInt 3) (VStr "2567")
           (VInt 5) (VStr "3") (VFloat (Fin 2567) "2567.0") 7 3 2567 5 3 2567);
    reflexivity.
Defined.

(** ** Table scores *)

Lemma safe_tableb_sound (df : DataFrame) :
  safe_tableb df = true -> safe_table df.
Proof.
  unfold safe_tableb. rewrite forallb_forall. intros H row col v Hin Hl.
  specialize (H row Hin). rewrite forallb_forall in H.
  apply elem_of_map_to_list, list_elem_of_In in Hl.
  specialize (H _ Hl). cbn [snd] in H. apply negb_true_iff in H.
  intros (z & -> & Hz). cbn in H. apply Z.leb_gt in H. lia.
Qed.

(** X8.  On tables none of whose cells is an integer beyond the range of a
    float, table scoring returns, and the overall score and every
    per-field score it returns lie in [0,1]. *)
Theorem table_dqs_returns_scores hl (predicted_df ground_truth_df : DataFrame)
  (key_columns : list string) (field_types : dict string) :
  safe_table predicted_df -> safe_table ground_truth_df ->
  exists overall final_field_scores,
    calculate_table_dqs hl predicted_df ground_truth_df key_columns field_types
    = Ok (overall, final_field_scores) /\
    F.is_score overall /\
    Forall F.is_score (Dict.values final_field_scores).
Proof.
  intros Hp Ht.
  destruct (calculate_table_dqs_returns hl predicted_df ground_truth_df
              key_columns field_types Hp Ht) as (overall & final & E).
  exists overall, final. split; [exact E|].
  pose proof (table_dqs_outcome hl predicted_df ground_truth_df key_columns
                field_types) as H.
  now rewrite E in H.
Qed.

Lemma table_dqs_returns_scores_witness :
  exists overall final_field_scores,
    calculate_table_dqs true SampleTable.pred_asset SampleTable.truth_assets
      ["id"] SampleTable.asset_types = Ok (overall, final_field_scores) /\
    F.is_score overall /\
    Forall F.is_score (Dict.values final_field_scores).
Proof.
  apply (table_dqs_returns_scores true SampleTable.pred_asset
           SampleTable.truth_assets ["id"] SampleTable.asset_types);
    apply safe_tableb_sound; vm_compute; reflexivity.
Defined.

Lemma first_match_existsb (p t : DataFrame) (keys : list string)
  (tr : gmap string value) :
  existsb (mask p t keys tr) (rows p) =
  match first_match p t keys tr with Some _ => true | None => false end.
Proof.
  unfold first_match. induction (rows p) as [|pr prs IH]; [reflexivity|].
  cbn [existsb List.find]. now destruct (mask p t keys tr pr).
Qed.

Lemma matched_truth_rows_length (p t : DataFrame) (keys : list string) :
  List.length (matched_truth_rows p t keys) =
  List.length (matched_pairs p t keys).
Proof.
  unfold matched_truth_rows, matched_pairs.
  induction (rows t) as [|tr trs IH]; [reflexivity|].
  cbn [List.filter List.flat_map]. rewrite first_match_existsb.
  destruct (first_match p t keys tr); cbn [app List.length]; now rewrite IH.
Qed.

(** X9.  The overall score of a table never exceeds its coverage, the share
    of the truth rows for which a predicted row was found, as the code
    computes it. *)
Theorem table_dqs_capped_by_coverage hl (predicted_df ground_truth_df : DataFrame)
  (key_columns : list string) (field_types : dict string)
  (overall : pyfloat) (final_field_scores : dict pyfloat) :
  DF.empty predicted_df = false -> DF.empty ground_truth_df = false ->
  calculate_table_dqs hl predicted_df ground_truth_df key_columns field_types
  = Ok (overall, final_field_scores) ->
  F.is_score (coverage predicted_df ground_truth_df key_columns) /\
  F.value overall <=
  F.value (coverage predicted_df ground_truth_df key_columns).
Proof.
  intros Hp Ht. rewrite table_dqs_row_major by assumption.
  destruct (forallb _ _); [|intros H; now apply Raise_not_Ok in H].
  intros H. apply Ok_inj in H. injection H as <- _.
  pose proof (coverage_is_score predicted_df ground_truth_df key_columns Ht)
    as Hcov.
  split; [exact Hcov|].
  pose proof (gathered_means_are_scores hl predicted_df ground_truth_df
                key_columns field_types) as Hs.
  unfold overall_of.
  destruct (coverage predicted_df ground_truth_df key_columns) as [| |c];
    try contradiction.
  cbn [F.is_score] in Hcov.
  destruct (means_of _) as [|e l] eqn:E.
  - cbn [F.value]. lra.
  - rewrite <- E in *.
    assert (Hmean : F.is_score (np_mean (Dict.values
              (means_of (gathered hl predicted_df ground_truth_df
                           key_columns field_types))))).
    { apply np_mean_is_score; [rewrite E; discriminate | exact Hs]. }
    destruct (np_mean _) as [| |q]; try contradiction.
    cbn [F.mul F.value]. cbn [F.is_score] in Hmean. nra.
Qed.

Lemma table_dqs_capped_by_coverage_witness :
  F.is_score (coverage SampleTable.pred_assets SampleTable.truth_assets ["id"]) /\
  F.value (table_score true SampleTable.pred_assets SampleTable.truth_assets
             ["id"] SampleTable.asset_types) <=
  F.value (coverage SampleTable.pred_assets SampleTable.truth_assets ["id"]).
Proof.
  apply (table_dqs_capped_by_coverage true SampleTable.pred_assets
           SampleTable.truth_assets ["id"] SampleTable.asset_types
           (table_score true SampleTable.pred_assets SampleTable.truth_assets
              ["id"] SampleTable.asset_types)
           (per_field_scores true SampleTable.pred_assets
              SampleTable.truth_assets ["id"] SampleTable.asset_types));
    vm_compute; reflexivity.
Defined.

Lemma means_of_no_scores (field_types : dict string) :
  means_of (List.map (fun '(field, _) => (field, @nil pyfloat)) field_types) = [].
Proof.
  unfold means_of. induction field_types as [|[f ty] fts IH]; [reflexivity|].
  cbn [List.map List.flat_map app]. exact IH.
Qed.

Lemma table_dqs_no_match hl (p t : DataFrame) (keys : list string)
  (field_types : dict string) :
  DF.empty p = false -> DF.empty t = false ->
  matched_pairs p t keys = [] ->
  calculate_table_dqs hl p t keys field_types = Ok (Fin 0, []).
Proof.
  intros Hp Ht Hm. rewrite table_dqs_row_major by assumption.
  unfold gathered. rewrite Hm. cbn [forallb List.flat_map].
  now rewrite means_of_no_scores.
Qed.

Lemma mask_null_key (p t : DataFrame) (keys : list string)
  (tr pr : gmap string value) (key : string) :
  In key keys -> DF.has_column p key = true -> DF.has_column t key = true ->
  Py.isna (DF.cell tr key) = true ->
  mask p t keys tr pr = false.
Proof.
  intros Hin Hp Ht Hna. unfold mask. apply not_true_is_false. intros H.
  rewrite forallb_forall in H. specialize (H key Hin).
  rewrite Hp, Ht in H. cbn [andb] in H. unfold DF.cell_eq in H.
  rewrite Hna, orb_true_r in H. discriminate.
Qed.

(** X10.  A truth row with a missing value (None or NaN) under a key column that
    both tables have matches no predicted row.  When every truth row has
    one, two non-empty tables score 0.0 with no per-field score, even when
    the predicted table is the ground truth itself. *)
Theorem table_dqs_null_keys hl (predicted_df ground_truth_df : DataFrame)
  (key_columns : list string) (field_types : dict string) :
  DF.empty predicted_df = false -> DF.empty ground_truth_df = false ->
  (forall truth_row, In truth_row (rows ground_truth_df) ->
     exists key,
       In key key_columns /\
       DF.has_column predicted_df key = true /\
       DF.has_column ground_truth_df key = true /\
       Py.isna (DF.cell truth_row key) = true) ->
  calculate_table_dqs hl predicted_df ground_truth_df key_columns field_types
  = Ok (Fin 0, []).
Proof.
  intros Hp Ht Hnull. apply table_dqs_no_match; try assumption.
  unfold matched_pairs.
  induction (rows ground_truth_df) as [|tr trs IH]; [reflexivity|].
  cbn [List.flat_map].
  destruct (Hnull tr (or_introl eq_refl)) as (key & Hin & Hkp & Hkt & Hna).
  assert (E : first_match predicted_df ground_truth_df key_columns tr = None).
  { pose proof (first_match_existsb predicted_df ground_truth_df key_columns tr) as H.
    destruct (first_match _ _ _ tr); [|reflexivity].
    exfalso. apply existsb_exists in H. destruct H as (pr & _ & Hmask).
    now rewrite (mask_null_key _ _ _ _ _ key Hin Hkp Hkt Hna) in Hmask. }
  rewrite E. cbn [app]. apply IH. intros tr' Hin'. apply Hnull. now right.
Qed.

Lemma table_dqs_null_keys_witness :
  calculate_table_dqs true SampleKeys.no_key SampleKeys.no_key ["id"]
    [("name", "text")] = Ok (Fin 0, []).
Proof.
  apply (table_dqs_null_keys true SampleKeys.no_key SampleKeys.no_key ["id"]
           [("name", "text")]); [reflexivity | reflexivity |].
  intros truth_row [<- | []]. exists "id".
  split; [now left|]. repeat split.
Defined.

Lemma for_each_ext_in {A S} (f g : S -> A -> result S) (l : list A) (s : S) :
  (forall s' a, In a l -> f s' a = g s' a) -> for_each f l s = for_each g l s.
Proof.
  revert s. induction l as [|a l IH]; intros s H; [reflexivity|].
  cbn [for_each]. rewrite H by now left.
  destruct (g s a) as [s'|e]; cbn [mbind result_bind]; [|reflexivity].
  apply IH. intros s'' b Hb. apply H. now right.
Qed.

Lemma filter_head_find {A} (f : A -> bool) (l l' : list A) :
  List.find f l = List.find f l' ->
  match List.filter f l with x :: _ => Some x | [] => None end =
  match List.filter f l' with x :: _ => Some x | [] => None end.
Proof. now rewrite <- !find_filter_head. Qed.

(** Table scoring depends on the predicted table through its columns,
    whether it is empty, and the first match of each truth row only. *)
Lemma table_dqs_ext hl (p p' t : DataFrame) (keys : list string)
  (field_types : dict string) :
  columns p = columns p' -> DF.empty p = DF.empty p' ->
  (forall tr, In tr (rows t) ->
     List.find (mask p t keys tr) (rows p) = List.find (mask p t keys tr) (rows p')) ->
  calculate_table_dqs hl p t keys field_types =
  calculate_table_dqs hl p' t keys field_types.
Proof.
  intros Hc He Hf. unfold calculate_table_dqs. rewrite <- He.
  destruct (DF.empty p && DF.empty t); [reflexivity|].
  destruct (DF.empty p); [reflexivity|].
  destruct (DF.empty t); [reflexivity|].
  assert (Hm : forall tr pr, mask p' t keys tr pr = mask p t keys tr pr).
  { intros tr pr. unfold mask, DF.has_column. now rewrite Hc. }
  assert (Hs : forall pr tr s,
             score_fields hl p' t field_types pr tr s =
             score_fields hl p t field_types pr tr s).
  { intros pr tr s. unfold score_fields, DF.has_column. now rewrite Hc. }
  rewrite (for_each_ext_in
             (score_truth_row hl p t keys field_types)
             (score_truth_row hl p' t keys field_types)); [reflexivity|].
  intros [scores n] tr Hin. rewrite !score_truth_row_unfold.
  specialize (Hf tr Hin). apply filter_head_find in Hf.
  rewrite (List.filter_ext _ _ (Hm tr)).
  destruct (List.filter (mask p t keys tr) (rows p)) as [|pr ?],
           (List.filter (mask p t keys tr) (rows p')) as [|pr' ?];
    try discriminate; [reflexivity|].
  injection Hf as ->. now rewrite Hs.
Qed.

Lemma find_app_none {A} (f : A -> bool) (l extra : list A) :
  (forall x, In x extra -> f x = false) ->
  List.find f (l ++ extra) = List.find f l.
Proof.
  intros H. induction l as [|a l IH]; cbn [app List.find].
  - induction extra as [|e extra IH]; [reflexivity|].
    cbn [List.find]. rewrite H by now left. apply IH.
    intros x Hx. apply H. now right.
  - now destruct (f a).
Qed.

(** X11.  Predicted rows that match no truth row are not penalised.  When
    the last rows of the predicted table match no truth row, the overall
    score and the per-field scores are those of the table cut down to the
    rows before them (as [head] cuts it, leaving the columns and their
    types as they are), provided a row is left. *)
Theorem table_dqs_ignores_unmatched_rows hl (predicted_df ground_truth_df : DataFrame)
  (kept unmatched : list (gmap string value))
  (key_columns : list string) (field_types : dict string) :
  rows predicted_df = (kept ++ unmatched)%list -> kept <> [] ->
  (forall truth_row pred_row,
     In truth_row (rows ground_truth_df) -> In pred_row unmatched ->
     mask predicted_df ground_truth_df key_columns truth_row pred_row = false) ->
  calculate_table_dqs hl predicted_df ground_truth_df key_columns field_types =
  calculate_table_dqs hl {| columns := columns predicted_df; rows := kept |}
    ground_truth_df key_columns field_types.
Proof.
  intros Hrows Hne Hun. apply table_dqs_ext.
  - reflexivity.
  - unfold DF.empty. cbn [columns rows]. rewrite Hrows.
    destruct (columns predicted_df); [reflexivity|].
    destruct kept; [contradiction | reflexivity].
  - intros tr Hin. cbn [rows]. rewrite Hrows. apply find_app_none.
    intros pr Hpr. now apply Hun.
Qed.

Lemma table_dqs_ignores_unmatched_rows_witness :
  calculate_table_dqs true SampleKeys.pred_assets_more SampleTable.truth_assets
    ["id"] SampleTable.asset_types =
  calculate_table_dqs true SampleTable.pred_assets SampleTable.truth_assets
    ["id"] SampleTable.asset_types.
Proof.
  apply (table_dqs_ignores_unmatched_rows true SampleKeys.pred_assets_more
           SampleTable.truth_assets (rows SampleTable.pred_assets)
           [ {[ "id" := VInt 9; "valuation" := VInt 1; "asset_type_id" := VInt 1 ]} ]
           ["id"] SampleTable.asset_types).
  - reflexivity.
  - discriminate.
  - intros truth_row pred_row [<- | [<- | []]] [<- | []]; vm_compute; reflexivity.
Defined.

Lemma mask_no_shared_key (p t : DataFrame) (keys : list string)
  (tr pr : gmap string value) :
  (forall key, In key keys ->
     DF.has_column p key && DF.has_column t key = false) ->
  mask p t keys tr pr = true.
Proof.
  intros H. unfold mask. apply forallb_forall. intros key Hin.
  now rewrite (H key Hin).
Qed.

(** X12.  When no key column is a column of both tables, every truth row is
    scored against the first predicted row: the other predicted rows do not
    count. *)
Theorem table_dqs_without_shared_keys hl (predicted_df ground_truth_df : DataFrame)
  (first : gmap string value) (others : list (gmap string value))
  (key_columns : list string) (field_types : dict string) :
  rows predicted_df = first :: others ->
  (forall key, In key key_columns ->
     DF.has_column predicted_df key && DF.has_column ground_truth_df key = false) ->
  calculate_table_dqs hl predicted_df ground_truth_df key_columns field_types =
  calculate_table_dqs hl {| columns := columns predicted_df; rows := [first] |}
    ground_truth_df key_columns field_types.
Proof.
  intros Hrows Hkeys. apply table_dqs_ext.
  - reflexivity.
  - unfold DF.empty. cbn [columns rows]. rewrite Hrows.
    now destruct (columns predicted_df).
  - intros tr _. cbn [rows]. rewrite Hrows. cbn [List.find].
    now rewrite (mask_no_shared_key _ _ _ tr first Hkeys).
Qed.

Lemma table_dqs_without_shared_keys_witness :
  calculate_table_dqs true SampleKeys.pred_assets_more SampleTable.truth_assets
    ["asset_index"] SampleTable.asset_types =
  calculate_table_dqs true SampleTable.pred_assets SampleTable.truth_assets
    ["asset_index"] SampleTable.asset_types.
Proof.
  apply (table_dqs_without_shared_keys true SampleKeys.pred_assets_more
           SampleTable.truth_assets
           {[ "id" := VInt 1; "valuation" := VInt 1000; "asset_type_id" := VInt 18 ]}
           [ {[ "id" := VInt 9; "valuation" := VInt 1; "asset_type_id" := VInt 1 ]} ]
           ["asset_index"] SampleTable.asset_types).
  - reflexivity.
  - intros key [<- | []]. reflexivity.
Defined.

Lemma row_scores_In hl (p t : DataFrame) (field_types : dict string)
  (pair : gmap string value * gmap string value) (f : string) :
  row_scores hl p t field_types pair f <> [] ->
  In f (Dict.keys field_types) /\ is_scored p t f = true.
Proof.
  induction field_types as [|[f' ty] fts IH]; [now intros []|].
  cbn [row_scores List.flat_map Dict.keys List.map fst In].
  destruct (String.eqb_spec f f') as [->|Hne]; cbn [andb].
  - destruct (is_scored p t f') eqn:Es; [intros _; now split; [left|]|].
    cbn [app]. intros H. destruct (IH H) as [H1 H2]. now split; [right|].
  - cbn [app]. intros H. destruct (IH H) as [H1 H2]. now split; [right|].
Qed.

Lemma row_scores_nonempty hl (p t : DataFrame) (field_types : dict string)
  (pair : gmap string value * gmap string value) (f : string) :
  row_ok hl p t field_types pair = true ->
  In f (Dict.keys field_types) -> is_scored p t f = true ->
  row_scores hl p t field_types pair f <> [].
Proof.
  induction field_types as [|[f' ty] fts IH]; [now intros _ []|].
  cbn [row_ok forallb row_scores List.flat_map Dict.keys List.map fst In].
  intros Hok Hin Hs. apply andb_prop in Hok. destruct Hok as [Hok1 Hok2].
  destruct (String.eqb_spec f f') as [->|Hne]; cbn [andb].
  - rewrite Hs in *. destruct (score_field hl ty _ _); [|discriminate].
    discriminate.
  - cbn [app]. apply IH; try assumption. destruct Hin; [congruence | assumption].
Qed.

Lemma flat_map_nonempty {A B} (f : A -> list B) (l : list A) :
  List.flat_map f l <> [] <-> exists a, In a l /\ f a <> [].
Proof.
  induction l as [|a l IH]; cbn [List.flat_map].
  - split; [congruence | intros (a & [] & _)].
  - split.
    + intros H. destruct (f a) eqn:E.
      * cbn [app] in H. apply IH in H. destruct H as (b & Hb & Hf).
        exists b. split; [now right | assumption].
      * exists a. split; [now left | congruence].
    + intros (b & [<- | Hb] & Hf).
      * destruct (f a); [congruence | discriminate].
      * intros H. apply app_eq_nil in H. destruct H as [_ H].
        revert H. apply IH. now exists b.
Qed.

Lemma means_of_keys (d : dict (list pyfloat)) (f : string) :
  In f (Dict.keys (means_of d)) <-> exists l, In (f, l) d /\ l <> [].
Proof.
  unfold Dict.keys. rewrite in_map_iff. split.
  - intros ([f' x] & <- & Hin). destruct (means_of_In _ _ _ Hin) as (l & Hl & Hne & _).
    now exists l.
  - intros (l & Hin & Hne). exists (f, np_mean l). split; [reflexivity|].
    unfold means_of. apply in_flat_map. exists (f, l). split; [assumption|].
    destruct l; [congruence | now left].
Qed.

(** X13.  The per-field scores of two non-empty tables are reported for declared
    fields that are columns of both tables only, and, once a truth row has
    found a predicted row, for every such field. *)
Theorem table_dqs_scored_fields hl (predicted_df ground_truth_df : DataFrame)
  (key_columns : list string) (field_types : dict string)
  (overall : pyfloat) (final_field_scores : dict pyfloat) :
  DF.empty predicted_df = false -> DF.empty ground_truth_df = false ->
  calculate_table_dqs hl predicted_df ground_truth_df key_columns field_types
  = Ok (overall, final_field_scores) ->
  (forall field, In field (Dict.keys final_field_scores) ->
     In field (Dict.keys field_types) /\
     DF.has_column predicted_df field = true /\
     DF.has_column ground_truth_df field = true) /\
  (matched_truth_rows predicted_df ground_truth_df key_columns <> [] ->
   forall field, In field (Dict.keys field_types) ->
     DF.has_column predicted_df field = true ->
     DF.has_column ground_truth_df field = true ->
     In field (Dict.keys final_field_scores)).
Proof.
  intros Hp Ht. rewrite table_dqs_row_major by assumption.
  destruct (forallb _ _) eqn:Hok; [|intros H; now apply Raise_not_Ok in H].
  intros H. apply Ok_inj in H. injection H as _ <-. split.
  - intros f Hf. apply means_of_keys in Hf. destruct Hf as (l & Hin & Hne).
    unfold gathered in Hin. apply in_map_iff in Hin.
    destruct Hin as ([f' ty] & [= -> <-] & _).
    apply flat_map_nonempty in Hne. destruct Hne as (pair & _ & Hne).
    apply row_scores_In in Hne. destruct Hne as [Hk Hs].
    unfold is_scored in Hs. apply andb_prop in Hs. tauto.
  - intros Hm f Hin Hcp Hct.
    assert (Hpairs : matched_pairs predicted_df ground_truth_df key_columns <> []).
    { intros E. apply Hm. apply List.length_zero_iff_nil.
      now rewrite matched_truth_rows_length, E. }
    destruct (matched_pairs predicted_df ground_truth_df key_columns)
      as [|pair pairs] eqn:E; [congruence|].
    apply means_of_keys.
    exists (List.flat_map
              (fun pair => row_scores hl predicted_df ground_truth_df field_types pair f)
              (pair :: pairs)).
    split.
    + unfold gathered. rewrite E. unfold Dict.keys in Hin.
      apply in_map_iff in Hin. destruct Hin as ([f' ty] & <- & Hin).
      apply in_map_iff. exists (f', ty). split; [reflexivity | assumption].
    + apply flat_map_nonempty. exists pair. split; [now left|].
      cbn [forallb] in Hok. apply andb_prop in Hok. destruct Hok as [Hok _].
      apply row_scores_nonempty; try assumption.
      unfold is_scored. now rewrite Hcp, Hct.
Qed.

Lemma table_dqs_scored_fields_witness :
  In "valuation"
     (Dict.keys (per_field_scores true SampleTable.pred_assets
                   SampleTable.truth_assets ["id"]
                   [("valuation", "numeric"); ("owner", "text")])).
Proof.
  destruct (table_dqs_scored_fields true SampleTable.pred_assets
              SampleTable.truth_assets ["id"]
              [("valuation", "numeric"); ("owner", "text")]
              (table_score true SampleTable.pred_assets SampleTable.truth_assets
                 ["id"] [("valuation", "numeric"); ("owner", "text")])
              (per_field_scores true SampleTable.pred_assets
                 SampleTable.truth_assets ["id"]
                 [("valuation", "numeric"); ("owner", "text")]))
    as [_ H]; [vm_compute; reflexivity ..|].
  apply H; [|left; reflexivity | reflexivity | reflexivity].
  intros E. apply (f_equal (@List.length _)) in E. vm_compute in E.
  discriminate E.
Defined.

(** ** Row scores *)

Lemma too_large_for_floatb_false (v : value) :
  too_large_for_floatb v = false -> ~ too_large_for_float v.
Proof.
  intros H (z & -> & Hz). cbn in H. apply Z.leb_gt in H. lia.
Qed.

Lemma safe_rowb_sound (row : gmap string value) :
  safe_rowb row = true -> safe_row row.
Proof.
  unfold safe_rowb. rewrite forallb_forall. intros H col v Hl.
  apply elem_of_map_to_list, list_elem_of_In in Hl. specialize (H _ Hl).
  cbn [snd] in H. apply negb_true_iff in H. now apply too_large_for_floatb_false.
Qed.

Lemma series_get_safe (row : gmap string value) (f : string) :
  safe_row row -> ~ too_large_for_float (series_get row f).
Proof.
  intros Hs. unfold series_get. destruct (row !! f) as [v|] eqn:E; cbn.
  - now apply (Hs f).
  - intros (z & Hz & _). discriminate Hz.
Qed.

Lemma keys_set {V} (d : dict V) (k : string) (v : V) :
  Dict.keys (Dict.set d k v) =
  if existsb (String.eqb k) (Dict.keys d) then Dict.keys d
  else (Dict.keys d ++ [k])%list.
Proof.
  induction d as [|[k' v'] d IH]; [reflexivity|].
  cbn [Dict.set Dict.keys List.map fst existsb].
  rewrite (String.eqb_sym k k').
  destruct (String.eqb k' k); cbn [orb List.map fst]; [reflexivity|].
  fold (Dict.keys d). fold (Dict.keys (Dict.set d k v)). rewrite IH.
  now destruct (existsb _ _).
Qed.

Lemma values_set_scores (d : dict pyfloat) (k : string) (x : pyfloat) :
  Forall F.is_score (Dict.values d) -> F.is_score x ->
  Forall F.is_score (Dict.values (Dict.set d k x)).
Proof.
  intros Hd Hx. induction d as [|[k' v'] d IH]; [now repeat constructor|].
  cbn [Dict.set]. cbn [Dict.values List.map snd] in Hd.
  apply Forall_cons_iff in Hd. destruct Hd as [Hv Hd].
  destruct (String.eqb k' k); cbn [Dict.values List.map snd];
    constructor; auto.
Qed.

Lemma existsb_eqb_false (k : string) (l : list string) :
  ~ In k l -> existsb (String.eqb k) l = false.
Proof.
  intros H. apply not_true_is_false. intros E. apply existsb_exists in E.
  destruct E as (x & Hx & E). apply String.eqb_eq in E. now subst.
Qed.

Lemma row_loop hl (pr tr : gmap string value) (field_types : dict string)
  (d : dict pyfloat) :
  safe_row pr -> safe_row tr ->
  exists d',
    for_each
      (fun (field_scores : dict pyfloat) '(field, field_type) =>
         if negb (in_index pr field) || negb (in_index tr field)
         then Ok field_scores
         else
           score ← score_field hl field_type (series_get pr field)
                                              (series_get tr field);
           Ok (Dict.set field_scores field score))
      field_types d = Ok d' /\
    (Forall F.is_score (Dict.values d) -> Forall F.is_score (Dict.values d')) /\
    (List.NoDup (Dict.keys field_types) ->
     (forall f, In f (Dict.keys field_types) -> ~ In f (Dict.keys d)) ->
     Dict.keys d' =
     (Dict.keys d ++
      List.filter (fun f => in_index pr f && in_index tr f)
                  (Dict.keys field_types))%list).
Proof.
  intros Hp Ht. revert d.
  induction field_types as [|[f ty] fts IH]; intros d.
  - exists d. cbn [for_each Dict.keys List.map List.filter].
    rewrite app_nil_r. auto.
  - cbn [for_each Dict.keys List.map fst List.filter].
    destruct (in_index pr f) eqn:Ep; [destruct (in_index tr f) eqn:Et|];
      cbn [negb orb andb mbind result_bind].
    + pose proof (score_field_safe hl ty _ _ (series_get_safe pr f Hp)
                    (series_get_safe tr f Ht)) as Hok.
      pose proof (score_field_outcome hl ty (series_get pr f) (series_get tr f))
        as Hsc.
      destruct (score_field hl ty _ _) as [x|e]; [|discriminate].
      cbn [mbind result_bind].
      destruct (IH (Dict.set d f x)) as (d' & E & Hs & Hk).
      exists d'. split; [exact E|]. split.
      * intros Hd. apply Hs. now apply values_set_scores.
      * intros Hnd Hfresh. apply NoDup_cons_iff in Hnd. destruct Hnd as [Hnot Hnd].
        rewrite Hk; [| assumption |].
        -- rewrite keys_set, existsb_eqb_false by (apply Hfresh; now left).
           now rewrite <- List.app_assoc.
        -- intros g Hg. rewrite keys_set, existsb_eqb_false by (apply Hfresh; now left).
           rewrite in_app_iff. intros [H | [<- | []]]; [|contradiction].
           revert H. apply Hfresh. now right.
    + destruct (IH d) as (d' & E & Hs & Hk). exists d'.
      split; [exact E|]. split; [exact Hs|].
      intros Hnd Hfresh. apply NoDup_cons_iff in Hnd. apply Hk; [tauto|].
      intros g Hg. apply Hfresh. now right.
    + destruct (IH d) as (d' & E & Hs & Hk). exists d'.
      split; [exact E|]. split; [exact Hs|].
      intros Hnd Hfresh. apply NoDup_cons_iff in Hnd. apply Hk; [tauto|].
      intros g Hg. apply Hfresh. now right.
Qed.

(** X14.  Row scoring, on two rows none of whose values is an integer beyond the
    range of a float and a field map with distinct keys: it returns; the
    field scores are those of the declared fields that both rows have, in
    the declared order; they and the overall score lie in [0,1]; and the
    overall score is 0.0 when the rows share no declared field. *)
Theorem row_dqs_scores hl (predicted_row truth_row : gmap string value)
  (field_types : dict string) :
  safe_row predicted_row -> safe_row truth_row ->
  List.NoDup (Dict.keys field_types) ->
  exists overall field_scores,
    calculate_row_dqs hl predicted_row truth_row field_types
    = Ok (overall, field_scores) /\
    Dict.keys field_scores =
      List.filter (fun f => in_index predicted_row f && in_index truth_row f)
                  (Dict.keys field_types) /\
    Forall F.is_score (Dict.values field_scores) /\
    F.is_score overall /\
    (field_scores = [] -> overall = Fin 0).
Proof.
  intros Hp Ht Hnd. unfold calculate_row_dqs.
  destruct (row_loop hl predicted_row truth_row field_types [] Hp Ht)
    as (d' & E & Hs & Hk).
  rewrite E. cbn [mbind result_bind]. eexists _, d'. split; [reflexivity|].
  split; [apply Hk; [assumption | now intros f _ []]|].
  specialize (Hs (List.Forall_nil _)). split; [exact Hs|].
  destruct d' as [|e l] eqn:Ed; cbn [non_empty].
  - split; [apply is_score_0 | reflexivity].
  - split; [|discriminate]. apply np_mean_is_score; [|exact Hs]. discriminate.
Qed.

Lemma row_dqs_scores_witness :
  exists overall field_scores,
    calculate_row_dqs true SampleRows.pred_row SampleRows.truth_row
      SampleRows.field_types = Ok (overall, field_scores) /\
    Dict.keys field_scores = ["name"; "age"] /\
    Forall F.is_score (Dict.values field_scores) /\
    F.is_score overall /\
    (field_scores = [] -> overall = Fin 0).
Proof.
  apply (row_dqs_scores true SampleRows.pred_row SampleRows.truth_row
           SampleRows.field_types).
  - apply safe_rowb_sound. vm_compute. reflexivity.
  - apply safe_rowb_sound. vm_compute. reflexivity.
  - repeat constructor; simpl; intuition discriminate.
Defined.

(** ** The report *)

Lemma mean_or_zero_zeros (l : list pyfloat) :
  Forall (fun x => x = Fin 0) l -> exists q, mean_or_zero l = Fin q /\ q == 0.
Proof.
  intros H. destruct l as [|x l']; [now exists 0|].
  set (l := x :: l') in *.
  assert (Hs : Forall F.is_score l).
  { eapply List.Forall_impl; [|exact H]. intros y ->. apply is_score_0. }
  destruct (np_mean_value l) as (q & E & Hq); [discriminate | exact Hs |].
  exists q. split; [exact E|]. rewrite Hq. unfold Qmean.
  assert (Hz : Qsum (List.map F.value l) == 0).
  { clear -H. induction H as [|y l Hy _ IH]; [reflexivity|].
    subst y. cbn [List.map F.value]. unfold Qsum in *. cbn [fold_right].
    rewrite IH. lra. }
  rewrite Hz. unfold Qdiv. apply Qmult_0_l.
Qed.

Lemma predicted_table_empty (predicted : gmap string DataFrame) (name : string) :
  (forall name df, predicted !! name = Some df -> DF.empty df = true) ->
  DF.empty (predicted_table predicted name) = true.
Proof.
  intros H. unfold predicted_table.
  destruct (predicted !! name) as [df|] eqn:E; cbn; [now apply (H name) | reflexivity].
Qed.

(** X15.  A prediction all of whose tables are empty (or absent) scores 0.0:
    whatever the ground truth is, the report is returned, every section
    score and the overall DQS are 0.0, and the threshold is not passed. *)
Theorem overall_dqs_of_empty_prediction hl
  (predicted ground_truth : gmap string DataFrame) :
  (forall name df, predicted !! name = Some df -> DF.empty df = true) ->
  exists r,
    calculate_overall_dqs hl predicted ground_truth = Ok r /\
    Forall (fun x => F.has_value x 0) (Dict.values (section_scores r)) /\
    F.has_value (overall_dqs r) 0 /\
    passes_threshold r = false.
Proof.
  intros Hemp. rewrite overall_dqs_unfold.
  set (filtered_gt := filtered_ground_truth predicted ground_truth).
  assert (Hres : forall name,
             table_result hl predicted filtered_gt name =
             Ok (if DF.empty (truth_table filtered_gt name) then Fin 1 else Fin 0)).
  { intros name. unfold table_result.
    now rewrite (predicted_table_empty predicted name Hemp). }
  assert (Hok : forallb (fun name => is_ok (table_result hl predicted filtered_gt name))
                        (Dict.keys TABLE_TO_SECTION) = true).
  { apply forallb_forall. intros name _. now rewrite Hres. }
  rewrite Hok.
  assert (Hzero : forall section,
             exists q, mean_or_zero (section_list hl predicted filtered_gt section)
                       = Fin q /\ q == 0).
  { intros section. apply mean_or_zero_zeros. unfold section_list.
    induction (section_members section) as [|name names IH]; [constructor|].
    cbn [List.flat_map]. apply Forall_app. split; [|exact IH].
    unfold contribution, both_empty.
    rewrite (predicted_table_empty predicted name Hemp), Hres. cbn [andb].
    destruct (DF.empty (truth_table filtered_gt name)); [constructor|].
    unfold ok_values. cbn [List.flat_map app]. now repeat constructor. }
  eexists. split; [reflexivity|].
  cbn [section_scores overall_dqs passes_threshold].
  cbn [SECTION_WEIGHTS List.map].
  destruct (Hzero "submitter_spouse") as (a & -> & Ha).
  destruct (Hzero "statement_details") as (b & -> & Hb).
  destruct (Hzero "assets") as (c & -> & Hc).
  destruct (Hzero "relatives") as (d & -> & Hd).
  rewrite weighted_sum_four. cbn [Dict.values List.map snd F.has_value F.ge].
  split; [repeat constructor; assumption|].
  split; [lra|].
  apply not_true_is_false. intros H. apply Qle_bool_iff in H. lra.
Qed.

Lemma overall_dqs_of_empty_prediction_witness :
  exists r,
    calculate_overall_dqs true ∅ SampleRun.only_assets = Ok r /\
    Forall (fun x => F.has_value x 0) (Dict.values (section_scores r)) /\
    F.has_value (overall_dqs r) 0 /\
    passes_threshold r = false.
Proof.
  apply (overall_dqs_of_empty_prediction true ∅ SampleRun.only_assets).
  intros name df H. rewrite lookup_empty in H. discriminate H.
Defined.

Lemma filter_app_none {A} (f : A -> bool) (l extra : list A) :
  (forall x, In x extra -> f x = false) ->
  List.filter f (l ++ extra) = List.filter f l.
Proof.
  intros H. rewrite List.filter_app.
  assert (E : List.filter f extra = []).
  { induction extra as [|e extra IH]; [reflexivity|].
    cbn [List.filter]. rewrite H by now left. apply IH.
    intros x Hx. apply H. now right. }
  rewrite E. apply app_nil_r.
Qed.

Lemma filter_ground_truth_unprocessed (sids nids : list value) (df : DataFrame)
  (extra : list (gmap string value)) :
  DF.has_column df "submitter_id" = true -> non_empty sids = true ->
  (forall row, In row extra ->
     existsb (Py.eq (DF.cell row "submitter_id")) sids = false) ->
  filter_ground_truth sids nids
    {| columns := columns df; rows := (rows df ++ extra)%list |} =
  filter_ground_truth sids nids df.
Proof.
  intros Hc Hs Hextra. destruct df as [cols rs]. cbn [columns rows] in *.
  unfold filter_ground_truth, DF.empty. cbn [columns rows].
  unfold DF.has_column in *. cbn [columns] in *. rewrite Hc, Hs. cbn [andb].
  destruct cols as [|c cols]; [discriminate Hc|].
  unfold DF.where_isin. cbn [columns rows].
  destruct rs as [|r rs].
  - cbn [app]. destruct extra as [|e extra]; [reflexivity|].
    f_equal. apply (filter_app_none _ [] (e :: extra)). exact Hextra.
  - cbn [app]. f_equal.
    apply (filter_app_none _ (r :: rs) extra). exact Hextra.
Qed.

(** X16.  Ground-truth rows of submitters that were not processed do not
    count.  When the prediction holds submitter identifiers and the last
    rows of a ground-truth table with the column [submitter_id] are of
    submitters that are none of them, the whole report is that for the
    table cut down to the rows before them (the columns and their types
    left as they are). *)
Theorem overall_dqs_ignores_unprocessed hl
  (predicted ground_truth : gmap string DataFrame)
  (table_name : string) (df : DataFrame)
  (kept unprocessed : list (gmap string value)) :
  rows df = (kept ++ unprocessed)%list ->
  DF.has_column df "submitter_id" = true ->
  non_empty (processed_ids predicted "submitter_id") = true ->
  (forall row, In row unprocessed ->
     existsb (Py.eq (DF.cell row "submitter_id"))
             (processed_ids predicted "submitter_id") = false) ->
  calculate_overall_dqs hl predicted (<[table_name := df]> ground_truth) =
  calculate_overall_dqs hl predicted
    (<[table_name := {| columns := columns df; rows := kept |}]> ground_truth).
Proof.
  intros Hrows Hc Hs Hun. unfold calculate_overall_dqs, filtered_ground_truth.
  rewrite !fmap_insert.
  rewrite <- (filter_ground_truth_unprocessed _ _
                {| columns := columns df; rows := kept |} unprocessed Hc Hs Hun).
  cbn [columns rows]. rewrite <- Hrows. now destruct df.
Qed.

Lemma overall_dqs_ignores_unprocessed_witness :
  calculate_overall_dqs true SampleRun.only_assets
    (<["asset" := {| columns := SampleRun.columns_asset;
                     rows := [SampleRun.asset_row; SampleTruth.other_row] |}]> ∅) =
  calculate_overall_dqs true SampleRun.only_assets
    (<["asset" := SampleTruth.assets]> ∅).
Proof.
  apply (overall_dqs_ignores_unprocessed true SampleRun.only_assets ∅ "asset"
           {| columns := SampleRun.columns_asset;
              rows := [SampleRun.asset_row; SampleTruth.other_row] |}
           [SampleRun.asset_row] [SampleTruth.other_row]).
  - reflexivity.
  - reflexivity.
  - vm_compute. reflexivity.
  - intros row [<- | []]. vm_compute. reflexivity.
Defined.

Lemma safe_tablesb_sound (tables : gmap string DataFrame) :
  safe_tablesb tables = true -> safe_tables tables.
Proof.
  unfold safe_tablesb. rewrite forallb_forall. intros H name df Hl.
  apply elem_of_map_to_list, list_elem_of_In in Hl.
  apply safe_tableb_sound. exact (H _ Hl).
Qed.

Lemma get_set_same {V} (d : dict V) (k : string) (v : V) :
  Dict.get (Dict.set d k v) k = Some v.
Proof.
  induction d as [|[k' v'] d IH]; cbn [Dict.set Dict.get].
  - now rewrite String.eqb_refl.
  - destruct (String.eqb k' k) eqn:E; cbn [Dict.get]; now rewrite E.
Qed.

Lemma get_set_other {V} (d : dict V) (k k' : string) (v : V) :
  k <> k' -> Dict.get (Dict.set d k v) k' = Dict.get d k'.
Proof.
  intros Hne. induction d as [|[k0 v0] d IH]; cbn [Dict.set Dict.get].
  - destruct (String.eqb_spec k k'); [contradiction | reflexivity].
  - destruct (String.eqb_spec k0 k) as [->|Hk]; cbn [Dict.get].
    + destruct (String.eqb_spec k k'); [contradiction | reflexivity].
    + now rewrite IH.
Qed.

Lemma table_scores_after_spec hl (predicted filtered_gt : gmap string DataFrame)
  (names : list string) (ts : dict pyfloat) :
  forallb (fun name => is_ok (table_result hl predicted filtered_gt name)) names
  = true ->
  List.NoDup names -> (forall n, In n names -> ~ In n (Dict.keys ts)) ->
  Dict.keys (table_scores_after hl predicted filtered_gt names ts) =
    (Dict.keys ts ++ names)%list /\
  (Forall F.is_score (Dict.values ts) ->
   Forall F.is_score
     (Dict.values (table_scores_after hl predicted filtered_gt names ts))) /\
  (forall k, ~ In k names ->
     Dict.get (table_scores_after hl predicted filtered_gt names ts) k =
     Dict.get ts k) /\
  (forall n, In n names ->
     exists score,
       table_result hl predicted filtered_gt n = Ok score /\
       Dict.get (table_scores_after hl predicted filtered_gt names ts) n =
       Some score).
Proof.
  revert ts. induction names as [|name names IH]; intros ts Hok Hnd Hfresh.
  - cbn [table_scores_after fold_left]. rewrite app_nil_r.
    repeat split; auto. intros n [].
  - cbn [forallb] in Hok. apply andb_prop in Hok. destruct Hok as [Hok1 Hok].
    apply NoDup_cons_iff in Hnd. destruct Hnd as [Hnot Hnd].
    cbn [table_scores_after fold_left].
    pose proof (table_result_outcome hl predicted filtered_gt name) as Hsc.
    destruct (table_result hl predicted filtered_gt name) as [score|e] eqn:E;
      [|discriminate].
    fold (table_scores_after hl predicted filtered_gt names (Dict.set ts name score)).
    assert (Hk : Dict.keys (Dict.set ts name score) = (Dict.keys ts ++ [name])%list).
    { rewrite keys_set, existsb_eqb_false; [reflexivity|]. apply Hfresh. now left. }
    destruct (IH (Dict.set ts name score) Hok Hnd) as (H1 & H2 & H3 & H4).
    { intros n Hn. rewrite Hk, in_app_iff. intros [H | [<- | []]].
      - revert H. apply Hfresh. now right.
      - contradiction. }
    split; [|split; [|split]].
    + now rewrite H1, Hk, <- List.app_assoc.
    + intros Hts. apply H2. now apply values_set_scores.
    + intros k Hk'. rewrite H3 by (intros H; apply Hk'; now right).
      apply get_set_other. intros ->. apply Hk'. now left.
    + intros n [<- | Hn].
      * exists score. split; [exact E|]. rewrite H3 by assumption.
        apply get_set_same.
      * apply H4. exact Hn.
Qed.

(** X17.  The report is complete.  On tables none of whose cells is an integer
    beyond the range of a float, the report is returned; it has a table
    score for each of the fourteen tables, in the declared order, each the
    score of that table and in [0,1], and a section score for each of the
    four sections. *)
Theorem overall_dqs_report_complete hl
  (predicted ground_truth : gmap string DataFrame) :
  safe_tables predicted -> safe_tables ground_truth ->
  exists r,
    calculate_overall_dqs hl predicted ground_truth = Ok r /\
    Dict.keys (table_scores r) = Dict.keys TABLE_TO_SECTION /\
    Forall F.is_score (Dict.values (table_scores r)) /\
    (forall name, In name (Dict.keys TABLE_TO_SECTION) ->
       exists score,
         table_result hl predicted
           (filtered_ground_truth predicted ground_truth) name = Ok score /\
         Dict.get (table_scores r) name = Some score) /\
    Dict.keys (section_scores r) = Dict.keys SECTION_WEIGHTS.
Proof.
  intros Hp Hg.
  destruct (calculate_overall_dqs_returns hl predicted ground_truth Hp Hg)
    as (r & Hr).
  exists r. split; [exact Hr|].
  rewrite overall_dqs_unfold in Hr.
  set (filtered_gt := filtered_ground_truth predicted ground_truth) in *.
  destruct (forallb _ _) eqn:Hok; [|now apply Raise_not_Ok in Hr].
  apply Ok_inj in Hr. rewrite <- Hr. cbn [table_scores section_scores].
  destruct (table_scores_after_spec hl predicted filtered_gt
              (Dict.keys TABLE_TO_SECTION) [] Hok) as (H1 & H2 & _ & H4).
  { repeat constructor; cbn; intuition discriminate. }
  { intros n _ []. }
  split; [exact H1|]. split; [apply H2; constructor|].
  split; [exact H4 | reflexivity].
Qed.

Lemma overall_dqs_report_complete_witness :
  exists r,
    calculate_overall_dqs true SampleRun.only_assets SampleRun.only_assets = Ok r /\
    Dict.keys (table_scores r) = Dict.keys TABLE_TO_SECTION /\
    Forall F.is_score (Dict.values (table_scores r)) /\
    (forall name, In name (Dict.keys TABLE_TO_SECTION) ->
       exists score,
         table_result true SampleRun.only_assets
           (filtered_ground_truth SampleRun.only_assets SampleRun.only_assets)
           name = Ok score /\
         Dict.get (table_scores r) name = Some score) /\
    Dict.keys (section_scores r) = Dict.keys SECTION_WEIGHTS.
Proof.
  apply (overall_dqs_report_complete true SampleRun.only_assets
           SampleRun.only_assets);
    apply safe_tablesb_sound; vm_compute; reflexivity.
Defined.

(** ** The enum loader *)

Lemma prefix_app (key rest : string) : String.prefix key (key ++ rest) = true.
Proof.
  induction key as [|c key IH]; simpl; [now destruct rest|].
  destruct (ascii_dec c c); [exact IH | contradiction].
Qed.

Lemma prefix_spec (key text : string) :
  String.prefix key text = true -> exists rest, text = key ++ rest.
Proof.
  revert text. induction key as [|c key IH]; intros text H.
  - now exists text.
  - destruct text as [|d text]; [discriminate|]. simpl in H.
    destruct (ascii_dec c d) as [->|]; [|discriminate].
    destruct (IH text H) as (rest & ->). now exists rest.
Qed.

Lemma contains_spec (key text : string) :
  contains key text = true <-> exists pre post, text = pre ++ key ++ post.
Proof.
  split.
  - induction text as [|c text IH]; cbn [contains]; intros H.
    + rewrite orb_false_r in H. apply prefix_spec in H.
      destruct H as (rest & ->). now exists "", rest.
    + apply orb_prop in H. destruct H as [H | H].
      * apply prefix_spec in H. destruct H as (rest & ->). now exists "", rest.
      * destruct (IH H) as (pre & post & ->). now exists (String c pre), post.
  - intros (pre & post & ->). induction pre as [|c pre IH].
    + change ("" ++ key ++ post) with (key ++ post).
      pose proof (prefix_app key post) as H.
      destruct (key ++ post); cbn [contains]; now rewrite H.
    + change (String c pre ++ key ++ post) with (String c (pre ++ key ++ post)).
      cbn [contains]. rewrite IH. apply orb_true_r.
Qed.

Lemma append_assoc (a b c : string) : (a ++ b) ++ c = a ++ b ++ c.
Proof.
  induction a as [|x a IH]; [reflexivity|].
  change (String x ((a ++ b) ++ c) = String x (a ++ b ++ c)). now rewrite IH.
Qed.

Lemma contains_trans (a b c : string) :
  contains a b = true -> contains b c = true -> contains a c = true.
Proof.
  rewrite !contains_spec. intros (p1 & q1 & ->) (p2 & q2 & ->).
  exists (p2 ++ p1), (q1 ++ q2). now rewrite !append_assoc.
Qed.

Lemma first_key_cons (key : string) (id : Z) (mapping : dict Z) (text : string)
  (default : Z) :
  EnumLoader.first_key ((key, id) :: mapping) text default =
  if contains key text then id else EnumLoader.first_key mapping text default.
Proof. unfold EnumLoader.first_key. cbn [List.find]. now destruct (contains key text). Qed.

Lemma match_relationship_id_values (text : option string) :
  In (EnumLoader.match_relationship_id text) [1; 2; 3; 4]%Z.
Proof.
  unfold EnumLoader.match_relationship_id.
  set (t := EnumLoader.lower_strip text).
  unfold EnumLoader.mapping. rewrite !first_key_cons.
  destruct (contains "บิดา" t) eqn:E1; [cbn; tauto|].
  destruct (contains "พ่อ" t) eqn:E2; [cbn; tauto|].
  destruct (contains "father" t); [cbn; tauto|].
  destruct (contains "มารดา" t) eqn:E3; [cbn; tauto|].
  destruct (contains "แม่" t) eqn:E4; [cbn; tauto|].
  destruct (contains "mother" t); [cbn; tauto|].
  destruct (contains "พี่" t); [cbn; tauto|].
  destruct (contains "น้อง" t); [cbn; tauto|].
  destruct (contains "พี่น้อง" t); [cbn; tauto|].
  destruct (contains "sibling" t); [cbn; tauto|].
  destruct (contains "บุตร" t); [cbn; tauto|].
  destruct (contains "ลูก" t); [cbn; tauto|].
  destruct (contains "child" t); [cbn; tauto|].
  assert (Hsub : forall a b, contains a b = true -> contains a t = false ->
                             contains b t = false).
  { intros a b Hab Ha. apply not_true_is_false. intros Hb.
    rewrite (contains_trans a b t Hab Hb) in Ha. discriminate. }
  rewrite (Hsub "บิดา" "บิดาคู่สมรส" eq_refl E1).
  rewrite (Hsub "พ่อ" "พ่อสามี" eq_refl E2).
  rewrite (Hsub "พ่อ" "พ่อภรรยา" eq_refl E2).
  rewrite (Hsub "มารดา" "มารดาคู่สมรส" eq_refl E3).
  rewrite (Hsub "แม่" "แม่สามี" eq_refl E4).
  rewrite (Hsub "แม่" "แม่ภรรยา" eq_refl E4).
  cbn. tauto.
Qed.

(** X18.  The relationship matcher never answers 5 (father of the spouse) or 6
    (mother of the spouse), although its mapping holds keys for both:
    every key mapped to 5 or 6 contains an earlier key mapped to 1 or 2,
    which is found first.  Its answer is 1, 2, 3 or 4, whatever the text. *)
Theorem match_relationship_id_range :
  (forall text, In (EnumLoader.match_relationship_id text) [1; 2; 3; 4]%Z) /\
  In 5%Z (Dict.values EnumLoader.mapping) /\
  In 6%Z (Dict.values EnumLoader.mapping).
Proof.
  split; [exact match_relationship_id_values|]. split; cbn; tauto.
Qed.

(** ** Batched extraction *)

Section BatchedProperties.

Context {page R : Type}.
Variable extract_all_data : list page -> R.
Variable merge_assets : R -> list page -> R.




Lemma batch_loop_stuck (max_pages first_size : Z) (remaining : list page) :
  remaining <> [] -> Slice.from max_pages remaining = remaining ->
  forall fuel n run,
    batch_loop merge_assets fuel max_pages first_size remaining n run = None.
Proof.
  intros Hne Hsame. induction fuel as [|fuel IH]; intros n run.
  - destruct remaining; [contradiction | reflexivity].
  - destruct remaining as [|p rest] eqn:E; [contradiction|].
    cbn [batch_loop]. rewrite Hsame. apply IH.
Qed.

(** X20.  With [max_pages_per_batch] zero or negative, batched extraction of a
    document that has pages never ends: the rest of the pages does not
    shrink. *)
Theorem batched_extraction_diverges (page_images : list page)
  (max_pages_per_batch : Z) :
  (max_pages_per_batch <= 0)%Z -> page_images <> [] ->
  forall fuel,
    extract_all_data_batched extract_all_data merge_assets fuel page_images
      max_pages_per_batch = None.
Proof.
  intros Hmax Hne fuel. unfold extract_all_data_batched.
  assert (Hpos : (0 < List.length page_images)%nat).
  { destruct page_images; [contradiction | cbn; lia]. }
  destruct (Z.leb_spec (Z.of_nat (List.length page_images)) max_pages_per_batch);
    [lia|].
  apply batch_loop_stuck.
  - intros E. apply (f_equal (@List.length _)) in E. revert E.
    unfold Slice.from. destruct (Z.leb_spec 0 max_pages_per_batch).
    + replace (Z.to_nat max_pages_per_batch) with 0%nat by lia.
      change (List.skipn 0 page_images) with page_images.
      cbn [List.length]. lia.
    + rewrite List.length_skipn. cbn [List.length]. lia.
  - unfold Slice.from. destruct (Z.leb_spec 0 max_pages_per_batch).
    + replace (Z.to_nat max_pages_per_batch) with 0%nat by lia. reflexivity.
    + rewrite List.length_skipn.
      replace (List.length page_images -
               (List.length page_images - Z.to_nat (- max_pages_per_batch)) -
               Z.to_nat (- max_pages_per_batch))%nat with 0%nat by lia.
      reflexivity.
Qed.

End BatchedProperties.


Lemma batched_extraction_diverges_witness :
  extract_all_data_batched (fun pages => [pages])
    (fun (r : list (list nat)) pages => (r ++ [pages])%list)
    1000 [1; 2; 3]%nat 0 = None.
Proof.
  apply (batched_extraction_diverges (fun pages => [pages])
           (fun (r : list (list nat)) pages => (r ++ [pages])%list)
           [1; 2; 3]%nat 0); [lia | discriminate].
Defined.

(** ** The assets of a document *)

Lemma asset_category_of_ids_sample :
  List.map (fun z => Pipeline.get_asset_category (Json.of_Z z))
           [0; 1; 9; 10; 17; 18; 21; 22; 27; 28; 35; 36; 37; 38; 39; 40]%Z =
  ["other"; "land"; "land"; "building"; "building"; "vehicle"; "vehicle";
   "rights"; "rights"; "other"; "other"; "land"; "building"; "vehicle";
   "rights"; "other"].
Proof. vm_compute. reflexivity. Qed.

Lemma process_assets_sample :
  exists idx t,
    Pipeline.process_assets DF.new 7 1 SampleAssets.today 100 SampleAssets.assets
      ([], Pipeline.no_rows) = (104%Z, Done (idx, t)) /\
    List.map Pipeline.row_id (Pipeline.asset t) = [Some 100; Some 101; Some 102; Some 103]%Z /\
    List.map Pipeline.row_index (Pipeline.asset t) = [Some 1; Some 1; Some 2; Some 3]%Z /\
    List.map Pipeline.row_id (Pipeline.asset_land_info t) = [Some 100; Some 103]%Z /\
    List.map Pipeline.row_id (Pipeline.asset_vehicle_info t) = [Some 101]%Z /\
    List.map (fun r => Dict.get r "vehicle_model") (Pipeline.asset_vehicle_info t)
      = [Some (Scalar (VStr "Toyota"))] /\
    List.map (fun r => Dict.get r "registration_number") (Pipeline.asset_vehicle_info t)
      = [Some (Scalar (VStr "1AB234"))].
Proof. eexists _, _. split; [vm_compute; reflexivity|]. repeat split. Qed.

Section AssetProperties.

Variable asset_types : DataFrame.
Variables nacc_id submitter_id : Z.
Variable today : member.

Lemma asset_row_fields (id idx : Z) (ty : member) (a : object) (r : Pipeline.row) :
  Pipeline.asset_row nacc_id submitter_id today id idx ty a = Done r ->
  Pipeline.row_id r = Some id /\ Pipeline.row_index r = Some idx /\
  Pipeline.row_type r = ty.
Proof.
  unfold Pipeline.asset_row.
  destruct (Pipeline.strip_leading_zeros (Json.get a "acquiring_date"));
    [|discriminate].
  destruct (Pipeline.strip_leading_zeros (Json.get a "acquiring_month"));
    [|discriminate].
  destruct (Pipeline.strip_leading_zeros (Json.get a "ending_date"));
    [|discriminate].
  destruct (Pipeline.strip_leading_zeros (Json.get a "ending_month"));
    [|discriminate].
  cbn [mbind outcome_bind]. intros [= <-]. repeat split.
Qed.

Lemma land_info_row_id (id : Z) (m : member) (r : Pipeline.row) :
  Pipeline.land_info_row nacc_id submitter_id today id m = Done r ->
  Pipeline.row_id r = Some id.
Proof.
  destruct m as [v|o]; [discriminate|]. cbn. now intros [= <-].
Qed.

Lemma building_info_row_id (id : Z) (m : member) (r : Pipeline.row) :
  Pipeline.building_info_row nacc_id submitter_id today id m = Done r ->
  Pipeline.row_id r = Some id.
Proof.
  destruct m as [v|o]; [discriminate|]. cbn. now intros [= <-].
Qed.

Lemma vehicle_info_row_id (id : Z) (m : member) (r : Pipeline.row) :
  Pipeline.vehicle_info_row nacc_id submitter_id today id m = Done r ->
  Pipeline.row_id r = Some id.
Proof.
  unfold Pipeline.vehicle_info_row.
  destruct (Pipeline.combined_model m); [|discriminate].
  destruct (Pipeline.registration_number m); [|discriminate].
  destruct (Json.member_get m "registration_province"); [|discriminate].
  cbn [mbind outcome_bind]. now intros [= <-].
Qed.

Lemma other_info_row_id (id : Z) (m : member) (r : Pipeline.row) :
  Pipeline.other_info_row nacc_id submitter_id today id m = Done r ->
  Pipeline.row_id r = Some id.
Proof.
  destruct m as [v|o]; [discriminate|]. cbn. now intros [= <-].
Qed.

Lemma append_info_spec (info ty : member) (lo hi : Z)
  (make : member -> outcome Pipeline.row) (rows rows' : list Pipeline.row) :
  Pipeline.append_info info ty lo hi make rows = Done rows' ->
  rows' = rows \/
  exists r, make info = Done r /\ rows' = (rows ++ [r])%list /\
            Json.in_range ty lo hi = true.
Proof.
  unfold Pipeline.append_info.
  destruct (Json.truthy info && Json.in_range ty lo hi) eqn:E.
  - destruct (make info) as [r|]; [|discriminate]. cbn [mbind outcome_bind].
    intros [= <-]. right. exists r. apply andb_prop in E. tauto.
  - intros [= <-]. now left.
Qed.

Lemma eq_int_inj (ty : member) (z z' : Z) :
  Json.eq_int ty z = true -> Json.eq_int ty z' = true -> z = z'.
Proof.
  destruct ty as [v|o]; [|discriminate]. unfold Json.eq_int, Py.eq.
  destruct v as [| b | n | x shown | s]; try discriminate;
    cbn [Py.number F.of_Z].
  all: match goal with
       | |- Py.float_eq ?x _ = true -> _ => destruct x as [| |p] eqn:E
       end; try discriminate; cbn [Py.float_eq];
    intros H1 H2; apply Qeq_bool_iff in H1, H2;
    apply inject_Z_injective; now rewrite <- H1, <- H2.
Qed.

Lemma in_range_spec (ty : member) (lo hi : Z) :
  Json.in_range ty lo hi = true ->
  exists z, (lo <= z < hi)%Z /\ Json.eq_int ty z = true.
Proof.
  unfold Json.in_range. rewrite existsb_exists. intros (i & Hi & H).
  apply in_seq in Hi. exists (lo + Z.of_nat i)%Z. split; [lia | exact H].
Qed.

Lemma in_range_disjoint (ty : member) (lo hi lo' hi' : Z) :
  (hi <= lo')%Z ->
  Json.in_range ty lo hi = true -> Json.in_range ty lo' hi' = true -> False.
Proof.
  intros Hle H1 H2. apply in_range_spec in H1, H2.
  destruct H1 as (z & Hz & E), H2 as (z' & Hz' & E').
  pose proof (eq_int_inj ty z z' E E'). lia.
Qed.

(** What one asset adds. *)
Lemma asset_rows_spec (id : Z) (a : object) (idx idx' : dict Z)
  (t t' : Pipeline.asset_tables) :
  Pipeline.asset_rows asset_types nacc_id submitter_id today id a (idx, t)
  = Done (idx', t') ->
  exists r i,
    Pipeline.asset t' = (Pipeline.asset t ++ [r])%list /\
    Pipeline.row_id r = Some id /\ Pipeline.row_index r = Some i /\
    Pipeline.next_index idx (Pipeline.row_category r) = (i, idx') /\
    (Pipeline.asset_land_info t' = Pipeline.asset_land_info t \/
     exists d, Pipeline.asset_land_info t' = (Pipeline.asset_land_info t ++ [d])%list /\
               Pipeline.row_id d = Some id /\
               Json.in_range (Pipeline.row_type r) 1 10 = true) /\
    (Pipeline.asset_building_info t' = Pipeline.asset_building_info t \/
     exists d, Pipeline.asset_building_info t' =
                 (Pipeline.asset_building_info t ++ [d])%list /\
               Pipeline.row_id d = Some id /\
               Json.in_range (Pipeline.row_type r) 10 18 = true) /\
    (Pipeline.asset_vehicle_info t' = Pipeline.asset_vehicle_info t \/
     exists d, Pipeline.asset_vehicle_info t' =
                 (Pipeline.asset_vehicle_info t ++ [d])%list /\
               Pipeline.row_id d = Some id /\
               Json.in_range (Pipeline.row_type r) 18 22 = true) /\
    (Pipeline.asset_other_asset_info t' = Pipeline.asset_other_asset_info t \/
     exists d, Pipeline.asset_other_asset_info t' =
                 (Pipeline.asset_other_asset_info t ++ [d])%list /\
               Pipeline.row_id d = Some id /\
               Json.in_range (Pipeline.row_type r) 28 36 = true).
Proof.
  unfold Pipeline.asset_rows.
  set (ty0 := if negb (Json.truthy (Json.get a "asset_type_id")) then _ else _).
  destruct ty0 as [ty|]; [|discriminate]. cbn [mbind outcome_bind].
  destruct (Pipeline.next_index idx (Pipeline.get_asset_category ty))
    as [i idx1] eqn:Ei.
  destruct (Pipeline.asset_row _ _ _ _ _ _ _) as [r|] eqn:Er; [|discriminate].
  cbn [mbind outcome_bind].
  destruct (Pipeline.append_info (Json.get a "land_info") _ _ _ _ _)
    as [lands|] eqn:El; [|discriminate]. cbn [mbind outcome_bind].
  destruct (Pipeline.append_info (Json.get a "building_info") _ _ _ _ _)
    as [buildings|] eqn:Eb; [|discriminate]. cbn [mbind outcome_bind].
  destruct (Pipeline.append_info (Json.get a "vehicle_info") _ _ _ _ _)
    as [vehicles|] eqn:Ev; [|discriminate]. cbn [mbind outcome_bind].
  destruct (Pipeline.append_info (Json.get a "other_info") _ _ _ _ _)
    as [others|] eqn:Eo; [|discriminate]. cbn [mbind outcome_bind].
  intros [= <- <-]. cbn [Pipeline.asset Pipeline.asset_land_info
    Pipeline.asset_building_info Pipeline.asset_vehicle_info
    Pipeline.asset_other_asset_info].
  destruct (asset_row_fields _ _ _ _ _ Er) as (Hid & Hidx & Hty).
  exists r, i. unfold Pipeline.row_category. rewrite Hty.
  split; [reflexivity|]. split; [exact Hid|]. split; [exact Hidx|].
  split; [exact Ei|].
  split; [|split; [|split]].
  - destruct (append_info_spec _ _ _ _ _ _ _ El) as [-> | (d & Hd & -> & Hr)];
      [now left|]. right. exists d. split; [reflexivity|].
    split; [now apply land_info_row_id in Hd | exact Hr].
  - destruct (append_info_spec _ _ _ _ _ _ _ Eb) as [-> | (d & Hd & -> & Hr)];
      [now left|]. right. exists d. split; [reflexivity|].
    split; [now apply building_info_row_id in Hd | exact Hr].
  - destruct (append_info_spec _ _ _ _ _ _ _ Ev) as [-> | (d & Hd & -> & Hr)];
      [now left|]. right. exists d. split; [reflexivity|].
    split; [now apply vehicle_info_row_id in Hd | exact Hr].
  - destruct (append_info_spec _ _ _ _ _ _ _ Eo) as [-> | (d & Hd & -> & Hr)];
      [now left|]. right. exists d. split; [reflexivity|].
    split; [now apply other_info_row_id in Hd | exact Hr].
Qed.

Lemma seq_shift_map (f : nat -> option Z) (n : nat) :
  List.map f (List.seq 1 n) = List.map (fun k => f (S k)) (List.seq 0 n).
Proof. rewrite <- List.seq_shift, List.map_map. reflexivity. Qed.

Lemma process_assets_next (assets : list object) :
  forall (next next' : Z) (state state' : dict Z * Pipeline.asset_tables),
    Pipeline.process_assets asset_types nacc_id submitter_id today next assets
      state = (next', Done state') ->
    next' = (next + Z.of_nat (List.length assets))%Z.
Proof.
  induction assets as [|a assets IH]; intros next next' state state' H.
  - cbn in H. injection H as <- _. cbn. lia.
  - cbn [Pipeline.process_assets] in H.
    destruct (Pipeline.asset_rows _ _ _ _ next a state) as [state1|e];
      [|discriminate].
    apply IH in H. cbn [List.length]. lia.
Qed.

(** X21.  Asset identifiers.  The loop over the assets of a document gives the
    assets consecutive identifiers from the counter on, in order, one row
    of [asset] each, and leaves the counter behind the last one.  When an
    asset fails, the document has no rows, but the counter has moved on,
    so that no identifier is given twice. *)
Theorem process_assets_ids (assets : list object) (next_asset_id : Z)
  (state : dict Z * Pipeline.asset_tables) :
  match Pipeline.process_assets asset_types nacc_id submitter_id today
          next_asset_id assets state with
  | (next', Done state') =>
      next' = (next_asset_id + Z.of_nat (List.length assets))%Z /\
      exists new,
        Pipeline.asset (snd state') = (Pipeline.asset (snd state) ++ new)%list /\
        List.map Pipeline.row_id new =
        List.map (fun k => Some (next_asset_id + Z.of_nat k)%Z)
                 (List.seq 0 (List.length assets))
  | (next', Failed _) =>
      (next_asset_id < next' <= next_asset_id + Z.of_nat (List.length assets))%Z
  end.
Proof.
  revert next_asset_id state.
  induction assets as [|a assets IH]; intros next state.
  - cbn [Pipeline.process_assets List.length List.seq List.map].
    split; [lia|]. exists []. now rewrite app_nil_r.
  - cbn [Pipeline.process_assets].
    destruct (Pipeline.asset_rows _ _ _ _ next a state) as [[idx1 t1]|e] eqn:E.
    + destruct state as [idx t].
      destruct (asset_rows_spec _ _ _ _ _ _ E) as (r & i & Ha & Hid & _).
      specialize (IH (next + 1)%Z (idx1, t1)).
      destruct (Pipeline.process_assets _ _ _ _ (next + 1)%Z assets (idx1, t1))
        as [next' [state'|e']].
      * destruct IH as [-> (new & Hnew & Hids)]. cbn [List.length snd] in *.
        split; [lia|]. exists (r :: new). split.
        -- rewrite Hnew, Ha, <- List.app_assoc. reflexivity.
        -- cbn [List.map List.seq]. rewrite Hid, Hids, seq_shift_map.
           f_equal; [f_equal; lia|]. apply List.map_ext. intros k. f_equal. lia.
      * cbn [List.length]. lia.
    + cbn [List.length]. lia.
Qed.

Lemma count_occ_cons_string (seen : list string) (c c' : string) :
  List.count_occ String.string_dec (c :: seen) c' =
  if String.eqb c c' then S (List.count_occ String.string_dec seen c')
  else List.count_occ String.string_dec seen c'.
Proof.
  cbn [List.count_occ].
  destruct (String.string_dec c c') as [->|Hne].
  - now rewrite String.eqb_refl.
  - destruct (String.eqb_spec c c'); [contradiction | reflexivity].
Qed.

Lemma next_index_spec (idx idx' : dict Z) (seen : list string) (c : string) (i : Z) :
  Pipeline.counts idx seen -> Pipeline.next_index idx c = (i, idx') ->
  i = (1 + Z.of_nat (List.count_occ String.string_dec seen c))%Z /\
  Pipeline.counts idx' (c :: seen).
Proof.
  intros Hinv. unfold Pipeline.next_index. rewrite (Hinv c).
  destruct (Nat.eqb_spec (List.count_occ String.string_dec seen c) 0) as [E0 | Hpos].
  - rewrite get_set_same. cbn [default]. intros [= <- <-]. rewrite E0.
    split; [reflexivity|]. intros c'. rewrite count_occ_cons_string.
    destruct (String.eqb_spec c c') as [<- | Hne].
    + rewrite get_set_same, E0. reflexivity.
    + rewrite !get_set_other by assumption. apply Hinv.
  - rewrite (Hinv c).
    destruct (Nat.eqb_spec (List.count_occ String.string_dec seen c) 0);
      [contradiction|].
    cbn [default]. intros [= <- <-]. split; [reflexivity|].
    intros c'. rewrite count_occ_cons_string.
    destruct (String.eqb_spec c c') as [<- | Hne].
    + rewrite get_set_same. cbn [Nat.eqb]. f_equal. lia.
    + rewrite get_set_other by assumption. apply Hinv.
Qed.

Lemma process_assets_ranks (assets : list object) :
  forall (next next' : Z) (idx idx' : dict Z) (t t' : Pipeline.asset_tables)
         (seen : list string),
    Pipeline.process_assets asset_types nacc_id submitter_id today next assets
      (idx, t) = (next', Done (idx', t')) ->
    Pipeline.counts idx seen ->
    exists new,
      Pipeline.asset t' = (Pipeline.asset t ++ new)%list /\
      List.map Pipeline.row_index new =
      List.map Some (Pipeline.ranks seen (List.map Pipeline.row_category new)).
Proof.
  induction assets as [|a assets IH]; intros next next' idx idx' t t' seen H Hinv.
  - cbn in H. injection H as _ <- <-. exists []. now rewrite app_nil_r.
  - cbn [Pipeline.process_assets] in H.
    destruct (Pipeline.asset_rows _ _ _ _ next a (idx, t)) as [[idx1 t1]|e] eqn:E;
      [|discriminate].
    destruct (asset_rows_spec _ _ _ _ _ _ E) as (r & i & Ha & _ & Hi & Hn & _).
    destruct (next_index_spec _ _ _ _ _ Hinv Hn) as [-> Hinv1].
    destruct (IH _ _ _ _ _ _ _ H Hinv1) as (new & Hnew & Hranks).
    exists (r :: new). split.
    + rewrite Hnew, Ha, <- List.app_assoc. reflexivity.
    + cbn [List.map Pipeline.ranks]. now rewrite Hi, Hranks.
Qed.

(** X22.  Asset indices.  The index of an asset row counts the assets of its
    category (land, building, vehicle, rights, other) so far in the
    document: it is the rank of the row among the rows of the same
    category, from 1, so that two assets of different categories can have
    the same index. *)
Theorem process_assets_indices (assets : list object) (next next' : Z)
  (idx' : dict Z) (t' : Pipeline.asset_tables) :
  Pipeline.process_assets asset_types nacc_id submitter_id today next assets
    ([], Pipeline.no_rows) = (next', Done (idx', t')) ->
  List.map Pipeline.row_index (Pipeline.asset t') =
  List.map Some (Pipeline.ranks [] (List.map Pipeline.row_category (Pipeline.asset t'))).
Proof.
  intros H.
  destruct (process_assets_ranks assets _ _ _ _ _ _ [] H) as (new & Hnew & Hr).
  - intros c. reflexivity.
  - cbn [Pipeline.no_rows Pipeline.asset app] in Hnew. now rewrite Hnew.
Qed.

Lemma times_app (x : option Z) (l l' : list Pipeline.row) :
  Pipeline.times x (l ++ l') = (Pipeline.times x l + Pipeline.times x l')%nat.
Proof. unfold Pipeline.times. now rewrite List.filter_app, List.length_app. Qed.

Lemma times_one (x : option Z) (d : Pipeline.row) :
  Pipeline.times x [d] = if bool_decide (Pipeline.row_id d = x) then 1%nat else 0%nat.
Proof. unfold Pipeline.times. cbn [List.filter]. now destruct (bool_decide _). Qed.

Lemma times_In (x : option Z) (l : list Pipeline.row) :
  In x (List.map Pipeline.row_id l) -> (0 < Pipeline.times x l)%nat.
Proof.
  induction l as [|d l IH]; [intros []|].
  change (d :: l) with ([d] ++ l)%list. rewrite times_app, times_one.
  cbn [app List.map]. intros [H | H].
  - rewrite bool_decide_true by assumption. lia.
  - specialize (IH H). lia.
Qed.

Lemma times_NoDup (l : list Pipeline.row) :
  (forall x, (Pipeline.times x l <= 1)%nat) ->
  List.NoDup (List.map Pipeline.row_id l).
Proof.
  induction l as [|d l IH]; intros H; [constructor|].
  cbn [List.map]. constructor.
  - intros Hin. apply times_In in Hin. specialize (H (Pipeline.row_id d)).
    change (d :: l) with ([d] ++ l)%list in H. rewrite times_app, times_one in H.
    rewrite bool_decide_true in H by reflexivity. lia.
  - apply IH. intros x. specialize (H x).
    change (d :: l) with ([d] ++ l)%list in H. rewrite times_app in H. lia.
Qed.

Lemma refers_step (lo hi id : Z) (l l' assets : list Pipeline.row)
  (r : Pipeline.row) :
  (l' = l \/
   exists d, l' = (l ++ [d])%list /\ Pipeline.row_id d = Some id /\
             Json.in_range (Pipeline.row_type r) lo hi = true) ->
  Pipeline.row_id r = Some id ->
  Pipeline.refers lo hi l assets -> Pipeline.refers lo hi l' (assets ++ [r]).
Proof.
  intros Hl Hr Href d Hd.
  assert (Hold : In d l ->
                 exists r0, In r0 (assets ++ [r])%list /\
                            Pipeline.row_id r0 = Pipeline.row_id d /\
                            Pipeline.row_id d <> None /\
                            Json.in_range (Pipeline.row_type r0) lo hi = true).
  { intros H. destruct (Href d H) as (r0 & Hin & H1).
    exists r0. split; [apply in_or_app; now left | exact H1]. }
  destruct Hl as [-> | (d' & -> & Hid & Hrange)]; [now apply Hold|].
  apply in_app_or in Hd. destruct Hd as [Hd | [<- | []]]; [now apply Hold|].
  exists r. split; [apply in_or_app; right; now left|].
  rewrite Hr, Hid. repeat split; [discriminate | exact Hrange].
Qed.

(** One asset adds at most one row to the tables of details, under its
    own identifier. *)
Lemma details_step (id : Z) (a : object) (idx idx' : dict Z)
  (t t' : Pipeline.asset_tables) (x : option Z) :
  Pipeline.asset_rows asset_types nacc_id submitter_id today id a (idx, t)
  = Done (idx', t') ->
  (Pipeline.times x (Pipeline.details t') <=
   Pipeline.times x (Pipeline.details t) +
   if bool_decide (Some id = x) then 1 else 0)%nat.
Proof.
  intros H.
  destruct (asset_rows_spec _ _ _ _ _ _ H)
    as (r & i & _ & _ & _ & _ & Hl & Hb & Hv & Ho).
  unfold Pipeline.details.
  destruct Hl as [-> | (dl & -> & Hdl & Rl)], Hb as [-> | (db & -> & Hdb & Rb)],
           Hv as [-> | (dv & -> & Hdv & Rv)], Ho as [-> | (do & -> & Hdo & Ro)];
    try solve
      [ exfalso;
        first [ exact (in_range_disjoint _ 1 10 10 18 ltac:(lia) Rl Rb)
              | exact (in_range_disjoint _ 1 10 18 22 ltac:(lia) Rl Rv)
              | exact (in_range_disjoint _ 1 10 28 36 ltac:(lia) Rl Ro)
              | exact (in_range_disjoint _ 10 18 18 22 ltac:(lia) Rb Rv)
              | exact (in_range_disjoint _ 10 18 28 36 ltac:(lia) Rb Ro)
              | exact (in_range_disjoint _ 18 22 28 36 ltac:(lia) Rv Ro) ] ];
    rewrite ?times_app, ?times_one, ?Hdl, ?Hdb, ?Hdv, ?Hdo;
    destruct (bool_decide (Some id = x)); lia.
Qed.

Lemma process_assets_details (assets : list object) :
  forall (next next' : Z) (idx idx' : dict Z) (t t' : Pipeline.asset_tables),
    Pipeline.process_assets asset_types nacc_id submitter_id today next assets
      (idx, t) = (next', Done (idx', t')) ->
    (forall x, (Pipeline.times x (Pipeline.details t') <=
                Pipeline.times x (Pipeline.details t) + Pipeline.in_ids next next' x)%nat) /\
    (Pipeline.refers 1 10 (Pipeline.asset_land_info t) (Pipeline.asset t) ->
     Pipeline.refers 10 18 (Pipeline.asset_building_info t) (Pipeline.asset t) ->
     Pipeline.refers 18 22 (Pipeline.asset_vehicle_info t) (Pipeline.asset t) ->
     Pipeline.refers 28 36 (Pipeline.asset_other_asset_info t) (Pipeline.asset t) ->
     Pipeline.refers 1 10 (Pipeline.asset_land_info t') (Pipeline.asset t') /\
     Pipeline.refers 10 18 (Pipeline.asset_building_info t') (Pipeline.asset t') /\
     Pipeline.refers 18 22 (Pipeline.asset_vehicle_info t') (Pipeline.asset t') /\
     Pipeline.refers 28 36 (Pipeline.asset_other_asset_info t') (Pipeline.asset t')).
Proof.
  induction assets as [|a assets IH]; intros next next' idx idx' t t' H.
  - cbn in H. injection H as _ _ <-. split; [intros x; lia | tauto].
  - cbn [Pipeline.process_assets] in H.
    destruct (Pipeline.asset_rows _ _ _ _ next a (idx, t)) as [[idx1 t1]|e] eqn:E;
      [|discriminate].
    pose proof (process_assets_next _ _ _ _ _ H) as Hnext.
    destruct (IH _ _ _ _ _ _ H) as [Hcount Href]. split.
    + intros x. specialize (Hcount x).
      pose proof (details_step _ _ _ _ _ _ x E) as Hstep.
      assert (Hsum : ((if bool_decide (Some next = x) then 1 else 0) +
                      Pipeline.in_ids (next + 1) next' x <= Pipeline.in_ids next next' x)%nat).
      { unfold Pipeline.in_ids. destruct x as [z|].
        - destruct (bool_decide_reflect (Some next = Some z)) as [[= <-] | Hne].
          + destruct (Z.leb_spec (next + 1) next), (Z.leb_spec next next),
              (Z.ltb_spec next next'); cbn [andb]; lia.
          + assert (next <> z) by congruence.
            destruct (Z.leb_spec (next + 1) z), (Z.leb_spec next z),
              (Z.ltb_spec z next'); cbn [andb]; lia.
        - rewrite bool_decide_false by discriminate. lia. }
      lia.
    + intros Rl Rb Rv Ro.
      destruct (asset_rows_spec _ _ _ _ _ _ E)
        as (r & i & Ha & Hid & _ & _ & Hl & Hb & Hv & Ho).
      apply Href; rewrite Ha.
      * now apply (refers_step 1 10 next (Pipeline.asset_land_info t)).
      * now apply (refers_step 10 18 next (Pipeline.asset_building_info t)).
      * now apply (refers_step 18 22 next (Pipeline.asset_vehicle_info t)).
      * now apply (refers_step 28 36 next (Pipeline.asset_other_asset_info t)).
Qed.

(** X23.  Detail rows.  After the assets of a document, every row of the four
    tables of details carries the identifier of an asset row of the
    document whose type lies in the range of that table (1-9 for land,
    10-17 for buildings, 18-21 for vehicles, 28-35 for other assets), and
    no two detail rows carry the same identifier: an asset has at most one
    detail row, and an asset of the types 22-27 and 36-39 has none. *)
Theorem process_assets_detail_rows (assets : list object) (next next' : Z)
  (idx' : dict Z) (t' : Pipeline.asset_tables) :
  Pipeline.process_assets asset_types nacc_id submitter_id today next assets
    ([], Pipeline.no_rows) = (next', Done (idx', t')) ->
  List.NoDup (List.map Pipeline.row_id (Pipeline.details t')) /\
  Pipeline.refers 1 10 (Pipeline.asset_land_info t') (Pipeline.asset t') /\
  Pipeline.refers 10 18 (Pipeline.asset_building_info t') (Pipeline.asset t') /\
  Pipeline.refers 18 22 (Pipeline.asset_vehicle_info t') (Pipeline.asset t') /\
  Pipeline.refers 28 36 (Pipeline.asset_other_asset_info t') (Pipeline.asset t').
Proof.
  intros H. destruct (process_assets_details assets _ _ _ _ _ _ H) as [Hc Hr].
  split.
  - apply times_NoDup. intros x. specialize (Hc x).
    assert (Pipeline.in_ids next next' x <= 1)%nat.
    { unfold Pipeline.in_ids. destruct x; [destruct (_ && _)|]; lia. }
    cbn in Hc. lia.
  - apply Hr; intros d [].
Qed.

End AssetProperties.

Lemma process_assets_indices_witness :
  List.map Pipeline.row_index (Pipeline.asset (snd SampleAssets.processed)) =
  [Some 1; Some 1; Some 2; Some 3]%Z.
Proof.
  etransitivity.
  - apply (process_assets_indices DF.new 7 1 SampleAssets.today
             SampleAssets.assets 100 104 (fst SampleAssets.processed)
             (snd SampleAssets.processed)).
    vm_compute. reflexivity.
  - vm_compute. reflexivity.
Defined.

Lemma process_assets_detail_rows_witness :
  List.NoDup (List.map Pipeline.row_id (Pipeline.details (snd SampleAssets.processed))) /\
  Pipeline.refers 1 10 (Pipeline.asset_land_info (snd SampleAssets.processed))
    (Pipeline.asset (snd SampleAssets.processed)) /\
  Pipeline.refers 10 18 (Pipeline.asset_building_info (snd SampleAssets.processed))
    (Pipeline.asset (snd SampleAssets.processed)) /\
  Pipeline.refers 18 22 (Pipeline.asset_vehicle_info (snd SampleAssets.processed))
    (Pipeline.asset (snd SampleAssets.processed)) /\
  Pipeline.refers 28 36 (Pipeline.asset_other_asset_info (snd SampleAssets.processed))
    (Pipeline.asset (snd SampleAssets.processed)).
Proof.
  apply (process_assets_detail_rows DF.new 7 1 SampleAssets.today
           SampleAssets.assets 100 104 (fst SampleAssets.processed)
           (snd SampleAssets.processed)).
  vm_compute. reflexivity.
Defined.

(** X24.  The category that the pipeline gives to each member of [AssetType] is
    the family that the name of the member announces: land for 1-9 and 36,
    building for 10-17 and 37, vehicle for 18-21 and 38, rights for 22-27
    and 39, other for 28-35. *)
Theorem asset_category_matches_AssetType :
  Forall (fun '(name, id) =>
            Pipeline.get_asset_category (Json.of_Z id) = family name)
         AssetType.
Proof.
  unfold AssetType.
  repeat (constructor; [vm_compute; reflexivity|]). constructor.
Qed.

(** X25.  [strip_leading_zeros] returns the integer that [int] reads from the
    value whenever [int] accepts it, and the value itself when [int]
    rejects it ([None], an object and a text that is no integer are
    kept).  It fails, with OverflowError, on an infinite float only, and
    applied again to what it returns it changes nothing. *)
Theorem strip_leading_zeros_outcome (val : member) :
  match val with
  | Scalar v =>
      match Py.int v with
      | Ok z => Pipeline.strip_leading_zeros val = Done (Json.of_Z z)
      | Raise e =>
          if caught e then Pipeline.strip_leading_zeros val = Done val
          else Pipeline.strip_leading_zeros val
               = Failed (Conversion OverflowError) /\
               is_infinite v
      end
  | Object _ => Pipeline.strip_leading_zeros val = Done val
  end /\
  match Pipeline.strip_leading_zeros val with
  | Done out => Pipeline.strip_leading_zeros out = Done out
  | Failed r => r = Conversion OverflowError
  end.
Proof.
  destruct val as [v|o]; [|split; reflexivity].
  unfold Pipeline.strip_leading_zeros.
  destruct (Py.int v) as [z|e] eqn:E.
  - split; [now destruct v|]. now destruct v.
  - destruct (int_raises v e E) as [Hc | [-> Hinf]].
    + rewrite Hc. split; [now destruct v|].
      destruct v; try reflexivity; now rewrite E, Hc.
    + cbn [caught]. destruct Hinf as (n & shown & ->). cbn.
      split; [|reflexivity]. split; [reflexivity|]. now exists n, shown.
Qed.

(** X26.  The success rate is the share of processed documents among those
    tried, a number from 0 to 1, and 0 (not a division by zero) when no
    document was tried. *)
Theorem success_rate_range (processed_docs failed_docs : nat) :
  F.is_score (Pipeline.success_rate processed_docs failed_docs) /\
  F.has_value (Pipeline.success_rate processed_docs failed_docs)
    (if (0 <? processed_docs + failed_docs)%nat
     then inject_Z (Z.of_nat processed_docs) /
          inject_Z (Z.of_nat (processed_docs + failed_docs))
     else 0).
Proof.
  unfold Pipeline.success_rate.
  destruct (Nat.ltb_spec 0 (processed_docs + failed_docs)) as [Hpos | Hz].
  - unfold F.of_nat, F.of_Z. cbn [F.div]. rewrite (is_zero_inject_nat _ Hpos).
    cbn [F.is_score F.has_value]. split; [|reflexivity].
    pose proof (inject_nat_pos _ Hpos) as Hq. split.
    + apply Qle_shift_div_l; [assumption|]. rewrite Qmult_0_l.
      change 0 with (inject_Z 0). rewrite <- Zle_Qle. lia.
    + apply Qle_shift_div_r; [assumption|]. rewrite Qmult_1_l.
      rewrite <- Zle_Qle. lia.
  - unfold F.of_Z. change (inject_Z 0) with 0.
    cbn [F.is_score F.has_value]. split; [lra | reflexivity].
Qed.

(** ** The asset type matcher *)

(** X27.  The asset type matcher loads the table of asset types first, and
    fails as the loading fails (FileNotFoundError when [asset_type.csv] is
    not there), whatever it is asked.  With the table loaded and no
    sub-type, what the table holds plays no part: the answer is the first
    family of the main type, one of 1, 10, 18, 19, 22 and 28, and 1 when
    the main type is missing; the only failure left is that of a main type
    that is not a text. *)
Theorem match_asset_type_id_without_sub_type
  (load_enum : string -> outcome DataFrame) (main_type sub_type : member) :
  Json.truthy sub_type = false ->
  match load_enum "asset_type" with
  | Failed r =>
      EnumFiles.match_asset_type_id load_enum main_type sub_type = Failed r
  | Done _ =>
      match EnumFiles.match_asset_type_id load_enum main_type sub_type with
      | Done id =>
          In id [1; 10; 18; 19; 22; 28]%Z /\
          (Json.truthy main_type = false -> id = 1%Z)
      | Failed r =>
          r = AttributeError /\ Json.truthy main_type = true /\
          forall t, main_type <> Scalar (VStr t)
      end
  end.
Proof.
  intros Hs. unfold EnumFiles.match_asset_type_id, EnumFiles.get_asset_types.
  destruct (load_enum "asset_type") as [asset_types|r];
    cbn [mbind outcome_bind]; [|reflexivity].
  unfold match_asset_type_id, Json.lower_strip. rewrite Hs.
  destruct (Json.truthy main_type) eqn:Hm.
  - destruct main_type as [[| b | z | x shown | t] | o];
      cbn [mbind outcome_bind]; try (repeat split; congruence).
    split; [|discriminate].
    unfold EnumLoader.type_mapping. rewrite !first_key_cons.
    repeat match goal with
           | |- context [if ?b then _ else _] => destruct b
           end; cbn; tauto.
  - cbn [mbind outcome_bind]. split; [cbn; tauto | reflexivity].
Qed.

Lemma match_asset_type_id_without_sub_type_witness :
  EnumFiles.match_asset_type_id (fun _ => Failed FileNotFoundError)
    (Scalar (VStr "land")) (Scalar VNone) = Failed FileNotFoundError /\
  match EnumFiles.match_asset_type_id (fun _ => Done DF.new)
          (Scalar (VStr " Land and Building ")) (Scalar VNone) with
  | Done id =>
      In id [1; 10; 18; 19; 22; 28]%Z /\
      (Json.truthy (Scalar (VStr " Land and Building ")) = false -> id = 1%Z)
  | Failed r =>
      r = AttributeError /\
      Json.truthy (Scalar (VStr " Land and Building ")) = true /\
      forall t, Scalar (VStr " Land and Building ") <> Scalar (VStr t)
  end.
Proof.
  split.
  - apply (match_asset_type_id_without_sub_type
             (fun _ => Failed FileNotFoundError)
             (Scalar (VStr "land")) (Scalar VNone)).
    reflexivity.
  - apply (match_asset_type_id_without_sub_type (fun _ => Done DF.new)
             (Scalar (VStr " Land and Building ")) (Scalar VNone)).
    reflexivity.
Defined.

(** ** Pages of a PDF *)

Section PdfProperties.

Context {page zoom quality : Type}.
Variable encode : page -> zoom -> quality -> string.

Lemma collect_pages (prefix rest : list page) (k : nat) (z : zoom) (q : quality) :
  (k <= List.length rest)%nat ->
  collect (fun i => get_page_base64 (prefix ++ rest) encode i z q)
    (List.map (fun i => (Z.of_nat (List.length prefix) + Z.of_nat i)%Z)
              (List.seq 0 k)) =
  Ok (List.map (fun p => encode p z q) (List.firstn k rest)).
Proof.
  revert prefix rest. induction k as [|k IH]; intros prefix rest Hk;
    [reflexivity|].
  destruct rest as [|p rest]; [cbn in Hk; lia|].
  cbn [List.seq List.map collect List.firstn].
  assert (E : get_page_base64 (prefix ++ p :: rest) encode
                (Z.of_nat (List.length prefix) + Z.of_nat 0)%Z z q
              = Ok (encode p z q)).
  { unfold get_page_base64, num_pages. rewrite List.length_app. cbn [List.length].
    destruct (Z.ltb_spec (Z.of_nat (List.length prefix) + Z.of_nat 0) 0); [lia|].
    destruct (Z.leb_spec (Z.of_nat (List.length prefix + S (List.length rest)))
                (Z.of_nat (List.length prefix) + Z.of_nat 0)); [lia|].
    cbn [orb].
    replace (Z.to_nat (Z.of_nat (List.length prefix) + Z.of_nat 0))
      with (List.length prefix + 0)%nat by lia.
    rewrite List.nth_error_app2 by lia.
    replace (List.length prefix + 0 - List.length prefix)%nat with 0%nat by lia.
    reflexivity. }
  rewrite E. cbn [mbind result_bind].
  specialize (IH (prefix ++ [p])%list rest ltac:(cbn in Hk; lia)).
  rewrite <- List.app_assoc in IH. cbn [app] in IH.
  rewrite <- List.seq_shift, List.map_map.
  erewrite List.map_ext; [rewrite IH; reflexivity|].
  intros i. cbn beta. rewrite List.length_app. cbn [List.length]. lia.
Qed.

(** X28.  Reading a range of pages that starts at a page number that is not
    negative never fails: the end is cut at the number of pages, and the
    pages from [start] up to it are returned, in order.  Reading all pages
    returns every page, and is the range from 0 without an end. *)
Theorem pages_range_is_slice (doc : list page) (start : Z) (end_ : option Z)
  (z : zoom) (q : quality) :
  (0 <= start)%Z ->
  get_pages_range_base64 doc encode start end_ z q =
  Ok (List.map (fun p => encode p z q)
        (List.firstn
           (Z.to_nat (Z.min (default (num_pages doc) end_) (num_pages doc) - start))
           (List.skipn (Z.to_nat start) doc))) /\
  get_all_pages_base64 doc encode z q = Ok (List.map (fun p => encode p z q) doc) /\
  get_all_pages_base64 doc encode z q =
  get_pages_range_base64 doc encode 0 None z q.
Proof.
  intros Hstart.
  assert (Hall : get_all_pages_base64 doc encode z q =
                 Ok (List.map (fun p => encode p z q) doc)).
  { unfold get_all_pages_base64, range, num_pages.
    rewrite Z.sub_0_r, Nat2Z.id.
    pose proof (collect_pages [] doc (List.length doc) z q (Nat.le_refl _)) as H.
    cbn [app List.length] in H. rewrite List.firstn_all in H. exact H. }
  split; [|split; [exact Hall|]].
  - unfold get_pages_range_base64, range.
    set (stop := Z.min (default (num_pages doc) end_) (num_pages doc)).
    assert (Hstop : (stop <= Z.of_nat (List.length doc))%Z)
      by (unfold stop, num_pages; lia).
    destruct (Z.le_gt_cases stop start) as [Hle | Hlt].
    + replace (Z.to_nat (stop - start)) with 0%nat by lia. reflexivity.
    + set (s := Z.to_nat start).
      pose proof (collect_pages (List.firstn s doc) (List.skipn s doc)
                    (Z.to_nat (stop - start)) z q) as H.
      rewrite List.firstn_skipn in H.
      rewrite List.length_firstn, List.length_skipn in H.
      rewrite Nat.min_l in H by (unfold s; lia).
      replace (Z.of_nat s) with start in H by (unfold s; lia).
      apply H. unfold s. lia.
  - unfold get_all_pages_base64, get_pages_range_base64. cbn [default].
    now rewrite Z.min_id.
Qed.

End PdfProperties.

Lemma pages_range_is_slice_witness :
  get_pages_range_base64 ["a"; "b"; "c"; "d"] (fun p (_ _ : unit) => p)
    1 (Some 9%Z) tt tt = Ok ["b"; "c"; "d"].
Proof.
  apply (pages_range_is_slice (fun p (_ _ : unit) => p) ["a"; "b"; "c"; "d"]
           1 (Some 9%Z) tt tt).
  lia.
Defined.
